(** * telega: the request correlator, the error classifier and the
      pagination engines of [telega/client.py]

    The client is a synchronous facade over TDLib's asynchronous JSON
    interface.  This development embeds [TelegramTDLibClient] as pure
    functions over an explicit world: the transport channel, the wall
    clock and the uuid generator are oracles read through counters, and
    everything the client does to the outside (envelopes sent, sleeps, log
    records) is appended to the world. *)

From Stdlib Require Import ZArith QArith List String Ascii Bool Lia Lqa.
From Stdlib Require Import DecimalString.
Import ListNotations.

Local Open Scope string_scope.
Local Open Scope Z_scope.

(** ** JSON values as Python sees them *)

(** What [json.loads] produces and [json.dumps] accepts: [None], booleans,
    integers, strings, lists, and dicts with string keys.  A dict is an
    association list with unique keys in insertion order, as Python keeps
    it.  TDLib's schema uses integers for every number the client reads
    (identifiers, error codes, counts), so JSON reals are left out. *)
#[warnings="-register-all"]
Inductive value : Type :=
| VNone
| VBool (b : bool)
| VInt (z : Z)
| VStr (s : string)
| VList (l : list value)
| VDict (d : list (string * value)).

Definition dict := list (string * value).

(** [bool(v)]. *)
Definition truthy (v : value) : bool :=
  match v with
  | VNone => false
  | VBool b => b
  | VInt z => negb (z =? 0)
  | VStr s => negb (s =? "")%string
  | VList l => match l with [] => false | _ => true end
  | VDict d => match d with [] => false | _ => true end
  end.

(** [a == b] where at least one side is a scalar (every comparison of the
    client has a literal, a uuid or a hashable set element on one side).
    Booleans are the integers 0 and 1; a container never equals a scalar. *)
Definition py_eq (a b : value) : bool :=
  match a, b with
  | VNone, VNone => true
  | VBool x, VBool y => Bool.eqb x y
  | VBool x, VInt y => Z.b2z x =? y
  | VInt x, VBool y => x =? Z.b2z y
  | VInt x, VInt y => x =? y
  | VStr x, VStr y => (x =? y)%string
  | _, _ => false
  end.

Fixpoint dict_get (k : string) (d : dict) : option value :=
  match d with
  | [] => None
  | (k', v) :: rest => if (k =? k')%string then Some v else dict_get k rest
  end.

(** [d[k] = v]: an existing key keeps its position, a new one goes last. *)
Fixpoint dict_set (k : string) (v : value) (d : dict) : dict :=
  match d with
  | [] => [(k, v)]
  | (k', v') :: rest =>
      if (k =? k')%string then (k, v) :: rest else (k', v') :: dict_set k v rest
  end.

(** [d.update(params)]. *)
Definition dict_update (d params : dict) : dict :=
  fold_left (fun acc kv => dict_set (fst kv) (snd kv) acc) params d.

(** ** Exceptions *)

(** The classes of [telega.errors] the client raises. *)
Inductive error_kind : Type :=
| TDLibError
| InvalidPhoneNumber
| PasswordError
| TwoFactorPasswordNeeded
| PhoneCodeInvalid
| NoPermission
| ObjectNotFound
| AlreadyAuthorized
| AlreadyLoggingOut
| AuthError
| TooManyRequests
| UnknownError.

(** The text of an exception or of a log record: a literal, or a
    %-format with the values interpolated into it.  The arguments are
    kept as values; [render] gives the string for scalar arguments. *)
Inductive text : Type :=
| Lit (s : string)
| Fmt (fmt : string) (args : list value).

Inductive exn : Type :=
| TelegaError (k : error_kind) (msg : option text)
| ValueError (msg : text)
| KeyError (key : string)
| TypeError
| AttributeError
| IndexError.

(** ** The world *)

(** The collaborators the client does not implement.  [receive_at n] is
    what the [n]-th call of [TDJson.receive] returns ([VNone] when the
    poll interval passes with nothing to deliver), [time_at n] the [n]-th
    reading of [time.time()] in seconds, [uuid_at n] the [n]-th
    [uuid.uuid4().hex].  Clock readings are floats, kept as the rationals
    they denote; [float_sub a b] is the float the platform computes for
    [a - b], of whose rounding nothing is assumed. *)
Record environment : Type := {
  receive_at : nat -> value;
  time_at : nat -> Q;
  uuid_at : nat -> string;
  float_sub : Q -> Q -> Q
}.

Inductive log_level : Type := INFO | WARNING.

Record world : Type := {
  sent : list value;        (* envelopes given to [TDJson.send], oldest first *)
  received : nat;           (* calls of [TDJson.receive] so far *)
  clock_reads : nat;        (* calls of [time.time] so far *)
  uuids : nat;              (* calls of [uuid.uuid4] so far *)
  slept : list Q;           (* arguments of [sleep], oldest first *)
  logged : list (log_level * text)
}.

(** The constructor arguments the modelled methods read. *)
Record client : Type := {
  phone : string;
  request_timeout : option Q;
  request_delay : Q
}.

(** ** Computations: state, exceptions and divergence *)

Inductive outcome (A : Type) : Type :=
| Ret (a : A)
| Raise (e : exn)
| Diverge.
Arguments Ret {A} a.
Arguments Raise {A} e.
Arguments Diverge {A}.

Definition M (A : Type) : Type := world -> outcome A * world.

Definition ret {A} (a : A) : M A := fun w => (Ret a, w).
Definition raise {A} (e : exn) : M A := fun w => (Raise e, w).
Definition diverge {A} : M A := fun w => (Diverge, w).

Definition bind {A B} (m : M A) (k : A -> M B) : M B :=
  fun w =>
    match m w with
    | (Ret a, w') => k a w'
    | (Raise e, w') => (Raise e, w')
    | (Diverge, w') => (Diverge, w')
    end.

Notation "x <- m ;; k" := (bind m (fun x => k))
  (at level 61, m at next level, right associativity).
Notation "m ;;; k" := (bind m (fun _ => k))
  (at level 61, right associativity).

Definition lift {A} (r : exn + A) : M A :=
  match r with inl e => raise e | inr a => ret a end.

(** ** Python primitives *)

(** [v[key]] for a string key. *)
Definition getitem (v : value) (key : string) : exn + value :=
  match v with
  | VDict d => match dict_get key d with
               | Some x => inr x
               | None => inl (KeyError key)
               end
  | _ => inl TypeError
  end.

(** [v.get(key, default)]: only a dict has the method. *)
Definition py_get (v : value) (key : string) (default : value) : exn + value :=
  match v with
  | VDict d => match dict_get key d with
               | Some x => inr x
               | None => inr default
               end
  | _ => inl AttributeError
  end.

Fixpoint chars (s : string) : list value :=
  match s with
  | EmptyString => []
  | String a rest => VStr (String a EmptyString) :: chars rest
  end.

(** The elements [for x in v] visits. *)
Definition py_iter (v : value) : exn + list value :=
  match v with
  | VList l => inr l
  | VStr s => inr (chars s)
  | VDict d => inr (map (fun kv => VStr (fst kv)) d)
  | _ => inl TypeError
  end.

(** [len(v)]. *)
Definition py_len (v : value) : exn + Z :=
  match v with
  | VList l => inr (Z.of_nat (List.length l))
  | VStr s => inr (Z.of_nat (String.length s))
  | VDict d => inr (Z.of_nat (List.length d))
  | _ => inl TypeError
  end.

(** [x in s] for a set [s], kept as the list of its elements: hashing a
    list or a dict raises. *)
Definition set_contains (x : value) (s : list value) : exn + bool :=
  match x with
  | VList _ | VDict _ => inl TypeError
  | _ => inr (existsb (py_eq x) s)
  end.

(** [l[-1]]. *)
Definition list_last (l : list value) : exn + value :=
  match rev l with
  | [] => inl IndexError
  | x :: _ => inr x
  end.

(** [str(v)] of a scalar. *)
Definition py_str (v : value) : option string :=
  match v with
  | VNone => Some "None"%string
  | VBool true => Some "True"%string
  | VBool false => Some "False"%string
  | VInt z => Some (NilZero.string_of_int (Z.to_int z))
  | VStr s => Some s
  | _ => None
  end.

(** One directive of a %-format: [%s] is [str], [%d] takes an integer
    (a boolean counts as 0 or 1). *)
Definition directive (d : ascii) (a : value) : option string :=
  if Ascii.eqb d "s" then py_str a
  else if Ascii.eqb d "d" then
    match a with
    | VInt _ => py_str a
    | VBool b => py_str (VInt (Z.b2z b))
    | _ => None
    end
  else None.

(** [fmt % args] for a format whose only directives are [%s] and [%d]. *)
Fixpoint format (fmt : string) (args : list value) : option string :=
  match fmt with
  | EmptyString => match args with [] => Some EmptyString | _ => None end
  | String "%" (String d rest) =>
      match args with
      | a :: args' =>
          match directive d a, format rest args' with
          | Some s, Some r => Some (s ++ r)%string
          | _, _ => None
          end
      | [] => None
      end
  | String c rest =>
      match format rest args with
      | Some r => Some (String c r)
      | None => None
      end
  end.

Definition render (t : text) : option string :=
  match t with
  | Lit s => Some s
  | Fmt fmt args => format fmt args
  end.

(** The double quote character, for the texts that contain it. *)
Definition dquote : string := String (ascii_of_nat 34) EmptyString.

Module AuthStates.
Definition Ready := "authorizationStateReady"%string.
Definition WaitTdlibParameters := "authorizationStateWaitTdlibParameters"%string.
Definition WaitEncryptionKey := "authorizationStateWaitEncryptionKey"%string.
Definition WaitPhoneNumber := "authorizationStateWaitPhoneNumber"%string.
Definition WaitCode := "authorizationStateWaitCode"%string.
Definition WaitPassword := "authorizationStateWaitPassword"%string.
Definition LoggingOut := "authorizationStateLoggingOut"%string.
Definition Closing := "authorizationStateClosing"%string.
Definition Closed := "authorizationStateClosed"%string.
End AuthStates.

(** Class attributes of [TelegramTDLibClient]. *)
Definition default_timeout : option Q := Some (60 # 1)%Q.
Definition default_request_delay : Q := (1 # 2)%Q.
Definition default_chats_page_size : Z := 100.
Definition default_members_page_size : Z := 200.

(** ** Effects *)

Section Client.

Variable E : environment.

(** [self._tdjson_client.send(data)]. *)
Definition send (data : value) : M unit :=
  fun w => (Ret tt,
            {| sent := sent w ++ [data]; received := received w;
               clock_reads := clock_reads w; uuids := uuids w;
               slept := slept w; logged := logged w |}).

(** [self._tdjson_client.receive(0.1)]. *)
Definition receive : M value :=
  fun w => (Ret (receive_at E (received w)),
            {| sent := sent w; received := S (received w);
               clock_reads := clock_reads w; uuids := uuids w;
               slept := slept w; logged := logged w |}).

(** [time.time()]. *)
Definition time_time : M Q :=
  fun w => (Ret (time_at E (clock_reads w)),
            {| sent := sent w; received := received w;
               clock_reads := S (clock_reads w); uuids := uuids w;
               slept := slept w; logged := logged w |}).

(** [uuid.uuid4().hex]. *)
Definition uuid4_hex : M string :=
  fun w => (Ret (uuid_at E (uuids w)),
            {| sent := sent w; received := received w;
               clock_reads := clock_reads w; uuids := S (uuids w);
               slept := slept w; logged := logged w |}).

(** [sleep(d)]: a negative length is refused. *)
Definition sleep (d : Q) : M unit :=
  fun w =>
    if Qle_bool 0 d then
      (Ret tt,
       {| sent := sent w; received := received w;
          clock_reads := clock_reads w; uuids := uuids w;
          slept := slept w ++ [d]; logged := logged w |})
    else (Raise (ValueError (Lit "sleep length must be non-negative")), w).

(** [logger.info(...)] and [logger.warning(...)]. *)
Definition log (lvl : log_level) (t : text) : M unit :=
  fun w => (Ret tt,
            {| sent := sent w; received := received w;
               clock_reads := clock_reads w; uuids := uuids w;
               slept := slept w; logged := logged w ++ [(lvl, t)] |}).

(** ** The error classifier *)

Definition exc_msg (code message : value) : text :=
  Fmt "Telegram error: %s -> %s" [code; message].

(** [_handle_errors] from its first test on the message to its last
    [raise]: the kind raised for an error envelope. *)
Definition classify (code message : value) : error_kind :=
  if py_eq message (VStr "PHONE_NUMBER_INVALID") then InvalidPhoneNumber
  else if py_eq message (VStr "PASSWORD_HASH_INVALID") then PasswordError
  else if py_eq message (VStr "PHONE_CODE_INVALID") then PhoneCodeInvalid
  else if py_eq message (VStr "Supergroup members are unavailable") then NoPermission
  else if py_eq message (VStr "Chat not found") then ObjectNotFound
  else if py_eq message (VStr "setAuthenticationPhoneNumber unexpected") then AlreadyAuthorized
  else if py_eq message (VStr "Already logging out") then AlreadyLoggingOut
  else if py_eq code (VInt 401) || py_eq message (VStr "Unauthorized") then AuthError
  else if py_eq code (VInt 429) || py_eq code (VInt 420) then TooManyRequests
  else UnknownError.

Definition _handle_errors (response : value) : exn + unit :=
  match getitem response "@type" with
  | inl e => inl e
  | inr ty =>
      if py_eq ty (VStr "error") then
        match py_get response "message" (VStr "Empty error message") with
        | inl e => inl e
        | inr message =>
            match py_get response "code" VNone with
            | inl e => inl e
            | inr code =>
                inl (TelegaError (classify code message)
                                 (Some (exc_msg code message)))
            end
        end
      else inr tt
  end.

(** ** The request correlator *)

(** A timeout is [None] or a number of seconds. *)
Definition timeout_truthy (timeout : option Q) : bool :=
  match timeout with
  | None => false
  | Some t => negb (Qeq_bool t 0)
  end.

(** [timeout or self.request_timeout]. *)
Definition timeout_or (timeout default : option Q) : option Q :=
  if timeout_truthy timeout then timeout else default.

(** [response.get('@extra', {}).get('request_id')]. *)
Definition received_request_id (response : value) : exn + value :=
  match py_get response "@extra" (VDict []) with
  | inl e => inl e
  | inr extra => py_get extra "request_id" VNone
  end.

(** [timeout and time.time() - started_at > timeout]: the clock is read
    only for a truthy timeout. *)
Definition timed_out (timeout : option Q) (started_at : Q) : M bool :=
  match timeout with
  | Some t =>
      if timeout_truthy timeout then
        now <- time_time ;;
        ret (negb (Qle_bool (float_sub E now started_at) t))
      else ret false
  | None => ret false
  end.

Definition TimeOutError : exn :=
  TelegaError UnknownError (Some (Lit "TimeOutError")).

(** The [while True] loop of [_wait_result]; [polls] bounds its
    iterations. *)
Fixpoint wait_loop (polls : nat) (request_id : string) (timeout : option Q)
    (started_at : Q) : M value :=
  match polls with
  | O => diverge
  | S polls' =>
      response <- receive ;;
      let continue :=
        expired <- timed_out timeout started_at ;;
        if expired then raise TimeOutError
        else wait_loop polls' request_id timeout started_at in
      if truthy response then
        rid <- lift (received_request_id response) ;;
        if py_eq (VStr request_id) rid then
          lift (_handle_errors response) ;;;
          ret response
        else continue
      else continue
  end.

Definition _wait_result (polls : nat) (request_id : string)
    (timeout : option Q) : M value :=
  started_at <- time_time ;;
  wait_loop polls request_id timeout started_at.

(** The envelope [call_method] builds before [data.update(params)]. *)
Definition request_envelope (method_name request_id : string) : dict :=
  [("@type", VStr method_name);
   ("@extra", VDict [("request_id", VStr request_id)])].

Definition call_method (polls : nat) (self : client) (method_name : string)
    (timeout : option Q) (params : dict) : M value :=
  let timeout := timeout_or timeout (request_timeout self) in
  request_id <- uuid4_hex ;;
  let data := dict_update (request_envelope method_name request_id) params in
  send (VDict data) ;;;
  _wait_result polls request_id timeout.

(** ** Authorization *)

Definition get_auth_state (polls : nat) (self : client) : M value :=
  result <- call_method polls self "getAuthorizationState" None [] ;;
  lift (getitem result "@type").

Definition is_authorized (polls : nat) (self : client) : M bool :=
  authorization_state <- get_auth_state polls self ;;
  ret (py_eq authorization_state (VStr AuthStates.Ready)).

(** [not password] for [password: str = None]. *)
Definition password_missing (password : option string) : bool :=
  match password with
  | None => true
  | Some p => (p =? "")%string
  end.

Definition send_sms_code (polls : nat) (self : client) (sms_code : string)
    (password : option string) : M unit :=
  authorization_state <- get_auth_state polls self ;;
  authorization_state <-
    (if py_eq authorization_state (VStr AuthStates.WaitCode) then
       send_code_result <-
         call_method polls self "checkAuthenticationCode" None
                     [("code", VStr sms_code)] ;;
       log INFO (Fmt "checkAuthenticationCode response: %s" [send_code_result]) ;;;
       get_auth_state polls self
     else ret authorization_state) ;;
  (if py_eq authorization_state (VStr AuthStates.WaitPassword) then
     if password_missing password
     then raise (TelegaError TwoFactorPasswordNeeded None)
     else
       send_password_result <-
         call_method polls self "checkAuthenticationPassword" None
                     [("password", match password with
                                   | Some p => VStr p
                                   | None => VNone
                                   end)] ;;
       log INFO (Fmt "checkAuthenticationPassword response: %s"
                     [send_password_result])
   else ret tt) ;;;
  get_auth_state polls self ;;;
  ret tt.

(** ** Pagination engines *)

Definition invalid_page_size : exn :=
  TelegaError TDLibError
    (Some (Lit ("Invalid " ++ dquote ++ "page_size" ++ dquote))).

(** *** Chat listing *)

(** The variables of [get_all_chats] that live across pages.  The set
    [added_chat_ids] is kept as the list of its elements, in the order
    they were added. *)
Record chats_state : Type := {
  chats : list value;
  added_chat_ids : list value;
  offset_order : value
}.

(** [for chat_id in chat_id_list: ...]. *)
Fixpoint add_new_chats (polls : nat) (self : client) (chat_id_list : list value)
    (chats : list value) (added_chat_ids : list value)
    : M (list value * list value) :=
  match chat_id_list with
  | [] => ret (chats, added_chat_ids)
  | chat_id :: rest =>
      seen <- lift (set_contains chat_id added_chat_ids) ;;
      if seen then add_new_chats polls self rest chats added_chat_ids
      else
        result <- call_method polls self "getChat" None [("chat_id", chat_id)] ;;
        add_new_chats polls self rest (chats ++ [result])
                      (added_chat_ids ++ [chat_id])
  end.

(** One turn of [while has_next_page]: the new value of [has_next_page]
    and of the loop's variables. *)
Definition get_all_chats_page (polls : nat) (self : client) (page_size : Z)
    (st : chats_state) : M (bool * chats_state) :=
  result <- call_method polls self "getChats" None
              [("offset_order", offset_order st);
               ("offset_chat_id", VInt 0);
               ("limit", VInt page_size)] ;;
  chat_id_list <- lift (getitem result "chat_ids") ;;
  ids <- lift (py_iter chat_id_list) ;;
  acc <- add_new_chats polls self ids (chats st) (added_chat_ids st) ;;
  full <- (if truthy chat_id_list then
             n <- lift (py_len chat_id_list) ;;
             ret (negb (n <? page_size))
           else ret false) ;;
  if full then
    last_chat <- lift (list_last (fst acc)) ;;
    order <- lift (getitem last_chat "order") ;;
    sleep (request_delay self) ;;;
    ret (true, {| chats := fst acc; added_chat_ids := snd acc;
                  offset_order := order |})
  else
    ret (false, {| chats := fst acc; added_chat_ids := snd acc;
                   offset_order := offset_order st |}).

(** [while has_next_page]; [pages] bounds its turns. *)
Fixpoint get_all_chats_loop (pages polls : nat) (self : client) (page_size : Z)
    (st : chats_state) : M chats_state :=
  match pages with
  | O => diverge
  | S pages' =>
      r <- get_all_chats_page polls self page_size st ;;
      if fst r then get_all_chats_loop pages' polls self page_size (snd r)
      else ret (snd r)
  end.

Definition get_all_chats_init : chats_state :=
  {| chats := []; added_chat_ids := []; offset_order := VInt (2 ^ 63 - 1) |}.

Definition get_all_chats (pages polls : nat) (self : client) (page_size : Z)
    : M (list value) :=
  if page_size <=? 1 then raise invalid_page_size
  else
    st <- get_all_chats_loop pages polls self page_size get_all_chats_init ;;
    ret (chats st).

(** *** Group members *)

Definition get_user (polls : nat) (self : client) (user_id : value) : M value :=
  call_method polls self "getUser" None [("user_id", user_id)].

(** The variables of [_get_super_group_members] that live across pages. *)
Record members_state : Type := {
  members : list value;
  added_ids : list value;
  offset : Z;
  total_count : value
}.

(** [for member in page: ...]. *)
Fixpoint add_new_members (page : list value) (members added_ids : list value)
    : exn + (list value * list value) :=
  match page with
  | [] => inr (members, added_ids)
  | member :: rest =>
      match getitem member "user_id" with
      | inl e => inl e
      | inr user_id =>
          match set_contains user_id added_ids with
          | inl e => inl e
          | inr true => add_new_members rest members added_ids
          | inr false =>
              add_new_members rest (members ++ [member]) (added_ids ++ [user_id])
          end
      end
  end.

Definition _get_super_group_members_page (polls : nat) (self : client)
    (chat : value) (page_size : Z) (st : members_state)
    : M (bool * members_state) :=
  chat_type <- lift (getitem chat "type") ;;
  supergroup_id <- lift (getitem chat_type "supergroup_id") ;;
  response <- call_method polls self "getSupergroupMembers" None
                [("supergroup_id", supergroup_id);
                 ("offset", VInt (offset st));
                 ("limit", VInt page_size)] ;;
  page <- lift (getitem response "members") ;;
  total_count <- lift (getitem response "total_count") ;;
  items <- lift (py_iter page) ;;
  acc <- lift (add_new_members items (members st) (added_ids st)) ;;
  n <- lift (py_len page) ;;
  r <- (if negb (n =? 0) then
          sleep (request_delay self) ;;;
          ret (true, {| members := fst acc; added_ids := snd acc;
                        offset := offset st + n; total_count := total_count |})
        else
          ret (false, {| members := fst acc; added_ids := snd acc;
                         offset := offset st; total_count := total_count |})) ;;
  log INFO (Fmt "Got %d members. Total: %d"
                [VInt n; VInt (Z.of_nat (List.length (fst acc)))]) ;;;
  ret r.

Fixpoint _get_super_group_members_loop (pages polls : nat) (self : client)
    (chat : value) (page_size : Z) (st : members_state) : M members_state :=
  match pages with
  | O => diverge
  | S pages' =>
      r <- _get_super_group_members_page polls self chat page_size st ;;
      if fst r
      then _get_super_group_members_loop pages' polls self chat page_size (snd r)
      else ret (snd r)
  end.

Definition _get_super_group_members_init : members_state :=
  {| members := []; added_ids := []; offset := 0; total_count := VNone |}.

Definition _get_super_group_members (pages polls : nat) (self : client)
    (chat : value) (page_size : Z) : M (list value) :=
  if page_size <=? 1 then raise invalid_page_size
  else
    st <- _get_super_group_members_loop pages polls self chat page_size
            _get_super_group_members_init ;;
    let len_members := VInt (Z.of_nat (List.length (members st))) in
    (if negb (py_eq (total_count st) len_members) then
       log WARNING (Fmt "total_count != len(members):  %s/%s"
                        [total_count st; len_members])
     else ret tt) ;;;
    ret (members st).

(** [[self.get_user(m['user_id']) for m in members]]. *)
Fixpoint get_users (polls : nat) (self : client) (members : list value)
    : M (list value) :=
  match members with
  | [] => ret []
  | m :: rest =>
      user_id <- lift (getitem m "user_id") ;;
      user <- get_user polls self user_id ;;
      users <- get_users polls self rest ;;
      ret (user :: users)
  end.

Definition chat_type_tag (chat : value) : exn + value :=
  match getitem chat "type" with
  | inl e => inl e
  | inr chat_type => getitem chat_type "@type"
  end.

Definition get_group_members (pages polls : nat) (self : client) (group_id : Z)
    (page_size : Z) : M (list value) :=
  chat <- call_method polls self "getChat" None [("chat_id", VInt group_id)] ;;
  tag <- lift (chat_type_tag chat) ;;
  members <-
    (if py_eq tag (VStr "chatTypeBasicGroup") then
       chat_type <- lift (getitem chat "type") ;;
       basic_group_id <- lift (getitem chat_type "basic_group_id") ;;
       info <- call_method polls self "getBasicGroupFullInfo" None
                 [("basic_group_id", basic_group_id)] ;;
       members <- lift (getitem info "members") ;;
       lift (py_iter members)
     else if py_eq tag (VStr "chatTypeSupergroup") then
       _get_super_group_members pages polls self chat page_size
     else raise (TelegaError TDLibError
                   (Some (Fmt "Unknown group type: %s" [tag])))) ;;
  get_users polls self members.

End Client.

(** * Vocabulary of the properties *)

(** ** The error classifier *)

(** The message tests of [_handle_errors], in the order of the source,
    with the kind each raises. *)
Definition text_rules : list (string * error_kind) :=
  [("PHONE_NUMBER_INVALID", InvalidPhoneNumber);
   ("PASSWORD_HASH_INVALID", PasswordError);
   ("PHONE_CODE_INVALID", PhoneCodeInvalid);
   ("Supergroup members are unavailable", NoPermission);
   ("Chat not found", ObjectNotFound);
   ("setAuthenticationPhoneNumber unexpected", AlreadyAuthorized);
   ("Already logging out", AlreadyLoggingOut);
   ("Unauthorized", AuthError)].

(** The first text rule a message meets. *)
Fixpoint text_rule_in (rules : list (string * error_kind)) (message : value)
    : option error_kind :=
  match rules with
  | [] => None
  | (m, k) :: rest =>
      if py_eq message (VStr m) then Some k else text_rule_in rest message
  end.

Definition text_rule : value -> option error_kind := text_rule_in text_rules.

(** The tests on the code, in the order of the source. *)
Definition code_rule (code : value) : option error_kind :=
  if py_eq code (VInt 401) then Some AuthError
  else if py_eq code (VInt 429) || py_eq code (VInt 420) then Some TooManyRequests
  else None.

(** The fields [_handle_errors] reads from an error envelope. *)
Definition message_of (d : dict) : value :=
  match dict_get "message" d with
  | Some m => m
  | None => VStr "Empty error message"
  end.

Definition code_of (d : dict) : value :=
  match dict_get "code" d with
  | Some c => c
  | None => VNone
  end.

Definition is_error_envelope (d : dict) : Prop :=
  exists ty, dict_get "@type" d = Some ty /\ py_eq ty (VStr "error") = true.

(** Three error envelopes. *)
Definition phone_invalid_401 : dict :=
  [("@type", VStr "error"); ("code", VInt 401);
   ("message", VStr "PHONE_NUMBER_INVALID")].

Definition flood_429 : dict :=
  [("@type", VStr "error"); ("code", VInt 429);
   ("message", VStr "Too Many Requests: retry after 5")].

Definition internal_500 : dict :=
  [("@type", VStr "error"); ("code", VInt 500);
   ("message", VStr "Internal")].


(** ** The request correlator *)

(** An envelope the wait loop passes over while it waits for
    [request_id]: the poll delivered nothing, or it delivered an envelope
    whose identifier can be read and is another one. *)
Definition passed_over (request_id : string) (response : value) : Prop :=
  truthy response = false
  \/ exists rid, received_request_id response = inr rid
                 /\ py_eq (VStr request_id) rid = false.

(** The clock reading [now] does not end a wait that started at
    [started_at] with [timeout]. *)
Definition within (E : environment) (timeout : option Q) (started_at now : Q)
    : Prop :=
  match timeout with
  | Some t =>
      timeout_truthy timeout = true -> (float_sub E now started_at <= t)%Q
  | None => True
  end.

(** The envelope [call_method] sends. *)
Definition request_sent (method_name request_id : string) (params : dict)
    : value :=
  VDict (dict_update (request_envelope method_name request_id) params).

(** The world in which [call_method] enters the wait loop: one uuid
    drawn, the envelope sent, the clock read once. *)
Definition after_send (E : environment) (method_name : string) (params : dict)
    (w : world) : world :=
  {| sent := sent w ++ [request_sent method_name (uuid_at E (uuids w)) params];
     received := received w;
     clock_reads := S (clock_reads w);
     uuids := S (uuids w);
     slept := slept w;
     logged := logged w |}.

(** The world after one more poll. *)
Definition after_poll (w : world) : world :=
  {| sent := sent w; received := S (received w);
     clock_reads := clock_reads w; uuids := uuids w;
     slept := slept w; logged := logged w |}.

(** The world after one more reading of the clock. *)
Definition after_tick (w : world) : world :=
  {| sent := sent w; received := received w;
     clock_reads := S (clock_reads w); uuids := uuids w;
     slept := slept w; logged := logged w |}.

(** ** Scripted collaborators *)

(** A channel that delivers [script], one element per poll, and nothing
    after it; a clock that advances [step] seconds from one reading to the
    next, on a platform that subtracts these readings exactly; uuids r0,
    r1, r2, ... *)
Definition uuid_of (n : nat) : string :=
  ("r" ++ NilZero.string_of_uint (Nat.to_uint n))%string.

Definition script_env (script : list value) (step : Q) : environment :=
  {| receive_at := fun n => nth n script VNone;
     time_at := fun n => (inject_Z (Z.of_nat n) * step)%Q;
     uuid_at := uuid_of;
     float_sub := Qminus |}.

(** An envelope that echoes [request_id]. *)
Definition reply (request_id : string) (body : dict) : value :=
  VDict (("@extra", VDict [("request_id", VStr request_id)]) :: body).

(** A world in which nothing has happened yet. *)
Definition w0 : world :=
  {| sent := []; received := 0; clock_reads := 0; uuids := 0;
     slept := []; logged := [] |}.

(** A client with the default timeout and delay. *)
Definition c0 : client :=
  {| phone := "+10000000000"; request_timeout := default_timeout;
     request_delay := default_request_delay |}.

(** Two unrelated envelopes and an empty poll before the answer. *)
Definition noisy_script : list value :=
  [VNone;
   reply "someone-else" [("@type", VStr "ok")];
   VDict [("@type", VStr "updateOption"); ("name", VStr "version")];
   reply "r0" [("@type", VStr "user"); ("id", VInt 7)];
   reply "r0" [("@type", VStr "user"); ("id", VInt 8)]].

(** An envelope whose '@extra' is not a dict. *)
Definition odd_extra : value := VDict [("@type", VStr "ok"); ("@extra", VNone)].

(** ** Requests *)

(** The method a sent envelope names. *)
Definition method_of (data : value) : option string :=
  match getitem data "@type" with
  | inr (VStr m) => Some m
  | _ => None
  end.

(** A channel on which a code submission leads to the password state. *)
Definition code_then_password_script : list value :=
  [reply "r0" [("@type", VStr AuthStates.WaitCode)];
   reply "r1" [("@type", VStr "ok")];
   reply "r2" [("@type", VStr AuthStates.WaitPassword)]].

(** A channel that knows chat 5 as a supergroup, and one that knows it as
    a secret chat. *)
Definition supergroup_script : list value :=
  [reply "r0" [("@type", VStr "chat"); ("id", VInt 5);
               ("type", VDict [("@type", VStr "chatTypeSupergroup");
                               ("supergroup_id", VInt 77)])]].

Definition secret_chat_script : list value :=
  [reply "r0" [("@type", VStr "chat"); ("id", VInt 5);
               ("type", VDict [("@type", VStr "chatTypeSecret");
                               ("secret_chat_id", VInt 3)])]].

(** ** Pages *)

(** What can be a member of a set. *)
Definition hashable (v : value) : bool :=
  match v with
  | VList _ | VDict _ => false
  | _ => true
  end.

(** No two elements are equal for Python. *)
Fixpoint distinct (l : list value) : Prop :=
  match l with
  | [] => True
  | x :: rest => existsb (py_eq x) rest = false /\ distinct rest
  end.

(** The elements of [ids] that are not in [added], each once, in the order
    of their first occurrence. *)
Fixpoint new_ids (ids added : list value) : list value :=
  match ids with
  | [] => []
  | x :: rest =>
      if existsb (py_eq x) added then new_ids rest added
      else x :: new_ids rest (added ++ [x])
  end.

(** [chat_id_list and not len(chat_id_list) < page_size], on the elements
    of the page. *)
Definition page_is_full (page_size : Z) (ids : list value) : bool :=
  match ids with
  | [] => false
  | _ => negb (Z.of_nat (List.length ids) <? page_size)
  end.

(** The world after a sleep of [d], and after a log record. *)
Definition after_sleep (d : Q) (w : world) : world :=
  {| sent := sent w; received := received w;
     clock_reads := clock_reads w; uuids := uuids w;
     slept := slept w ++ [d]; logged := logged w |}.

Definition after_log (lvl : log_level) (t : text) (w : world) : world :=
  {| sent := sent w; received := received w;
     clock_reads := clock_reads w; uuids := uuids w;
     slept := slept w; logged := logged w ++ [(lvl, t)] |}.

(** ** Requests and their answers *)

(** An envelope spelled out: the method, the identifier, the fields. *)
Definition envelope (method_name request_id : string) (fields : dict)
    : value :=
  VDict (("@type", VStr method_name)
         :: ("@extra", VDict [("request_id", VStr request_id)])
         :: fields).

(** The envelopes of consecutive calls of [method_name], one for each of
    [args] under [key], the first with the [n]-th uuid. *)
Fixpoint requests_from (E : environment) (method_name key : string) (n : nat)
    (args : list value) : list value :=
  match args with
  | [] => []
  | a :: rest =>
      envelope method_name (uuid_at E n) [(key, a)]
      :: requests_from E method_name key (S n) rest
  end.

(** [responses] echo the identifiers of consecutive calls, the first the
    [n]-th uuid. *)
Fixpoint answered_from (E : environment) (n : nat) (responses : list value)
    : Prop :=
  match responses with
  | [] => True
  | r :: rest =>
      received_request_id r = inr (VStr (uuid_at E n))
      /\ answered_from E (S n) rest
  end.

(** [response] echoes the identifier of a request among [requests] that
    asked [method_name] for [arg] under [key]. *)
Definition answers (E : environment) (method_name key : string)
    (requests : list value) (arg response : value) : Prop :=
  exists n,
    In (envelope method_name (uuid_at E n) [(key, arg)]) requests
    /\ received_request_id response = inr (VStr (uuid_at E n)).

Section Pages.

Variable E : environment.
Variable polls : nat.
Variable self : client.
Variable page_size : Z.

(** The request for a page of identifiers at the ordering key [cursor],
    with the [n]-th uuid. *)
Definition page_request (cursor : value) (n : nat) : value :=
  envelope "getChats" (uuid_at E n)
    [("offset_order", cursor);
     ("offset_chat_id", VInt 0);
     ("limit", VInt page_size)].

(** One page of chat listing, up to the end of its [for] loop: from the
    loop variables [st] in the world [w], [getChats] at the cursor of [st]
    returned the identifiers [ids], and the lookups of the new ones left
    the chats and the set [acc] in the world [w2]. *)
Definition fetched (st : chats_state) (w : world) (ids : list value)
    (acc : list value * list value) (w2 : world) : Prop :=
  exists result w1 chat_id_list,
    call_method E polls self "getChats" None
      [("offset_order", offset_order st);
       ("offset_chat_id", VInt 0);
       ("limit", VInt page_size)] w = (Ret result, w1)
    /\ getitem result "chat_ids" = inr chat_id_list
    /\ py_iter chat_id_list = inr ids
    /\ add_new_chats E polls self ids (chats st) (added_chat_ids st) w1
       = (Ret acc, w2).

(** A run of chat listing through the pages it fetched: every page but
    the last is full and is followed by the cursor update, to the order
    of the chat that stands last in the list, and by the delay, which is
    not negative; the last page is not full. *)
Inductive listing : chats_state -> world -> list (list value)
                    -> chats_state -> world -> Prop :=
| listing_last st w ids acc w2 :
    fetched st w ids acc w2 ->
    page_is_full page_size ids = false ->
    listing st w [ids]
      {| chats := fst acc; added_chat_ids := snd acc;
         offset_order := offset_order st |} w2
| listing_next st w ids acc w2 front last_chat order pages st' w' :
    fetched st w ids acc w2 ->
    page_is_full page_size ids = true ->
    fst acc = (front ++ [last_chat])%list ->
    getitem last_chat "order" = inr order ->
    (0 <= request_delay self)%Q ->
    listing {| chats := fst acc; added_chat_ids := snd acc;
               offset_order := order |}
            (after_sleep (request_delay self) w2) pages st' w' ->
    listing st w (ids :: pages) st' w'.

End Pages.

(** Two pages of two that share the identifier 11. *)
Definition chat (id : Z) (order : string) : dict :=
  [("@type", VStr "chat"); ("id", VInt id); ("order", VStr order)].

Definition overlapping_script : list value :=
  [reply "r0" [("@type", VStr "chats"); ("chat_ids", VList [VInt 10; VInt 11])];
   reply "r1" (chat 10 "900");
   reply "r2" (chat 11 "800");
   reply "r3" [("@type", VStr "chats"); ("chat_ids", VList [VInt 11; VInt 12])];
   reply "r4" (chat 12 "700");
   reply "r5" [("@type", VStr "chats"); ("chat_ids", VList [VInt 12])]].

(** ** Pages of members *)

(** [member['user_id']], where the member has one. *)
Definition user_id_of (member : value) : value :=
  match getitem member "user_id" with
  | inr user_id => user_id
  | inl _ => VNone
  end.

(** The record [logger.info] leaves at the end of a page. *)
Definition got_members (page members : list value) : text :=
  Fmt "Got %d members. Total: %d"
      [VInt (Z.of_nat (List.length page));
       VInt (Z.of_nat (List.length members))].

(** The record [logger.warning] leaves when the counts disagree. *)
Definition count_mismatch (st : members_state) : text :=
  Fmt "total_count != len(members):  %s/%s"
      [total_count st; VInt (Z.of_nat (List.length (members st)))].

Section MemberPages.

Variable E : environment.
Variable polls : nat.
Variable self : client.
Variable chat : value.
Variable page_size : Z.

(** One page of members, up to the end of its [for] loop: at the offset
    of [st], [getSupergroupMembers] returned the members [page] and the
    count [total], and the new members were added to give [acc]. *)
Definition members_fetched (st : members_state) (w : world) (page : list value)
    (acc : list value * list value) (total : value) (w1 : world) : Prop :=
  exists chat_type supergroup_id response page_value,
    getitem chat "type" = inr chat_type
    /\ getitem chat_type "supergroup_id" = inr supergroup_id
    /\ call_method E polls self "getSupergroupMembers" None
         [("supergroup_id", supergroup_id);
          ("offset", VInt (offset st));
          ("limit", VInt page_size)] w = (Ret response, w1)
    /\ getitem response "members" = inr page_value
    /\ getitem response "total_count" = inr total
    /\ py_iter page_value = inr page
    /\ add_new_members page (members st) (added_ids st) = inr acc.

(** The loop variables and the world at the end of a page: the offset has
    moved by the length of the page, and a page with members is followed
    by the delay. *)
Definition members_after (st : members_state) (page : list value)
    (acc : list value * list value) (total : value) : members_state :=
  {| members := fst acc; added_ids := snd acc;
     offset := offset st + Z.of_nat (List.length page);
     total_count := total |}.

Definition world_after_members (page : list value)
    (acc : list value * list value) (w1 : world) : world :=
  after_log INFO (got_members page (fst acc))
    (match page with
     | [] => w1
     | _ => after_sleep (request_delay self) w1
     end).

(** The request for a page of members at [offset], with the [n]-th
    uuid. *)
Definition members_request (supergroup_id : value) (offset : Z) (n : nat)
    : value :=
  envelope "getSupergroupMembers" (uuid_at E n)
    [("supergroup_id", supergroup_id);
     ("offset", VInt offset);
     ("limit", VInt page_size)].

(** A run of member listing through the pages it fetched: pages with
    members, each followed by the delay, which is not negative, then an
    empty one. *)
Inductive member_listing : members_state -> world -> list (list value)
                           -> members_state -> world -> Prop :=
| member_listing_last st w acc total w1 :
    members_fetched st w [] acc total w1 ->
    member_listing st w [[]]
      (members_after st [] acc total) (world_after_members [] acc w1)
| member_listing_next st w page acc total w1 pages st' w' :
    members_fetched st w page acc total w1 ->
    page <> [] ->
    (0 <= request_delay self)%Q ->
    member_listing (members_after st page acc total)
                   (world_after_members page acc w1) pages st' w' ->
    member_listing st w (page :: pages) st' w'.

(** The world [_get_super_group_members] returns in. *)
Definition world_after_count_check (st : members_state) (w : world) : world :=
  if py_eq (total_count st) (VInt (Z.of_nat (List.length (members st))))
  then w
  else after_log WARNING (count_mismatch st) w.

(** [user] echoes the identifier of a [getUser] request among [requests]
    that asked for the user of [member]. *)
Definition resolved (requests : list value) (member user : value) : Prop :=
  exists user_id,
    getitem member "user_id" = inr user_id
    /\ answers E "getUser" "user_id" requests user_id user.

End MemberPages.

(** A supergroup whose pages of two share user 2 and whose reported count
    is one more than the members there are. *)
Definition member (user_id : Z) : value :=
  VDict [("@type", VStr "chatMember"); ("user_id", VInt user_id)].

Definition user (user_id : Z) : dict :=
  [("@type", VStr "user"); ("id", VInt user_id)].

Definition members_script : list value :=
  [nth 0 supergroup_script VNone;
   reply "r1" [("@type", VStr "chatMembers"); ("total_count", VInt 4);
               ("members", VList [member 1; member 2])];
   reply "r2" [("@type", VStr "chatMembers"); ("total_count", VInt 4);
               ("members", VList [member 2; member 3])];
   reply "r3" [("@type", VStr "chatMembers"); ("total_count", VInt 4);
               ("members", VList [])];
   reply "r4" (user 1); reply "r5" (user 2); reply "r6" (user 3)].

(** A basic group of two. *)
Definition basic_group_script : list value :=
  [reply "r0" [("@type", VStr "chat"); ("id", VInt 6);
               ("type", VDict [("@type", VStr "chatTypeBasicGroup");
                               ("basic_group_id", VInt 88)])];
   reply "r1" [("@type", VStr "basicGroupFullInfo");
               ("members", VList [member 1; member 2])];
   reply "r2" (user 1); reply "r3" (user 2)].

(** * The rest of the client *)

(** ** Construction and bootstrap *)

(** The attributes of [self] that only the constructor and the bootstrap
    read.  ([library_path] and [tdlib_log_level] go to [TDJson] and are
    not kept.)  [proxy] is [None] or a dict. *)
Record session : Type := {
  api_id : Z;
  api_hash : string;
  _database_encryption_key : string;
  files_directory : string;
  use_test_data_center : bool;
  use_message_database : bool;
  proxy : value;
  device_model : string;
  application_version : string;
  system_version : string;
  system_language_code : string
}.

(** [os.path.join] of [posixpath]: a component that starts with the
    separator restarts the path; otherwise it is appended, after a
    separator unless the path so far is empty or ends with one. *)
Definition starts_with_sep (s : string) : bool :=
  match s with
  | String c _ => Ascii.eqb c "/"
  | EmptyString => false
  end.

Fixpoint ends_with_sep (s : string) : bool :=
  match s with
  | EmptyString => false
  | String c EmptyString => Ascii.eqb c "/"
  | String _ rest => ends_with_sep rest
  end.

Definition join_component (path b : string) : string :=
  if starts_with_sep b then b
  else if (path =? "")%string || ends_with_sep path then (path ++ b)%string
  else (path ++ "/" ++ b)%string.

Definition os_path_join (a : string) (p : list string) : string :=
  fold_left join_component p a.

(** The ['parameters'] object of the first bootstrap call. *)
Definition tdlib_parameters (self : client) (s : session) : value :=
  VDict [("use_test_dc", VBool (use_test_data_center s));
         ("api_id", VInt (api_id s));
         ("api_hash", VStr (api_hash s));
         ("device_model", VStr (device_model s));
         ("system_version", VStr (system_version s));
         ("application_version", VStr (application_version s));
         ("system_language_code", VStr (system_language_code s));
         ("use_message_database", VBool (use_message_database s));
         ("database_directory",
          VStr (os_path_join (files_directory s) [phone self; "database"%string]));
         ("files_directory",
          VStr (os_path_join (files_directory s) [phone self; "files"%string]))].

Section Bootstrap.

Variable E : environment.

(** SOCKS5 proxy only. *)
Definition _set_proxy (polls : nat) (self : client) (host port : value)
    : M unit :=
  let proxy_type := VDict [("@type", VStr "proxyTypeSocks5")] in
  call_method E polls self "addProxy" (Some 5%Q)
    [("server", host); ("port", port); ("enable", VBool true);
     ("type", proxy_type)] ;;;
  ret tt.

Definition _init (polls : nat) (self : client) (s : session) : M unit :=
  call_method E polls self "updateAuthorizationState" (Some 5%Q)
    [("@type", VStr "setTdlibParameters");
     ("parameters", tdlib_parameters self s)] ;;;
  call_method E polls self "updateAuthorizationState" (Some 5%Q)
    [("@type", VStr "checkDatabaseEncryptionKey");
     ("encryption_key", VStr (_database_encryption_key s))] ;;;
  if truthy (proxy s) then
    host <- lift (getitem (proxy s) "host") ;;
    port <- lift (getitem (proxy s) "port") ;;
    _set_proxy polls self host port
  else ret tt.

(** ** Remaining methods *)

Definition auth_request (polls : nat) (self : client) : M unit :=
  log INFO (Fmt "Sending code request for phone number (%s)"
                [VStr (phone self)]) ;;;
  response <- call_method E polls self "setAuthenticationPhoneNumber" None
                [("phone_number", VStr (phone self));
                 ("allow_flash_call", VBool false);
                 ("is_current_phone_number", VBool true)] ;;
  log INFO (Fmt "Sending code response: %s" [response]).

Definition get_me (polls : nat) (self : client) : M value :=
  call_method E polls self "getMe" None [].

(** [issubclass] on the classes of [telega.errors], whose declarations
    the client does not show. *)
Variable subclass : error_kind -> error_kind -> bool.

(** Whether [except (k1, k2, ...)] catches [e]: a builtin exception is
    no instance of a class of [telega.errors]. *)
Definition caught (e : exn) (kinds : list error_kind) : bool :=
  match e with
  | TelegaError k _ => existsb (subclass k) kinds
  | _ => false
  end.

(** [try: m except kinds: pass]. *)
Definition try_pass {A} (m : M A) (kinds : list error_kind) : M unit :=
  fun w =>
    match m w with
    | (Ret _, w') => (Ret tt, w')
    | (Raise e, w') => if caught e kinds then (Ret tt, w') else (Raise e, w')
    | (Diverge, w') => (Diverge, w')
    end.

Definition logged_out_format : string :=
  ("Logged out %s. Current state: " ++ dquote ++ "%s" ++ dquote)%string.

Definition log_out (polls : nat) (self : client) : M unit :=
  try_pass (call_method E polls self "logOut" None [])
           [AuthError; AlreadyLoggingOut] ;;;
  state <- get_auth_state E polls self ;;
  log INFO (Fmt logged_out_format [VStr (phone self); state]).

End Bootstrap.

(** ** Teardown *)

(** The names [__init__] assigns on [self], in the order of the source,
    and the names the class body defines. *)
Definition instance_attributes : list string :=
  ["api_id"; "api_hash"; "phone"; "_database_encryption_key";
   "request_timeout"; "request_delay"; "files_directory";
   "use_test_data_center"; "use_message_database"; "proxy"; "device_model";
   "application_version"; "system_version"; "system_language_code";
   "_tdjson_client"]%string.

Definition class_attributes : list string :=
  ["database_encryption_key_length"; "default_timeout";
   "default_request_delay"; "default_chats_page_size";
   "default_members_page_size"; "__init__"; "__del__"; "get_auth_state";
   "is_authorized"; "auth_request"; "send_sms_code"; "log_out"; "get_me";
   "get_all_chats"; "get_group_members"; "get_user";
   "_get_super_group_members"; "call_method"; "_wait_result";
   "_handle_errors"; "_init"; "_set_proxy"]%string.

(** [hasattr(self, name)] on an instance on which [assigned] have been
    set (the attributes every object has are all of the form [__x__]). *)
Definition hasattr (assigned : list string) (name : string) : bool :=
  existsb (String.eqb name) (assigned ++ class_attributes).

(** [__del__]: whether it calls [self._tdjson_client.destroy()]. *)
Definition __del__ (assigned : list string) : bool :=
  hasattr assigned "_tdjson".

(** * Vocabulary of the further properties *)

(** What the wait does with the envelope that carries its identifier. *)
Definition verdict (response : value) : outcome value :=
  match _handle_errors response with
  | inl e => Raise e
  | inr _ => Ret response
  end.

(** The text tests that stand before the tests on the code. *)
Definition specific_text_rules : list (string * error_kind) :=
  Eval cbv in firstn 7 text_rules.

(** A channel that answers the first call with an error envelope, after
    an unrelated one. *)
Definition flood_script : list value :=
  [reply "someone-else" [("@type", VStr "ok")];
   reply "r0" flood_429;
   reply "r0" [("@type", VStr "ok")]].

(** An error envelope that says nothing. *)
Definition bare_error : dict := [("@type", VStr "error")].

(** Keyword arguments that replace the method name. *)
Definition override_params : dict :=
  [("@type", VStr "setTdlibParameters"); ("parameters", VDict [])].

(** The three envelopes of the bootstrap, with the identifier of the
    [n]-th uuid. *)
Definition set_parameters_envelope (E : environment) (self : client)
    (s : session) (n : nat) : value :=
  VDict [("@type", VStr "setTdlibParameters");
         ("@extra", VDict [("request_id", VStr (uuid_at E n))]);
         ("parameters", tdlib_parameters self s)].

Definition check_key_envelope (E : environment) (s : session) (n : nat)
    : value :=
  VDict [("@type", VStr "checkDatabaseEncryptionKey");
         ("@extra", VDict [("request_id", VStr (uuid_at E n))]);
         ("encryption_key", VStr (_database_encryption_key s))].

Definition add_proxy_envelope (E : environment) (host port : value) (n : nat)
    : value :=
  VDict [("@type", VStr "addProxy");
         ("@extra", VDict [("request_id", VStr (uuid_at E n))]);
         ("server", host); ("port", port); ("enable", VBool true);
         ("type", VDict [("@type", VStr "proxyTypeSocks5")])].

(** The two bootstrap calls of [_init]. *)
Definition set_parameters_call (E : environment) (polls : nat) (self : client)
    (s : session) : M value :=
  call_method E polls self "updateAuthorizationState" (Some 5%Q)
    [("@type", VStr "setTdlibParameters");
     ("parameters", tdlib_parameters self s)].

Definition check_key_call (E : environment) (polls : nat) (self : client)
    (s : session) : M value :=
  call_method E polls self "updateAuthorizationState" (Some 5%Q)
    [("@type", VStr "checkDatabaseEncryptionKey");
     ("encryption_key", VStr (_database_encryption_key s))].

(** A session behind a proxy, one without, and one whose proxy has no
    port. *)
Definition s0 : session :=
  {| api_id := 12345; api_hash := "0123456789abcdef";
     _database_encryption_key := "abcdefghijkl";
     files_directory := "tdlib_sessions";
     use_test_data_center := false; use_message_database := true;
     proxy := VNone;
     device_model := "SpecialDevice"; application_version := "7.62";
     system_version := "5.45"; system_language_code := "en" |}.

Definition with_proxy (s : session) (p : value) : session :=
  {| api_id := api_id s; api_hash := api_hash s;
     _database_encryption_key := _database_encryption_key s;
     files_directory := files_directory s;
     use_test_data_center := use_test_data_center s;
     use_message_database := use_message_database s;
     proxy := p;
     device_model := device_model s;
     application_version := application_version s;
     system_version := system_version s;
     system_language_code := system_language_code s |}.

Definition socks_proxy : value :=
  VDict [("host", VStr "0.0.0.0"); ("port", VInt 9999)].

Definition ok_script : list value :=
  [reply "r0" [("@type", VStr "ok")];
   reply "r1" [("@type", VStr "ok")];
   reply "r2" [("@type", VStr "ok")]].

(** The envelope of a state query with the [n]-th uuid. *)
Definition state_query (E : environment) (n : nat) : value :=
  request_sent "getAuthorizationState" (uuid_at E n) [].

(** The class hierarchy in which no class of [telega.errors] derives from
    another of those the client names. *)
Definition same_class (a b : error_kind) : bool :=
  match a, b with
  | TDLibError, TDLibError
  | InvalidPhoneNumber, InvalidPhoneNumber
  | PasswordError, PasswordError
  | TwoFactorPasswordNeeded, TwoFactorPasswordNeeded
  | PhoneCodeInvalid, PhoneCodeInvalid
  | NoPermission, NoPermission
  | ObjectNotFound, ObjectNotFound
  | AlreadyAuthorized, AlreadyAuthorized
  | AlreadyLoggingOut, AlreadyLoggingOut
  | AuthError, AuthError
  | TooManyRequests, TooManyRequests
  | UnknownError, UnknownError => true
  | _, _ => false
  end.

(** A channel on which the client is ready, one on which it waits for
    the password and accepts it, and one on which logging out and the
    state query after it are both answered with 401. *)
Definition ready_script : list value :=
  [reply "r0" [("@type", VStr AuthStates.Ready)];
   reply "r1" [("@type", VStr AuthStates.Ready)]].

Definition password_script : list value :=
  [reply "r0" [("@type", VStr AuthStates.WaitPassword)];
   reply "r1" [("@type", VStr "ok")];
   reply "r2" [("@type", VStr AuthStates.Ready)]].

Definition unauthorized : dict :=
  [("@type", VStr "error"); ("code", VInt 401);
   ("message", VStr "Unauthorized")].

Definition logged_out_script : list value :=
  [reply "r0" unauthorized; reply "r1" unauthorized].

(** ** Requests of a listing *)

(** The order of a chat, where it has one. *)
Definition order_of (chat : value) : value :=
  match getitem chat "order" with
  | inr order => order
  | inl _ => VNone
  end.

(** The envelopes a chat listing sends for [pages], the first with the
    [n]-th uuid, when it starts at the ordering key [cursor] with [added]
    seen and returns [all_chats] in the end: for each page the request
    for it, then one lookup for every identifier not seen before; the
    next page is asked for at the order of the chat that stands last
    among those accumulated by then. *)
Fixpoint chat_requests (E : environment) (page_size : Z)
    (all_chats : list value) (n : nat) (cursor : value) (added : list value)
    (pages : list (list value)) : list value :=
  match pages with
  | [] => []
  | ids :: rest =>
      let new := new_ids ids added in
      let seen := (added ++ new)%list in
      (page_request E page_size cursor n
       :: requests_from E "getChat" "chat_id" (S n) new)
      ++ chat_requests E page_size all_chats (S n + List.length new)
           (order_of (last (firstn (List.length seen) all_chats) VNone))
           seen rest
  end.

(** The envelopes a supergroup listing sends for the pages of [run], the
    first with the [n]-th uuid and at [offset]: each page is asked for
    where the members received so far end. *)
Fixpoint member_requests (E : environment) (page_size : Z)
    (supergroup_id : value) (n : nat) (offset : Z) (run : list (list value))
    : list value :=
  match run with
  | [] => []
  | page :: rest =>
      members_request E page_size supergroup_id offset n
      :: member_requests E page_size supergroup_id (S n)
           (offset + Z.of_nat (List.length page)) rest
  end.

(** A channel with no chats. *)
Definition no_chats_script : list value :=
  [reply "r0" [("@type", VStr "chats"); ("chat_ids", VList [])]].

(** A basic group that lists user 1 twice, and one with a member that
    has no user. *)
Definition twice_script : list value :=
  [reply "r0" (user 1); reply "r1" (user 2); reply "r2" (user 1)].

(** ** Module constants *)

(** An absolute path, as the components below the root. *)
Definition path := list string.

(** [Path.parents]: the proper prefixes, the longest first, down to the
    root. *)
Definition parents (p : path) : list path :=
  map (fun n => firstn n p) (rev (seq 0 (List.length p))).

(** [Path.name]: the last component, empty for the root. *)
Definition path_name (p : path) : string := last p ""%string.

(** [str] of an absolute path. *)
Definition path_str (p : path) : string :=
  ("/" ++ String.concat "/" p)%string.

Definition BASE_DIR : string := "telega".

(** [[p for p in Path(__file__).absolute().parents if p.name == BASE_DIR][0]],
    before [str]. *)
Definition ABS_BASE_DIR (file : path) : exn + path :=
  match filter (fun p => (path_name p =? BASE_DIR)%string) (parents file) with
  | [] => inl IndexError
  | p :: _ => inr p
  end.

Definition DEFAULT_TDLIB_PATH (file : path) : exn + string :=
  match ABS_BASE_DIR file with
  | inl e => inl e
  | inr p => inr (os_path_join (path_str p) ["td_lib/linux/libtdjson.so"%string])
  end.

(** A checkout of the repository under its own name. *)
Definition checkout : path :=
  ["home"; "user"; "telega"; "telega"; "client.py"]%string.

(** A channel on which the client is authorized already. *)
Definition already_authorized : dict :=
  [("@type", VStr "error"); ("code", VInt 400);
   ("message", VStr "setAuthenticationPhoneNumber unexpected")].
(** * Properties *)

(** ** Values *)

Lemma py_eq_str_inv (s : string) (v : value) :
  py_eq (VStr s) v = true -> v = VStr s.
Proof.
  destruct v; simpl; try discriminate.
  intros H. apply String.eqb_eq in H. now subst.
Qed.

Lemma py_eq_str_refl (s : string) : py_eq (VStr s) (VStr s) = true.
Proof. simpl. apply String.eqb_refl. Qed.

Lemma py_eq_int_inv (v : value) (z : Z) :
  z <> 0 -> z <> 1 -> py_eq v (VInt z) = true -> v = VInt z.
Proof.
  intros H0 H1. destruct v as [|b|x|s|l|d]; try discriminate.
  - destruct b; cbn [py_eq Z.b2z]; intros H; apply Z.eqb_eq in H; congruence.
  - cbn [py_eq]. intros H. apply Z.eqb_eq in H. now subst.
Qed.

(** ** The error classifier *)

Lemma _handle_errors_error (d : dict) :
  is_error_envelope d ->
  _handle_errors (VDict d)
  = inl (TelegaError (classify (code_of d) (message_of d))
                     (Some (exc_msg (code_of d) (message_of d)))).
Proof.
  intros (ty & Hty & Herr).
  unfold _handle_errors, message_of, code_of. simpl.
  rewrite Hty, Herr.
  destruct (dict_get "message" d); destruct (dict_get "code" d); reflexivity.
Qed.

Lemma classify_text_first (code message : value) (k : error_kind) :
  text_rule message = Some k -> classify code message = k.
Proof.
  unfold text_rule, text_rules, classify. simpl.
  repeat match goal with
         | |- context [if py_eq message ?m then _ else _] =>
             destruct (py_eq message m)
         end;
    intros H; try discriminate; try (injection H as <-);
    try reflexivity.
  all: destruct (py_eq code (VInt 401)); reflexivity.
Qed.

Lemma classify_code_after (code message : value) :
  text_rule message = None ->
  classify code message = match code_rule code with
                          | Some k => k
                          | None => UnknownError
                          end.
Proof.
  unfold text_rule, text_rules, classify, code_rule. simpl.
  repeat match goal with
         | |- context [if py_eq message ?m then _ else _] =>
             destruct (py_eq message m)
         end;
    intros H; try discriminate.
  rewrite orb_false_r.
  destruct (py_eq code (VInt 401)); [reflexivity|].
  destruct (py_eq code (VInt 429) || py_eq code (VInt 420)); reflexivity.
Qed.

(** C4.  For an error envelope, the classifier tries its tests on the
    message text before its tests on the code.  A message that meets a
    text rule is raised as that rule's kind whatever the code is; in
    particular PHONE_NUMBER_INVALID is raised as [InvalidPhoneNumber] for
    every code, 401 included.  A code of 429 or 420 with a message that
    meets no text rule is raised as [TooManyRequests].  An envelope that
    meets no rule at all is raised as [UnknownError], and the exception's
    text interpolates the envelope's own code and message. *)
Theorem classifier_text_rules_before_code_rules (d : dict) :
  is_error_envelope d ->
  let raised k :=
    _handle_errors (VDict d)
    = inl (TelegaError k (Some (Fmt "Telegram error: %s -> %s"
                                    [code_of d; message_of d]))) in
  (forall k, text_rule (message_of d) = Some k -> raised k)
  /\ (dict_get "message" d = Some (VStr "PHONE_NUMBER_INVALID") ->
      raised InvalidPhoneNumber)
  /\ (text_rule (message_of d) = None ->
      code_of d = VInt 429 \/ code_of d = VInt 420 ->
      raised TooManyRequests)
  /\ (text_rule (message_of d) = None -> code_rule (code_of d) = None ->
      raised UnknownError).
Proof.
  intros Herr raised. subst raised. cbv beta.
  rewrite (_handle_errors_error d Herr). unfold exc_msg.
  repeat split.
  - intros k Hk. now rewrite (classify_text_first _ _ _ Hk).
  - intros Hm. unfold message_of. rewrite Hm. reflexivity.
  - intros Hn Hc. rewrite (classify_code_after _ _ Hn).
    destruct Hc as [-> | ->]; reflexivity.
  - intros Hn Hc. rewrite (classify_code_after _ _ Hn), Hc. reflexivity.
Qed.

(** The three cases on envelopes with the codes 401, 429 and 500. *)
Lemma classifier_text_rules_before_code_rules_witness :
  _handle_errors (VDict phone_invalid_401)
  = inl (TelegaError InvalidPhoneNumber
           (Some (Fmt "Telegram error: %s -> %s"
                      [VInt 401; VStr "PHONE_NUMBER_INVALID"])))
  /\ _handle_errors (VDict flood_429)
     = inl (TelegaError TooManyRequests
              (Some (Fmt "Telegram error: %s -> %s"
                         [VInt 429; VStr "Too Many Requests: retry after 5"])))
  /\ _handle_errors (VDict internal_500)
     = inl (TelegaError UnknownError
              (Some (Fmt "Telegram error: %s -> %s"
                         [VInt 500; VStr "Internal"]))).
Proof.
  assert (He : forall d, dict_get "@type" d = Some (VStr "error") ->
                         is_error_envelope d).
  { intros d H. exists (VStr "error"). split; [exact H | reflexivity]. }
  split; [| split].
  - apply (classifier_text_rules_before_code_rules phone_invalid_401);
      [apply He |]; reflexivity.
  - apply (classifier_text_rules_before_code_rules flood_429);
      [apply He; reflexivity | reflexivity | left; reflexivity].
  - apply (classifier_text_rules_before_code_rules internal_500);
      [apply He |..]; reflexivity.
Defined.

(** The texts of an unknown error without a code and of the record at
    the end of a page of members, rendered. *)
Example unknown_error_text :
  render (exc_msg VNone (VStr "Internal"))
  = Some "Telegram error: None -> Internal"%string
  /\ render (got_members [member 1; member 2] [member 1; member 2; member 3])
     = Some "Got 2 members. Total: 3"%string.
Proof. split; reflexivity. Qed.

(** ** The request correlator *)

Section Correlator.

Variable E : environment.

Lemma call_method_unfold polls self method_name timeout params w :
  call_method E polls self method_name timeout params w
  = wait_loop E polls (uuid_at E (uuids w))
      (timeout_or timeout (request_timeout self))
      (time_at E (clock_reads w)) (after_send E method_name params w).
Proof. reflexivity. Qed.

Lemma wait_loop_S polls request_id timeout started_at w :
  wait_loop E (S polls) request_id timeout started_at w
  = let response := receive_at E (received w) in
    let continue :=
      expired <- timed_out E timeout started_at ;;
      if expired then raise TimeOutError
      else wait_loop E polls request_id timeout started_at in
    if truthy response then
      match received_request_id response with
      | inl e => (Raise e, after_poll w)
      | inr rid =>
          if py_eq (VStr request_id) rid then
            match _handle_errors response with
            | inl e => (Raise e, after_poll w)
            | inr _ => (Ret response, after_poll w)
            end
          else continue (after_poll w)
      end
    else continue (after_poll w).
Proof.
  cbn [wait_loop]. unfold bind at 1. cbn [receive]. cbv zeta.
  fold (after_poll w).
  destruct (truthy (receive_at E (received w))); [|reflexivity].
  unfold bind at 1.
  destruct (received_request_id (receive_at E (received w))) as [e|rid];
    [reflexivity|]. cbn [lift ret].
  destruct (py_eq (VStr request_id) rid); [|reflexivity].
  unfold bind at 1.
  destruct (_handle_errors (receive_at E (received w))); reflexivity.
Qed.

Lemma wait_loop_pass polls request_id timeout started_at w :
  passed_over request_id (receive_at E (received w)) ->
  wait_loop E (S polls) request_id timeout started_at w
  = (expired <- timed_out E timeout started_at ;;
     if expired then raise TimeOutError
     else wait_loop E polls request_id timeout started_at) (after_poll w).
Proof.
  intros Hp. rewrite wait_loop_S. cbv zeta.
  destruct Hp as [Hf | (rid & Hr & Hne)].
  - now rewrite Hf.
  - rewrite Hr, Hne. now destruct (truthy _).
Qed.

(** The clock test of the loop: no reading without a truthy timeout, one
    reading with it. *)
Lemma timed_out_falsy timeout started_at w :
  timeout_truthy timeout = false ->
  timed_out E timeout started_at w = (Ret false, w).
Proof.
  intros H. unfold timed_out. destruct timeout; [|reflexivity].
  now rewrite H.
Qed.

Lemma timed_out_truthy t started_at w :
  timeout_truthy (Some t) = true ->
  timed_out E (Some t) started_at w
  = (Ret (negb (Qle_bool (float_sub E (time_at E (clock_reads w)) started_at) t)),
     after_tick w).
Proof. intros H. unfold timed_out. now rewrite H. Qed.

Lemma timed_out_cases timeout started_at w :
  exists b w', timed_out E timeout started_at w = (Ret b, w')
               /\ sent w' = sent w /\ received w' = received w
               /\ uuids w' = uuids w
               /\ slept w' = slept w /\ logged w' = logged w.
Proof.
  destruct (timeout_truthy timeout) eqn:Ht.
  - destruct timeout as [t|]; [|discriminate].
    rewrite (timed_out_truthy _ _ _ Ht). eauto 8.
  - rewrite (timed_out_falsy _ _ _ Ht). eauto 8.
Qed.

(** What a normal return of the wait loop tells. *)
Lemma wait_loop_ret polls : forall request_id timeout started_at w response w',
  wait_loop E polls request_id timeout started_at w = (Ret response, w') ->
  received_request_id response = inr (VStr request_id)
  /\ sent w' = sent w
  /\ exists k, (k < polls)%nat
       /\ received w' = (received w + k + 1)%nat
       /\ receive_at E (received w + k) = response
       /\ forall j, (j < k)%nat ->
            passed_over request_id (receive_at E (received w + j)).
Proof.
  induction polls as [|polls IH]; intros rid timeout s w response w' H.
  - discriminate.
  - rewrite wait_loop_S in H. cbv zeta in H.
    assert (Hcont :
      (expired <- timed_out E timeout s ;;
       if expired then raise TimeOutError
       else wait_loop E polls rid timeout s) (after_poll w)
      = (Ret response, w') ->
      passed_over rid (receive_at E (received w)) ->
      received_request_id response = inr (VStr rid)
      /\ sent w' = sent w
      /\ exists k, (k < S polls)%nat
           /\ received w' = (received w + k + 1)%nat
           /\ receive_at E (received w + k) = response
           /\ forall j, (j < k)%nat ->
                passed_over rid (receive_at E (received w + j))).
    { intros Hc Hp. unfold bind in Hc.
      destruct (timed_out_cases timeout s (after_poll w))
        as (b & w1 & Hto & Hs1 & Hr1 & _).
      rewrite Hto in Hc. destruct b; [discriminate|].
      apply IH in Hc. destruct Hc as (Hid & Hs & k & Hk & Hrec & Hat & Hbefore).
      rewrite Hs1 in Hs. rewrite Hr1 in Hrec, Hat, Hbefore. simpl in *.
      split; [exact Hid|]. split; [exact Hs|].
      exists (S k). repeat split.
      - lia.
      - lia.
      - rewrite <- Hat. f_equal. lia.
      - intros [|j] Hj.
        + now rewrite Nat.add_0_r.
        + replace (received w + S j)%nat with (S (received w + j)) by lia.
          apply Hbefore. lia. }
    destruct (truthy (receive_at E (received w))) eqn:Htr.
    + destruct (received_request_id (receive_at E (received w)))
        as [e|v] eqn:Hrid; [discriminate|].
      destruct (py_eq (VStr rid) v) eqn:Heq.
      * destruct (_handle_errors (receive_at E (received w))); [discriminate|].
        injection H as <- <-.
        apply py_eq_str_inv in Heq. subst v.
        split; [exact Hrid|]. split; [reflexivity|].
        exists 0%nat. repeat split.
        -- lia.
        -- simpl. lia.
        -- now rewrite Nat.add_0_r.
        -- intros j Hj. lia.
      * apply Hcont; [exact H|]. right. eauto.
    + apply Hcont; [exact H|]. now left.
Qed.

(** The loop returns the first envelope with the identifier, provided it
    is not an error envelope and no clock reading before it exceeds the
    timeout. *)
Lemma wait_loop_finds request_id timeout started_at response :
  truthy response = true ->
  received_request_id response = inr (VStr request_id) ->
  _handle_errors response = inr tt ->
  forall k w,
    (forall j, (j < k)%nat ->
       passed_over request_id (receive_at E (received w + j))) ->
    (forall j, (j < k)%nat ->
       within E timeout started_at (time_at E (clock_reads w + j))) ->
    receive_at E (received w + k) = response ->
    forall polls, (k < polls)%nat ->
      exists w',
        wait_loop E polls request_id timeout started_at w = (Ret response, w')
        /\ received w' = (received w + k + 1)%nat.
Proof.
  intros Htruthy Hid Hok. induction k as [|k IH]; intros w Hpass Hin Hat.
  - intros [|polls] Hp; [lia|]. rewrite Nat.add_0_r in Hat.
    rewrite wait_loop_S. cbv zeta.
    rewrite Hat, Htruthy, Hid, py_eq_str_refl, Hok.
    eexists. split; [reflexivity|]. simpl. lia.
  - intros [|polls] Hp; [lia|].
    rewrite wait_loop_pass
      by (specialize (Hpass 0%nat (Nat.lt_0_succ _));
          now rewrite Nat.add_0_r in Hpass).
    unfold bind.
    assert (Hpass' : forall w1, received w1 = S (received w) ->
              forall j, (j < k)%nat ->
                passed_over request_id (receive_at E (received w1 + j))).
    { intros w1 Hr j Hj. rewrite Hr.
      replace (S (received w) + j)%nat with (received w + S j)%nat by lia.
      apply Hpass. lia. }
    assert (Hat' : forall w1, received w1 = S (received w) ->
              receive_at E (received w1 + k) = response).
    { intros w1 Hr. rewrite Hr, <- Hat. f_equal. lia. }
    destruct (timeout_truthy timeout) eqn:Ht.
    + destruct timeout as [t|]; [|discriminate].
      rewrite (timed_out_truthy _ _ _ Ht).
      change (clock_reads (after_poll w)) with (clock_reads w).
      pose proof (Hin 0%nat (Nat.lt_0_succ _)) as Hnow.
      unfold within in Hnow. rewrite Nat.add_0_r in Hnow.
      specialize (Hnow Ht). apply Qle_bool_iff in Hnow.
      rewrite Hnow. cbn [negb].
      assert (Hin' : forall j, (j < k)%nat ->
                within E (Some t) started_at
                  (time_at E (clock_reads (after_tick (after_poll w)) + j))).
      { intros j Hj. simpl.
        replace (S (clock_reads w + j)) with (clock_reads w + S j)%nat by lia.
        apply Hin. lia. }
      destruct (IH (after_tick (after_poll w))
                  (Hpass' (after_tick (after_poll w)) eq_refl) Hin'
                  (Hat' (after_tick (after_poll w)) eq_refl) polls ltac:(lia))
        as (w' & Hw' & Hr').
      exists w'. split; [exact Hw'|]. simpl in Hr'. lia.
    + rewrite (timed_out_falsy _ _ _ Ht).
      assert (Hin' : forall j, (j < k)%nat ->
                within E timeout started_at
                  (time_at E (clock_reads (after_poll w) + j))).
      { intros j Hj. unfold within. destruct timeout; [|exact I].
        intros Ht'. congruence. }
      destruct (IH (after_poll w) (Hpass' (after_poll w) eq_refl) Hin'
                  (Hat' (after_poll w) eq_refl) polls ltac:(lia))
        as (w' & Hw' & Hr').
      exists w'. split; [exact Hw'|]. simpl in Hr'. lia.
Qed.

End Correlator.

(** C1.  When [call_method] returns, the envelope it returns carries the
    identifier the call generated and attached to its request under
    '@extra'.'request_id'.  The returned envelope is the first one on the
    channel with that identifier: every envelope the channel emitted
    before it, however many, had another identifier (or was an empty
    poll), was consumed by the call, and is not the one returned. *)
Theorem call_method_returns_the_matching_response
    (E : environment) (polls : nat) (self : client) (method_name : string)
    (timeout : option Q) (params : dict) (w w' : world) (response : value) :
  call_method E polls self method_name timeout params w = (Ret response, w') ->
  let request_id := uuid_at E (uuids w) in
  received_request_id (VDict (request_envelope method_name request_id))
  = inr (VStr request_id)
  /\ sent w' = (sent w ++ [request_sent method_name request_id params])%list
  /\ received_request_id response = inr (VStr request_id)
  /\ exists k, (k < polls)%nat
       /\ receive_at E (received w + k) = response
       /\ received w' = (received w + k + 1)%nat
       /\ forall j, (j < k)%nat ->
            passed_over request_id (receive_at E (received w + j))
            /\ receive_at E (received w + j) <> response.
Proof.
  intros H request_id. rewrite call_method_unfold in H.
  apply wait_loop_ret in H.
  destruct H as (Hid & Hs & k & Hk & Hrec & Hat & Hbefore).
  split; [reflexivity|]. split; [exact Hs|]. split; [exact Hid|].
  exists k. repeat split; try assumption.
  - now apply Hbefore.
  - intros Heq. specialize (Hbefore j H).
    simpl in Hbefore. fold request_id in Hbefore. rewrite Heq in Hbefore.
    destruct Hbefore as [Hf | (rid & Hr & Hne)].
    + destruct response as [| | | |l|d]; try discriminate.
      destruct d; discriminate.
    + rewrite Hid in Hr. injection Hr as <-.
      now rewrite py_eq_str_refl in Hne.
Qed.

(** On a channel that emits an empty poll and two unrelated envelopes
    before the answer (and a second answer after it). *)
Lemma call_method_returns_the_matching_response_witness :
  received_request_id (reply "r0" [("@type", VStr "user"); ("id", VInt 7)])
  = inr (VStr "r0")
  /\ call_method (script_env noisy_script 1) 10 c0 "getMe" None [] w0
     = (Ret (reply "r0" [("@type", VStr "user"); ("id", VInt 7)]),
        snd (call_method (script_env noisy_script 1) 10 c0 "getMe" None [] w0)).
Proof.
  assert (Hrun :
    call_method (script_env noisy_script 1) 10 c0 "getMe" None [] w0
    = (Ret (reply "r0" [("@type", VStr "user"); ("id", VInt 7)]),
       snd (call_method (script_env noisy_script 1) 10 c0 "getMe" None [] w0)))
    by (vm_compute; reflexivity).
  split; [|exact Hrun].
  apply (call_method_returns_the_matching_response _ _ _ _ _ _ _ _ _ Hrun).
Defined.

(** The other direction: the call returns the first envelope that
    carries its identifier, when that is no error envelope and the
    timeout in force has not passed by then. *)
Lemma call_method_finds_the_response
    (E : environment) (self : client) (method_name : string)
    (timeout : option Q) (params : dict) (w : world) (response : value)
    (k : nat) :
  truthy response = true ->
  received_request_id response = inr (VStr (uuid_at E (uuids w))) ->
  _handle_errors response = inr tt ->
  (forall j, (j < k)%nat ->
     passed_over (uuid_at E (uuids w)) (receive_at E (received w + j))) ->
  (forall j, (j < k)%nat ->
     within E (timeout_or timeout (request_timeout self))
       (time_at E (clock_reads w)) (time_at E (clock_reads w + 1 + j))) ->
  receive_at E (received w + k) = response ->
  forall polls, (k < polls)%nat ->
    exists w',
      call_method E polls self method_name timeout params w = (Ret response, w')
      /\ received w' = (received w + k + 1)%nat.
Proof.
  intros Htruthy Hid Hok Hpass Hin Hat polls Hp.
  rewrite call_method_unfold.
  apply (wait_loop_finds E _ _ _ response Htruthy Hid Hok k
           (after_send E method_name params w)); try assumption.
  intros j Hj. simpl.
  replace (S (clock_reads w + j)) with (clock_reads w + 1 + j)%nat by lia.
  now apply Hin.
Qed.

Section Timeouts.

Variable E : environment.

Lemma positive_timeout_truthy (t : Q) : (0 < t)%Q -> timeout_truthy (Some t) = true.
Proof.
  intros Ht. simpl. destruct (Qeq_bool t 0) eqn:Hz; [|reflexivity].
  apply Qeq_bool_iff in Hz. rewrite Hz in Ht. now apply Qlt_irrefl in Ht.
Qed.

Lemma exceeds_iff (x t : Q) : negb (Qle_bool x t) = true <-> (t < x)%Q.
Proof.
  rewrite negb_true_iff. split.
  - intros H. apply Qnot_le_lt. intros Hle.
    apply Qle_bool_iff in Hle. congruence.
  - intros H. destruct (Qle_bool x t) eqn:Hle; [|reflexivity].
    apply Qle_bool_iff in Hle. exfalso. now apply (Qlt_not_le _ _ H).
Qed.

(** With a truthy timeout and no matching envelope, the loop raises at the
    first reading of the clock that exceeds the timeout. *)
Lemma wait_loop_times_out request_id t started_at :
  timeout_truthy (Some t) = true ->
  forall k w,
    (forall j, (j <= k)%nat ->
       passed_over request_id (receive_at E (received w + j))) ->
    (t < float_sub E (time_at E (clock_reads w + k)) started_at)%Q ->
    exists k', (k' <= k)%nat
      /\ (t < float_sub E (time_at E (clock_reads w + k')) started_at)%Q
      /\ (forall j, (j < k')%nat ->
            (float_sub E (time_at E (clock_reads w + j)) started_at <= t)%Q)
      /\ forall polls, (k' < polls)%nat ->
           exists w',
             wait_loop E polls request_id (Some t) started_at w
             = (Raise TimeOutError, w')
             /\ sent w' = sent w
             /\ received w' = (received w + k' + 1)%nat
             /\ clock_reads w' = (clock_reads w + k' + 1)%nat.
Proof.
  intros Ht. induction k as [|k IH]; intros w Hpass Hex.
  - exists 0%nat. split; [lia|]. split; [exact Hex|]. split; [intros j Hj; lia|].
    intros [|polls] Hp; [lia|].
    rewrite wait_loop_pass
      by (specialize (Hpass 0%nat (Nat.le_refl _));
          now rewrite Nat.add_0_r in Hpass).
    unfold bind. rewrite (timed_out_truthy E _ _ _ Ht). change (clock_reads (after_poll w)) with (clock_reads w).
    rewrite Nat.add_0_r in Hex. apply exceeds_iff in Hex. rewrite Hex.
    eexists. split; [reflexivity|]. simpl. split; [reflexivity|split; lia].
  - destruct (negb (Qle_bool (float_sub E (time_at E (clock_reads w)) started_at) t))
      eqn:Hnow.
    + exists 0%nat. split; [lia|]. rewrite Nat.add_0_r.
      split; [now apply exceeds_iff|]. split; [intros j Hj; lia|].
      intros [|polls] Hp; [lia|].
      rewrite wait_loop_pass
        by (specialize (Hpass 0%nat (Nat.le_0_l _));
            now rewrite Nat.add_0_r in Hpass).
      unfold bind. rewrite (timed_out_truthy E _ _ _ Ht). change (clock_reads (after_poll w)) with (clock_reads w).
      rewrite Hnow.
      eexists. split; [reflexivity|]. simpl. split; [reflexivity|split; lia].
    + destruct (IH (after_tick (after_poll w))) as (k' & Hk' & Hex' & Hbefore & Hrun).
      * intros j Hj. simpl.
        replace (S (received w + j)) with (received w + S j)%nat by lia.
        apply Hpass. lia.
      * simpl. replace (S (clock_reads w + k)) with (clock_reads w + S k)%nat by lia.
        exact Hex.
      * simpl in Hex', Hbefore.
        exists (S k'). split; [lia|].
        split.
        { replace (clock_reads w + S k')%nat with (S (clock_reads w + k')) by lia.
          exact Hex'. }
        split.
        { intros [|j] Hj.
          - rewrite Nat.add_0_r. apply negb_false_iff in Hnow.
            now apply Qle_bool_iff.
          - replace (clock_reads w + S j)%nat with (S (clock_reads w + j)) by lia.
            apply Hbefore. lia. }
        intros [|polls] Hp; [lia|].
        rewrite wait_loop_pass
          by (specialize (Hpass 0%nat (Nat.le_0_l _));
              now rewrite Nat.add_0_r in Hpass).
        unfold bind. rewrite (timed_out_truthy E _ _ _ Ht). change (clock_reads (after_poll w)) with (clock_reads w).
        rewrite Hnow.
        destruct (Hrun polls) as (w' & Hw' & Hs' & Hr' & Hc'); [lia|].
        exists w'. split; [exact Hw'|]. simpl in Hs', Hr', Hc'.
        split; [exact Hs'|split; lia].
Qed.

End Timeouts.

(** C2 as the code has it.  With a positive timeout in force (the
    per-call one, or the configured one when the call gives none), a call
    whose channel delivers only envelopes that the matching step reads
    and passes over (empty polls, and dicts whose '@extra' is absent or a
    dict that does not carry the request's identifier) raises the timeout
    error, [UnknownError] with the text TimeOutError, at the first poll
    after which the elapsed time, as the platform's float subtraction of
    the two clock readings gives it, is more than the timeout: whenever
    some reading exceeds it, the call neither returns a value nor keeps
    polling beyond the first such reading. *)
Theorem call_method_raises_timeout
    (E : environment) (self : client) (method_name : string)
    (timeout : option Q) (params : dict) (w : world) (t : Q) (k : nat) :
  timeout_or timeout (request_timeout self) = Some t ->
  (0 < t)%Q ->
  (forall j, (j <= k)%nat ->
     passed_over (uuid_at E (uuids w)) (receive_at E (received w + j))) ->
  (t < float_sub E (time_at E (clock_reads w + 1 + k)) (time_at E (clock_reads w)))%Q ->
  exists k', (k' <= k)%nat
    /\ (t < float_sub E (time_at E (clock_reads w + 1 + k')) (time_at E (clock_reads w)))%Q
    /\ (forall j, (j < k')%nat ->
          (float_sub E (time_at E (clock_reads w + 1 + j)) (time_at E (clock_reads w)) <= t)%Q)
    /\ forall polls, (k' < polls)%nat ->
         exists w',
           call_method E polls self method_name timeout params w
           = (Raise (TelegaError UnknownError (Some (Lit "TimeOutError"))), w')
           /\ received w' = (received w + k' + 1)%nat.
Proof.
  intros Hto Hpos Hpass Hex.
  destruct (wait_loop_times_out E (uuid_at E (uuids w)) t
              (time_at E (clock_reads w)) (positive_timeout_truthy t Hpos)
              k (after_send E method_name params w))
    as (k' & Hk' & Hex' & Hbefore & Hrun).
  - exact Hpass.
  - simpl. replace (S (clock_reads w + k)) with (clock_reads w + 1 + k)%nat by lia.
    exact Hex.
  - simpl in Hex', Hbefore. exists k'. split; [exact Hk'|].
    split.
    { replace (clock_reads w + 1 + k')%nat with (S (clock_reads w + k')) by lia.
      exact Hex'. }
    split.
    { intros j Hj.
      replace (clock_reads w + 1 + j)%nat with (S (clock_reads w + j)) by lia.
      now apply Hbefore. }
    intros polls Hp. rewrite call_method_unfold, Hto.
    destruct (Hrun polls Hp) as (w' & Hw' & _ & Hr' & _).
    exists w'. split; [exact Hw'|exact Hr'].
Qed.

(** On a silent channel, with the default 60 seconds and a clock that
    advances 30 seconds per reading: the third poll raises. *)
Lemma call_method_raises_timeout_witness :
  exists w',
    call_method (script_env [] 30) 5 c0 "getMe" None [] w0
    = (Raise (TelegaError UnknownError (Some (Lit "TimeOutError"))), w')
    /\ (received w' <= 3)%nat.
Proof.
  destruct (call_method_raises_timeout (script_env [] 30) c0 "getMe" None []
              w0 60 2)
    as (k' & Hk' & _ & _ & Hrun).
  - reflexivity.
  - reflexivity.
  - intros j _. left. simpl. now destruct j.
  - vm_compute. reflexivity.
  - destruct (Hrun 5%nat) as (w' & Hw' & Hr'); [lia|].
    exists w'. split; [exact Hw'|]. rewrite Hr'. simpl. lia.
Defined.

(** C2 as stated fails on a channel that never echoes the identifier but
    delivers an envelope whose '@extra' is not a dict: with the default
    60 seconds in force the call raises [AttributeError] at its first
    poll, however many polls it is given, and never the timeout error. *)
Lemma call_method_raises_otherwise_on_odd_extra :
  (forall n,
     received_request_id (receive_at (script_env [odd_extra] 30) n)
     <> inr (VStr (uuid_at (script_env [odd_extra] 30) (uuids w0))))
  /\ timeout_or None (request_timeout c0) = Some 60%Q
  /\ forall polls,
       call_method (script_env [odd_extra] 30) (S polls) c0 "getMe" None [] w0
       = (Raise AttributeError,
          after_poll (after_send (script_env [odd_extra] 30) "getMe" [] w0)).
Proof.
  split; [|split].
  - intros [|[|n]]; vm_compute; discriminate.
  - reflexivity.
  - intros polls. rewrite call_method_unfold, wait_loop_S. reflexivity.
Qed.

Section NoTimeout.

Variable E : environment.

Lemma _handle_errors_not_timeout (response : value) (e : exn) :
  _handle_errors response = inl e -> e <> TimeOutError.
Proof.
  unfold _handle_errors, TimeOutError.
  destruct (getitem response "@type") as [e0|ty] eqn:Hty.
  - intros H. injection H as <-. unfold getitem in Hty.
    destruct response; try (injection Hty as <-; discriminate).
    destruct (dict_get "@type" d); [discriminate|].
    injection Hty as <-. discriminate.
  - destruct (py_eq ty (VStr "error")); [|discriminate].
    destruct (py_get response "message" _) as [e1|m] eqn:Hm.
    + intros H. injection H as <-. unfold py_get in Hm.
      destruct response; try (injection Hm as <-; discriminate).
      destruct (dict_get "message" d); discriminate.
    + destruct (py_get response "code" VNone) as [e2|c] eqn:Hc.
      * intros H. injection H as <-. unfold py_get in Hc.
        destruct response; try (injection Hc as <-; discriminate).
        destruct (dict_get "code" d); discriminate.
      * intros H. injection H as <-. discriminate.
Qed.

Lemma received_request_id_error (response : value) (e : exn) :
  received_request_id response = inl e -> e = AttributeError.
Proof.
  unfold received_request_id, py_get.
  destruct response; try (intros H; injection H as <-; reflexivity).
  destruct (dict_get "@extra" d) as [[| | | | |extra]|];
    try (intros H; injection H as <-; reflexivity).
  - destruct (dict_get "request_id" extra); discriminate.
  - simpl. discriminate.
Qed.

(** Without a truthy timeout the loop never raises the timeout error and
    never reads the clock. *)
Lemma wait_loop_no_timeout request_id timeout started_at :
  timeout_truthy timeout = false ->
  forall polls w,
    fst (wait_loop E polls request_id timeout started_at w) <> Raise TimeOutError
    /\ clock_reads (snd (wait_loop E polls request_id timeout started_at w))
       = clock_reads w.
Proof.
  intros Ht. induction polls as [|polls IH]; intros w.
  - simpl. split; [discriminate|reflexivity].
  - rewrite wait_loop_S. cbv zeta. unfold bind.
    rewrite (timed_out_falsy E _ _ _ Ht).
    destruct (truthy (receive_at E (received w))); [|apply (IH (after_poll w))].
    destruct (received_request_id (receive_at E (received w))) as [e|rid] eqn:Hr.
    + apply received_request_id_error in Hr. subst e.
      split; [discriminate|reflexivity].
    + destruct (py_eq (VStr request_id) rid); [|apply (IH (after_poll w))].
      destruct (_handle_errors (receive_at E (received w))) as [e|u] eqn:He.
      * split; [|reflexivity]. simpl. intros Heq. injection Heq as ->.
        now apply _handle_errors_not_timeout in He.
      * split; [discriminate|reflexivity].
Qed.

(** Without a truthy timeout and without a matching envelope the loop is
    still polling after any number of polls. *)
Lemma wait_loop_waits request_id timeout started_at :
  timeout_truthy timeout = false ->
  forall polls w,
    (forall j, (j < polls)%nat ->
       passed_over request_id (receive_at E (received w + j))) ->
    exists w',
      wait_loop E polls request_id timeout started_at w = (Diverge, w')
      /\ received w' = (received w + polls)%nat.
Proof.
  intros Ht. induction polls as [|polls IH]; intros w Hpass.
  - exists w. split; [reflexivity|lia].
  - rewrite wait_loop_pass
      by (specialize (Hpass 0%nat (Nat.lt_0_succ _));
          now rewrite Nat.add_0_r in Hpass).
    unfold bind. rewrite (timed_out_falsy E _ _ _ Ht).
    destruct (IH (after_poll w)) as (w' & Hw' & Hr').
    + intros j Hj. simpl.
      replace (S (received w + j)) with (received w + S j)%nat by lia.
      apply Hpass. lia.
    + exists w'. split; [exact Hw'|]. simpl in Hr'. lia.
Qed.

End NoTimeout.

(** C3 as the code has it.  The timeout in force is the per-call one when
    that is truthy, and the configured [request_timeout] otherwise: a
    nonzero per-call timeout overrides the configured one (the call does
    not depend on it), while a per-call timeout of zero counts as not
    given and the call behaves as with [None].  When the per-call value is
    zero or [None] and the configured one is zero or [None] too, the wait
    is indefinite: no timeout error is raised however long the loop runs,
    and with no matching envelope the loop is still polling after any
    number of polls. *)
Theorem call_method_timeout_in_force
    (E : environment) (polls : nat) (self : client) (method_name : string)
    (timeout : option Q) (params : dict) (w : world) :
  (timeout_truthy timeout = true ->
   timeout_or timeout (request_timeout self) = timeout
   /\ forall self',
        call_method E polls self' method_name timeout params w
        = call_method E polls self method_name timeout params w)
  /\ (timeout_truthy timeout = false ->
      timeout_or timeout (request_timeout self) = request_timeout self
      /\ call_method E polls self method_name timeout params w
         = call_method E polls self method_name None params w)
  /\ (timeout_truthy timeout = false ->
      timeout_truthy (request_timeout self) = false ->
      fst (call_method E polls self method_name timeout params w)
      <> Raise (TelegaError UnknownError (Some (Lit "TimeOutError")))
      /\ ((forall j, (j < polls)%nat ->
             passed_over (uuid_at E (uuids w)) (receive_at E (received w + j))) ->
          exists w',
            call_method E polls self method_name timeout params w = (Diverge, w')
            /\ received w' = (received w + polls)%nat)).
Proof.
  split; [|split].
  - intros Ht. unfold timeout_or. rewrite Ht. split; [reflexivity|].
    intros self'. rewrite !call_method_unfold. unfold timeout_or.
    now rewrite Ht.
  - intros Ht. unfold timeout_or. rewrite Ht. split; [reflexivity|].
    rewrite !call_method_unfold. unfold timeout_or. now rewrite Ht.
  - intros Ht Hd. rewrite call_method_unfold.
    assert (Hf : timeout_truthy (timeout_or timeout (request_timeout self)) = false).
    { unfold timeout_or. now rewrite Ht. }
    split.
    + apply (wait_loop_no_timeout E _ _ _ Hf).
    + intros Hpass.
      destruct (wait_loop_waits E (uuid_at E (uuids w)) _
                  (time_at E (clock_reads w)) Hf polls
                  (after_send E method_name params w) Hpass)
        as (w' & Hw' & Hr').
      exists w'. split; [exact Hw'|exact Hr'].
Qed.

(** A per-call 5 overrides the default; a per-call 0 does not; with no
    configured timeout either, forty polls of a silent channel raise
    nothing. *)
Lemma call_method_timeout_in_force_witness :
  timeout_or (Some 5%Q) (request_timeout c0) = Some 5%Q
  /\ timeout_or (Some 0%Q) (request_timeout c0) = request_timeout c0
  /\ exists w',
       call_method (script_env [] 30) 40
         {| phone := phone c0; request_timeout := None;
            request_delay := request_delay c0 |} "getMe" (Some 0%Q) [] w0
       = (Diverge, w')
       /\ received w' = 40%nat.
Proof.
  split; [|split].
  - apply (call_method_timeout_in_force (script_env [] 30) 1 c0 "getMe"
             (Some 5%Q) [] w0). reflexivity.
  - apply (call_method_timeout_in_force (script_env [] 30) 1 c0 "getMe"
             (Some 0%Q) [] w0). reflexivity.
  - apply (call_method_timeout_in_force (script_env [] 30) 40
             {| phone := phone c0; request_timeout := None;
                request_delay := request_delay c0 |} "getMe" (Some 0%Q) [] w0);
      [reflexivity | reflexivity |].
    intros j _. left. simpl. now destruct j.
Defined.

(** C3 as stated fails for an explicit zero: it does not override the
    configured 60 seconds, and the call that was to wait without limit
    raises the timeout error on a silent channel. *)
Lemma explicit_zero_timeout_does_not_override :
  timeout_or (Some 0%Q) (request_timeout c0) <> Some 0%Q
  /\ fst (call_method (script_env [] 30) 5 c0 "getMe" (Some 0%Q) [] w0)
     = Raise (TelegaError UnknownError (Some (Lit "TimeOutError"))).
Proof. split; [discriminate | vm_compute; reflexivity]. Qed.

(** ** Envelopes without an identifier *)

Lemma received_request_id_total_iff (d : dict) :
  (exists rid, received_request_id (VDict d) = inr rid)
  <-> (dict_get "@extra" d = None
       \/ exists extra, dict_get "@extra" d = Some (VDict extra)).
Proof.
  unfold received_request_id, py_get.
  destruct (dict_get "@extra" d) as [[| | | | |extra]|]; split;
    try (intros (rid & H); discriminate);
    try (intros [H | (extra' & H)]; discriminate).
  - intros _. right. now exists extra.
  - intros _. destruct (dict_get "request_id" extra); eauto.
  - intros _. now left.
  - intros _. simpl. eauto.
Qed.

(** C10 as the code has it.  An envelope that is a dict without '@extra',
    or whose '@extra' is a dict without 'request_id', reads as the
    identifier [None]: it raises nothing, it matches no request, and the
    loop goes on to its clock test as after an empty poll.  The matching
    step succeeds on exactly the dict envelopes whose '@extra' is absent
    or is itself a dict. *)
Theorem wait_loop_discards_untagged_envelopes
    (E : environment) (polls : nat) (request_id : string) (timeout : option Q)
    (started_at : Q) (w : world) (d : dict) :
  receive_at E (received w) = VDict d ->
  (dict_get "@extra" d = None
   \/ exists extra, dict_get "@extra" d = Some (VDict extra)
                    /\ dict_get "request_id" extra = None) ->
  received_request_id (VDict d) = inr VNone
  /\ passed_over request_id (VDict d)
  /\ wait_loop E (S polls) request_id timeout started_at w
     = (expired <- timed_out E timeout started_at ;;
        if expired then raise TimeOutError
        else wait_loop E polls request_id timeout started_at) (after_poll w)
  /\ forall d',
       (exists rid, received_request_id (VDict d') = inr rid)
       <-> (dict_get "@extra" d' = None
            \/ exists extra, dict_get "@extra" d' = Some (VDict extra)).
Proof.
  intros Hrecv Hd.
  assert (Hid : received_request_id (VDict d) = inr VNone).
  { unfold received_request_id, py_get.
    destruct Hd as [-> | (extra & -> & ->)]; reflexivity. }
  assert (Hp : passed_over request_id (VDict d)).
  { right. exists VNone. split; [exact Hid|reflexivity]. }
  split; [exact Hid|]. split; [exact Hp|]. split.
  - apply wait_loop_pass. now rewrite Hrecv.
  - apply received_request_id_total_iff.
Qed.

(** The update without '@extra' on the noisy channel is passed over. *)
Lemma wait_loop_discards_untagged_envelopes_witness :
  wait_loop (script_env noisy_script 1) 3 "r0" None 0 (after_poll (after_poll w0))
  = wait_loop (script_env noisy_script 1) 2 "r0" None 0
      (after_poll (after_poll (after_poll w0))).
Proof.
  apply (wait_loop_discards_untagged_envelopes (script_env noisy_script 1) 2
           "r0" None 0 (after_poll (after_poll w0))
           [("@type", VStr "updateOption"); ("name", VStr "version")]).
  - reflexivity.
  - left. reflexivity.
Defined.

(** C10 as stated fails on a dict envelope whose '@extra' is not a dict:
    the second [get] of the matching step raises. *)
Lemma wait_loop_raises_on_odd_extra :
  received_request_id odd_extra = inl AttributeError
  /\ wait_loop (script_env [odd_extra] 1) 3 "r0" None 0 w0
     = (Raise AttributeError, after_poll w0).
Proof. split; reflexivity. Qed.

(** ** What a call does to the world *)

Lemma bind_ret {A B} (m : M A) (k : A -> M B) (w w1 : world) (a : A) :
  m w = (Ret a, w1) -> bind m k w = k a w1.
Proof. intros H. unfold bind. now rewrite H. Qed.

Lemma bind_raise {A B} (m : M A) (k : A -> M B) (w w1 : world) (e : exn) :
  m w = (Raise e, w1) -> bind m k w = (Raise e, w1).
Proof. intros H. unfold bind. now rewrite H. Qed.

Lemma py_eq_str_inv_l (s : string) (v : value) :
  py_eq v (VStr s) = true -> v = VStr s.
Proof.
  destruct v; simpl; try discriminate.
  intros H. apply String.eqb_eq in H. now subst.
Qed.

Section Frame.

Variable E : environment.

(** The wait loop only polls and reads the clock. *)
Lemma wait_loop_frame request_id timeout started_at :
  forall polls w,
    let w' := snd (wait_loop E polls request_id timeout started_at w) in
    sent w' = sent w /\ uuids w' = uuids w
    /\ slept w' = slept w /\ logged w' = logged w.
Proof.
  induction polls as [|polls IH]; intros w; cbv zeta.
  - simpl. auto.
  - rewrite wait_loop_S. cbv zeta.
    assert (Hcont :
      let w' := snd ((expired <- timed_out E timeout started_at ;;
                      if expired then raise TimeOutError
                      else wait_loop E polls request_id timeout started_at)
                       (after_poll w)) in
      sent w' = sent w /\ uuids w' = uuids w
      /\ slept w' = slept w /\ logged w' = logged w).
    { cbv zeta. unfold bind.
      destruct (timed_out_cases E timeout started_at (after_poll w))
        as (b & w1 & Hto & Hs1 & _ & Hu1 & Hsl1 & Hl1).
      rewrite Hto. destruct b.
      - simpl. auto.
      - destruct (IH w1) as (Hs & Hu & Hsl & Hl).
        rewrite Hs, Hu, Hsl, Hl, Hs1, Hu1, Hsl1, Hl1. simpl. auto. }
    destruct (truthy (receive_at E (received w))); [|exact Hcont].
    destruct (received_request_id (receive_at E (received w))) as [e|rid];
      [simpl; auto|].
    destruct (py_eq (VStr request_id) rid); [|exact Hcont].
    destruct (_handle_errors (receive_at E (received w))); simpl; auto.
Qed.

(** Whatever its outcome, a call draws one uuid and sends one envelope. *)
Lemma call_method_frame polls self method_name timeout params w :
  let w' := snd (call_method E polls self method_name timeout params w) in
  sent w' = (sent w ++ [request_sent method_name (uuid_at E (uuids w)) params])%list
  /\ uuids w' = S (uuids w)
  /\ slept w' = slept w /\ logged w' = logged w.
Proof.
  cbv zeta. rewrite call_method_unfold.
  destruct (wait_loop_frame (uuid_at E (uuids w))
              (timeout_or timeout (request_timeout self))
              (time_at E (clock_reads w)) polls
              (after_send E method_name params w)) as (Hs & Hu & Hsl & Hl).
  rewrite Hs, Hu, Hsl, Hl. simpl. auto.
Qed.

(** A call that returns has sent its envelope and returns an answer to
    it. *)
Lemma call_method_ret polls self method_name timeout params w result w' :
  call_method E polls self method_name timeout params w = (Ret result, w') ->
  received_request_id result = inr (VStr (uuid_at E (uuids w)))
  /\ sent w'
     = (sent w ++ [request_sent method_name (uuid_at E (uuids w)) params])%list
  /\ uuids w' = S (uuids w)
  /\ slept w' = slept w /\ logged w' = logged w.
Proof.
  intros H.
  pose proof (call_method_frame polls self method_name timeout params w) as Hf.
  cbv zeta in Hf. rewrite H in Hf. cbn [snd] in Hf.
  split; [|exact Hf].
  rewrite call_method_unfold in H. apply (wait_loop_ret E) in H. apply H.
Qed.

Lemma get_auth_state_frame polls self w :
  let w' := snd (get_auth_state E polls self w) in
  sent w' = (sent w ++ [request_sent "getAuthorizationState"
                          (uuid_at E (uuids w)) []])%list
  /\ uuids w' = S (uuids w).
Proof.
  cbv zeta. unfold get_auth_state, bind.
  pose proof (call_method_frame polls self "getAuthorizationState" None [] w)
    as Hf. cbv zeta in Hf.
  destruct (call_method E polls self "getAuthorizationState" None [] w)
    as [[result| e |] w1]; simpl in Hf; destruct Hf as (Hs & Hu & _).
  - destruct (getitem result "@type"); simpl; auto.
  - simpl; auto.
  - simpl; auto.
Qed.

End Frame.

(** ** Validation before the first page *)

(** C6 as the code has it.  With [page_size <= 1], chat listing raises
    its validation error in the world it was called in: nothing has been
    sent.  Group-member listing first sends its [getChat] request and
    waits for the answer: when that call raises, the listing raises the
    same error and the page size is not looked at; when it returns a chat
    that is a supergroup, the listing raises the validation error in the
    world the lookup ended in, where that [getChat] envelope is the one
    envelope sent since the call, so that no page of members has been
    asked for. *)
Theorem page_size_is_validated_before_the_first_page
    (E : environment) (pages polls : nat) (self : client) (page_size : Z)
    (w : world) :
  page_size <= 1 ->
  get_all_chats E pages polls self page_size w
  = (Raise (TelegaError TDLibError
              (Some (Lit ("Invalid " ++ dquote ++ "page_size" ++ dquote)))), w)
  /\ (forall group_id e w1,
        call_method E polls self "getChat" None [("chat_id", VInt group_id)] w
        = (Raise e, w1) ->
        get_group_members E pages polls self group_id page_size w
        = (Raise e, w1))
  /\ forall group_id chat w1 tag,
       call_method E polls self "getChat" None [("chat_id", VInt group_id)] w
       = (Ret chat, w1) ->
       chat_type_tag chat = inr tag ->
       py_eq tag (VStr "chatTypeSupergroup") = true ->
       get_group_members E pages polls self group_id page_size w
       = (Raise (TelegaError TDLibError
                   (Some (Lit ("Invalid " ++ dquote ++ "page_size" ++ dquote)))),
          w1)
       /\ sent w1
          = (sent w ++ [envelope "getChat" (uuid_at E (uuids w))
                          [("chat_id", VInt group_id)]])%list.
Proof.
  intros Hps. apply Z.leb_le in Hps. split; [|split].
  - unfold get_all_chats. now rewrite Hps.
  - intros group_id e w1 Hcall. unfold get_group_members.
    now rewrite (bind_raise _ _ _ _ _ Hcall).
  - intros group_id chat w1 tag Hcall Htag Hsuper.
    split.
    + unfold get_group_members. rewrite (bind_ret _ _ _ _ _ Hcall).
      rewrite Htag. cbn [lift]. unfold bind at 1. cbn [ret].
      apply py_eq_str_inv_l in Hsuper. subst tag.
      unfold bind at 1. cbn [py_eq String.eqb Ascii.eqb Bool.eqb].
      unfold _get_super_group_members. now rewrite Hps.
    + pose proof (call_method_frame E polls self "getChat" None
                    [("chat_id", VInt group_id)] w) as Hf.
      cbv zeta in Hf. rewrite Hcall in Hf. apply Hf.
Qed.

(** A page size of one, for the chats and for the members of a
    supergroup. *)
Lemma page_size_is_validated_before_the_first_page_witness :
  get_all_chats (script_env [] 1) 3 3 c0 1 w0
  = (Raise invalid_page_size, w0)
  /\ fst (get_group_members (script_env supergroup_script 1) 3 3 c0 5 1 w0)
     = Raise invalid_page_size
  /\ sent (snd (get_group_members (script_env supergroup_script 1) 3 3 c0
                  5 1 w0))
     = [envelope "getChat" "r0" [("chat_id", VInt 5)]].
Proof.
  assert (Hcall :
    call_method (script_env supergroup_script 1) 3 c0 "getChat" None
      [("chat_id", VInt 5)] w0
    = (Ret (nth 0 supergroup_script VNone),
       snd (call_method (script_env supergroup_script 1) 3 c0 "getChat" None
              [("chat_id", VInt 5)] w0)))
    by (vm_compute; reflexivity).
  pose proof (page_size_is_validated_before_the_first_page
                (script_env [] 1) 3 3 c0 1 w0 ltac:(lia)) as [Hchats _].
  pose proof (page_size_is_validated_before_the_first_page
                (script_env supergroup_script 1) 3 3 c0 1 w0 ltac:(lia))
    as (_ & _ & Hmembers).
  destruct (Hmembers 5 _ _ (VStr "chatTypeSupergroup") Hcall
              eq_refl eq_refl) as (Hraise & Hsent).
  split; [exact Hchats|]. rewrite Hraise. split; [reflexivity|].
  cbn [snd]. rewrite Hsent. reflexivity.
Defined.

(** C6 as stated fails for group-member listing: with a page size of one
    on a supergroup the validation error comes after the [getChat]
    envelope was sent and its answer received; on a channel that does not
    answer, the call ends in the timeout error and the page size is never
    validated; on a basic group the page size is not validated at all and
    the users are returned. *)
Lemma get_group_members_validates_after_the_lookup :
  get_group_members (script_env supergroup_script 1) 3 3 c0 5 1 w0
  = (Raise invalid_page_size,
     after_poll (after_send (script_env supergroup_script 1) "getChat"
                   [("chat_id", VInt 5)] w0))
  /\ sent (after_send (script_env supergroup_script 1) "getChat"
             [("chat_id", VInt 5)] w0)
     = [envelope "getChat" "r0" [("chat_id", VInt 5)]]
  /\ fst (get_group_members (script_env [] 30) 3 5 c0 5 1 w0)
     = Raise (TelegaError UnknownError (Some (Lit "TimeOutError")))
  /\ fst (get_group_members (script_env basic_group_script 1) 3 3 c0 6 1 w0)
     = Ret [reply "r2" (user 1); reply "r3" (user 2)].
Proof. repeat split; vm_compute; reflexivity. Qed.

(** ** Unknown group kinds *)

(** C8.  When the chat that [getChat] returns has a type tag that is
    neither the basic-group tag nor the supergroup tag, group-member
    listing raises [TDLibError], the generic error of the library, with
    the tag in its text: it returns no members, asks for none, and raises
    no other kind. *)
Theorem get_group_members_unknown_group_kind
    (E : environment) (pages polls : nat) (self : client)
    (group_id page_size : Z) (w w1 : world) (chat tag : value) :
  call_method E polls self "getChat" None [("chat_id", VInt group_id)] w
  = (Ret chat, w1) ->
  chat_type_tag chat = inr tag ->
  py_eq tag (VStr "chatTypeBasicGroup") = false ->
  py_eq tag (VStr "chatTypeSupergroup") = false ->
  get_group_members E pages polls self group_id page_size w
  = (Raise (TelegaError TDLibError (Some (Fmt "Unknown group type: %s" [tag]))),
     w1)
  /\ sent w1
     = (sent w ++ [request_sent "getChat" (uuid_at E (uuids w))
                     [("chat_id", VInt group_id)]])%list.
Proof.
  intros Hcall Htag Hbasic Hsuper. split.
  - unfold get_group_members. rewrite (bind_ret _ _ _ _ _ Hcall).
    rewrite Htag. cbn [lift]. unfold bind at 1. cbn [ret].
    rewrite Hbasic, Hsuper. reflexivity.
  - pose proof (call_method_frame E polls self "getChat" None
                  [("chat_id", VInt group_id)] w) as Hf.
    cbv zeta in Hf. rewrite Hcall in Hf. apply Hf.
Qed.

(** A secret chat is neither kind of group. *)
Lemma get_group_members_unknown_group_kind_witness :
  fst (get_group_members (script_env secret_chat_script 1) 3 3 c0 5 200 w0)
  = Raise (TelegaError TDLibError
             (Some (Fmt "Unknown group type: %s" [VStr "chatTypeSecret"]))).
Proof.
  assert (Hcall :
    call_method (script_env secret_chat_script 1) 3 c0 "getChat" None
      [("chat_id", VInt 5)] w0
    = (Ret (nth 0 secret_chat_script VNone),
       snd (call_method (script_env secret_chat_script 1) 3 c0 "getChat" None
              [("chat_id", VInt 5)] w0)))
    by (vm_compute; reflexivity).
  destruct (get_group_members_unknown_group_kind
              (script_env secret_chat_script 1) 3 3 c0 5 200 w0 _ _
              (VStr "chatTypeSecret") Hcall eq_refl eq_refl eq_refl)
    as [Hraise _].
  now rewrite Hraise.
Defined.

(** ** Submitting a code without a password *)

(** C9 as the code has it.  Without a password ([None] or the empty
    string), [send_sms_code] raises [TwoFactorPasswordNeeded] as soon as it
    has seen the password state, and sends no password check.  It has made
    calls by then: the state query when that already answers with the
    password state; the state query, the code check and a second state
    query when the first answer is the code state and the second the
    password state. *)
Theorem send_sms_code_without_password
    (E : environment) (polls : nat) (self : client) (sms_code : string)
    (password : option string) (w : world) :
  password_missing password = true ->
  (forall st w1,
     get_auth_state E polls self w = (Ret st, w1) ->
     py_eq st (VStr AuthStates.WaitPassword) = true ->
     send_sms_code E polls self sms_code password w
     = (Raise (TelegaError TwoFactorPasswordNeeded None), w1)
     /\ sent w1
        = (sent w ++ [request_sent "getAuthorizationState"
                        (uuid_at E (uuids w)) []])%list)
  /\ (forall st w1 result w2 st' w3,
        get_auth_state E polls self w = (Ret st, w1) ->
        py_eq st (VStr AuthStates.WaitCode) = true ->
        call_method E polls self "checkAuthenticationCode" None
          [("code", VStr sms_code)] w1 = (Ret result, w2) ->
        get_auth_state E polls self
          (snd (log INFO (Fmt "checkAuthenticationCode response: %s" [result])
                  w2))
        = (Ret st', w3) ->
        py_eq st' (VStr AuthStates.WaitPassword) = true ->
        send_sms_code E polls self sms_code password w
        = (Raise (TelegaError TwoFactorPasswordNeeded None), w3)
        /\ sent w3
           = (sent w
              ++ [request_sent "getAuthorizationState" (uuid_at E (uuids w)) [];
                  request_sent "checkAuthenticationCode"
                    (uuid_at E (S (uuids w))) [("code", VStr sms_code)];
                  request_sent "getAuthorizationState"
                    (uuid_at E (S (S (uuids w)))) []])%list).
Proof.
  intros Hmissing. split.
  - intros st w1 Hstate Hpw. split.
    + unfold send_sms_code. rewrite (bind_ret _ _ _ _ _ Hstate).
      apply py_eq_str_inv_l in Hpw. subst st.
      unfold bind at 1. cbn [py_eq AuthStates.WaitPassword AuthStates.WaitCode
                             String.eqb Ascii.eqb Bool.eqb ret].
      unfold bind at 1. now rewrite Hmissing.
    + pose proof (get_auth_state_frame E polls self w) as Hf.
      cbv zeta in Hf. rewrite Hstate in Hf. apply Hf.
  - intros st w1 result w2 st' w3 Hstate Hcode Hcheck Hstate' Hpw. split.
    + unfold send_sms_code. rewrite (bind_ret _ _ _ _ _ Hstate).
      rewrite Hcode. unfold bind at 1.
      rewrite (bind_ret _ _ _ _ _ Hcheck).
      unfold bind at 1. cbn [log]. cbn [log snd] in Hstate'.
      rewrite Hstate'. rewrite Hpw.
      unfold bind at 1. now rewrite Hmissing.
    + pose proof (get_auth_state_frame E polls self w) as Hf1.
      cbv zeta in Hf1. rewrite Hstate in Hf1. destruct Hf1 as [Hs1 Hu1].
      pose proof (call_method_frame E polls self "checkAuthenticationCode"
                    None [("code", VStr sms_code)] w1) as Hf2.
      cbv zeta in Hf2. rewrite Hcheck in Hf2. destruct Hf2 as (Hs2 & Hu2 & _).
      pose proof (get_auth_state_frame E polls self
                    (snd (log INFO (Fmt "checkAuthenticationCode response: %s"
                                        [result]) w2))) as Hf3.
      cbv zeta in Hf3. rewrite Hstate' in Hf3. destruct Hf3 as [Hs3 _].
      cbn [snd log sent uuids] in Hs3, Hs2, Hs1, Hu1, Hu2.
      rewrite Hs3, Hs2, Hs1, Hu2, Hu1, <- !app_assoc. reflexivity.
Qed.

(** The code state, then the password state, with an empty password. *)
Lemma send_sms_code_without_password_witness :
  fst (send_sms_code (script_env code_then_password_script 1) 3 c0 "12345"
         (Some ""%string) w0)
  = Raise (TelegaError TwoFactorPasswordNeeded None).
Proof.
  pose proof (send_sms_code_without_password
                (script_env code_then_password_script 1) 3 c0 "12345"
                (Some ""%string) w0 eq_refl) as [_ Hvia].
  destruct (Hvia (VStr AuthStates.WaitCode)
              (snd (get_auth_state (script_env code_then_password_script 1)
                      3 c0 w0))
              (nth 1 code_then_password_script VNone)
              (snd (call_method (script_env code_then_password_script 1) 3 c0
                      "checkAuthenticationCode" None [("code", VStr "12345")]
                      (snd (get_auth_state
                              (script_env code_then_password_script 1)
                              3 c0 w0))))
              (VStr AuthStates.WaitPassword)
              (snd (get_auth_state (script_env code_then_password_script 1)
                      3 c0
                      (snd (log INFO
                              (Fmt "checkAuthenticationCode response: %s"
                                   [nth 1 code_then_password_script VNone])
                              (snd (call_method
                                      (script_env code_then_password_script 1)
                                      3 c0 "checkAuthenticationCode" None
                                      [("code", VStr "12345")]
                                      (snd (get_auth_state
                                              (script_env
                                                 code_then_password_script 1)
                                              3 c0 w0))))))))
           ) as [Hraise _];
    [vm_compute; reflexivity .. | now rewrite Hraise].
Defined.

(** C9 as stated fails: the exception comes after three calls, one of
    them the code check. *)
Lemma send_sms_code_raises_after_calls :
  fst (send_sms_code (script_env code_then_password_script 1) 3 c0 "12345"
         None w0)
  = Raise (TelegaError TwoFactorPasswordNeeded None)
  /\ map method_of
       (sent (snd (send_sms_code (script_env code_then_password_script 1) 3 c0
                     "12345" None w0)))
     = [Some "getAuthorizationState"%string;
        Some "checkAuthenticationCode"%string;
        Some "getAuthorizationState"%string].
Proof. split; vm_compute; reflexivity. Qed.

(** ** Sets of identifiers *)

Lemma bind_ret_inv {A B} (m : M A) (k : A -> M B) (w w' : world) (b : B) :
  bind m k w = (Ret b, w') ->
  exists a w1, m w = (Ret a, w1) /\ k a w1 = (Ret b, w').
Proof.
  unfold bind. destruct (m w) as [[a|e|] w1]; try discriminate. eauto.
Qed.

Lemma lift_ret_inv {A} (r : exn + A) (w w' : world) (a : A) :
  lift r w = (Ret a, w') -> r = inr a /\ w' = w.
Proof.
  destruct r as [e|a0]; simpl; [discriminate|].
  unfold ret. intros H. injection H as -> ->. auto.
Qed.

Lemma py_eq_sym (a b : value) : py_eq a b = py_eq b a.
Proof.
  destruct a, b; simpl; try reflexivity.
  - now destruct b, b0.
  - apply Z.eqb_sym.
  - apply Z.eqb_sym.
  - apply Z.eqb_sym.
  - apply String.eqb_sym.
Qed.

Lemma py_eq_refl_hashable (x : value) : hashable x = true -> py_eq x x = true.
Proof.
  destruct x; simpl; try discriminate; intros _.
  - reflexivity.
  - now destruct b.
  - apply Z.eqb_refl.
  - apply String.eqb_refl.
Qed.

Lemma set_contains_inv (x : value) (s : list value) (b : bool) :
  set_contains x s = inr b -> hashable x = true /\ b = existsb (py_eq x) s.
Proof.
  destruct x; simpl; try discriminate; intros H; injection H as <-; auto.
Qed.

Lemma distinct_snoc (l : list value) (x : value) :
  distinct l -> existsb (py_eq x) l = false -> distinct (l ++ [x]).
Proof.
  induction l as [|y l IH]; simpl.
  - auto.
  - intros [Hy Hl] Hx. apply orb_false_iff in Hx. destruct Hx as [Hxy Hxl].
    split.
    + rewrite existsb_app, Hy. simpl. now rewrite py_eq_sym, Hxy.
    + now apply IH.
Qed.

Lemma distinct_new_ids (ids : list value) :
  forall added, distinct added -> distinct (added ++ new_ids ids added).
Proof.
  induction ids as [|x ids IH]; intros added Hd; simpl.
  - now rewrite app_nil_r.
  - destruct (existsb (py_eq x) added) eqn:Hx.
    + now apply IH.
    + change (x :: new_ids ids (added ++ [x]))
        with ([x] ++ new_ids ids (added ++ [x]))%list.
      rewrite app_assoc. apply IH. now apply distinct_snoc.
Qed.

Lemma new_ids_app (a b : list value) :
  forall added,
    new_ids (a ++ b) added
    = (new_ids a added ++ new_ids b (added ++ new_ids a added))%list.
Proof.
  induction a as [|x a IH]; intros added; simpl.
  - now rewrite app_nil_r.
  - destruct (existsb (py_eq x) added).
    + apply IH.
    + simpl. rewrite IH. now rewrite <- app_assoc.
Qed.

Lemma distinct_NoDup (l : list value) :
  Forall (fun x => hashable x = true) l -> distinct l -> NoDup l.
Proof.
  induction l as [|x l IH]; intros Hh Hd.
  - constructor.
  - inversion Hh as [|? ? Hx Hl]; subst. destruct Hd as [Hnot Hd].
    constructor; [|now apply IH].
    intros Hin. assert (existsb (py_eq x) l = true); [|congruence].
    apply existsb_exists. exists x. split; [exact Hin|].
    now apply py_eq_refl_hashable.
Qed.

Lemma new_ids_hashable (ids : list value) :
  Forall (fun x => hashable x = true) ids ->
  forall added, Forall (fun x => hashable x = true) (new_ids ids added).
Proof.
  induction 1 as [|x ids Hx _ IH]; intros added; simpl.
  - constructor.
  - destruct (existsb (py_eq x) added); [apply IH|].
    constructor; [exact Hx | apply IH].
Qed.

(** ** Delays, last elements, answers *)

Lemma sleep_ret (d : Q) (w : world) :
  (0 <= d)%Q -> sleep d w = (Ret tt, after_sleep d w).
Proof.
  intros Hd. unfold sleep. apply Qle_bool_iff in Hd. now rewrite Hd.
Qed.

Lemma sleep_ret_inv (d : Q) (w w' : world) (u : unit) :
  sleep d w = (Ret u, w') -> (0 <= d)%Q /\ w' = after_sleep d w.
Proof.
  unfold sleep. destruct (Qle_bool 0 d) eqn:Hd; [|discriminate].
  intros H. injection H as _ <-. split; [|reflexivity].
  now apply Qle_bool_iff.
Qed.

Lemma list_last_snoc (l : list value) (x : value) :
  list_last (l ++ [x]) = inr x.
Proof. unfold list_last. now rewrite rev_app_distr. Qed.

Lemma list_last_inv (l : list value) (x : value) :
  list_last l = inr x -> exists front, l = (front ++ [x])%list.
Proof.
  unfold list_last. destruct (rev l) as [|y r] eqn:Hr; [discriminate|].
  intros H. injection H as ->. exists (rev r).
  rewrite <- (rev_involutive l), Hr. reflexivity.
Qed.

Lemma answers_incl (E : environment) (method_name key : string)
    (requests requests' : list value) (arg response : value) :
  incl requests requests' ->
  answers E method_name key requests arg response ->
  answers E method_name key requests' arg response.
Proof.
  intros Hi (n & Hin & Hid). exists n. split; [now apply Hi|exact Hid].
Qed.

Lemma Forall2_answers_incl (E : environment) (method_name key : string)
    (requests requests' : list value) (args responses : list value) :
  incl requests requests' ->
  Forall2 (answers E method_name key requests) args responses ->
  Forall2 (answers E method_name key requests') args responses.
Proof.
  intros Hi H. induction H; constructor; [|assumption].
  now apply (answers_incl E method_name key requests requests').
Qed.

(** Consecutive calls and the answers to them, pair by pair. *)
Lemma answered_requests (E : environment) (method_name key : string)
    (args : list value) :
  forall n responses,
    List.length responses = List.length args ->
    answered_from E n responses ->
    Forall2 (answers E method_name key
               (requests_from E method_name key n args)) args responses.
Proof.
  induction args as [|a args IH]; intros n [|r responses] Hlen Hans;
    simpl in Hlen; try discriminate.
  - constructor.
  - destruct Hans as [Hid Hans]. cbn [requests_from]. constructor.
    + exists n. split; [now left|exact Hid].
    + apply (Forall2_answers_incl E method_name key
               (requests_from E method_name key (S n) args)).
      * now apply incl_tl, incl_refl.
      * apply IH; [now injection Hlen|exact Hans].
Qed.

(** ** Chat listing *)

Section Chats.

Variable E : environment.
Variable polls : nat.
Variable self : client.
Variable page_size : Z.

(** The [for] loop of a page looks up each new identifier once, in the
    order of the page, by a call of its own, and keeps the chats and the
    set aligned. *)
Lemma add_new_chats_spec (ids : list value) :
  forall chats added w acc w2,
    add_new_chats E polls self ids chats added w = (Ret acc, w2) ->
    snd acc = (added ++ new_ids ids added)%list
    /\ Forall (fun x => hashable x = true) ids
    /\ exists results,
         fst acc = (chats ++ results)%list
         /\ List.length results = List.length (new_ids ids added)
         /\ answered_from E (uuids w) results
         /\ sent w2
            = (sent w ++ requests_from E "getChat" "chat_id" (uuids w)
                           (new_ids ids added))%list
         /\ uuids w2 = (uuids w + List.length (new_ids ids added))%nat
         /\ slept w2 = slept w /\ logged w2 = logged w.
Proof.
  induction ids as [|chat_id ids IH]; intros chats added w acc w2 H.
  - simpl in H. unfold ret in H. injection H as <- <-. simpl.
    rewrite app_nil_r. split; [reflexivity|]. split; [constructor|].
    exists []. rewrite !app_nil_r, Nat.add_0_r. simpl. auto 10.
  - cbn [add_new_chats] in H.
    apply bind_ret_inv in H. destruct H as (seen & w1 & Hseen & H).
    apply lift_ret_inv in Hseen. destruct Hseen as [Hseen ->].
    apply set_contains_inv in Hseen. destruct Hseen as [Hhash ->].
    cbn [new_ids]. destruct (existsb (py_eq chat_id) added).
    + apply IH in H. destruct H as (Hadded & Hh & results & Hrest).
      split; [exact Hadded|]. split; [now constructor|].
      exists results. exact Hrest.
    + apply bind_ret_inv in H. destruct H as (result & w1 & Hcall & H).
      apply call_method_ret in Hcall.
      destruct Hcall as (Hid & Hs1 & Hu1 & Hsl1 & Hl1).
      apply IH in H.
      destruct H as (Hadded & Hh & results & Hchats & Hlen & Hans & Hs & Hu
                     & Hsl & Hl).
      split; [now rewrite Hadded, <- app_assoc|].
      split; [now constructor|].
      exists (result :: results). rewrite Hu1 in Hans, Hs, Hu.
      split; [now rewrite Hchats, <- app_assoc|].
      split; [simpl; now rewrite Hlen|].
      split; [split; assumption|].
      split; [rewrite Hs, Hs1, <- app_assoc; reflexivity|].
      split; [rewrite Hu; simpl; lia|].
      split; congruence.
Qed.

(** A page that was fetched: the request for it at the cursor, then the
    lookups, each answered under its own identifier. *)
Lemma fetched_spec st w ids acc w2 :
  fetched E polls self page_size st w ids acc w2 ->
  snd acc = (added_chat_ids st ++ new_ids ids (added_chat_ids st))%list
  /\ Forall (fun x => hashable x = true) ids
  /\ exists results,
       fst acc = (chats st ++ results)%list
       /\ List.length results = List.length (new_ids ids (added_chat_ids st))
       /\ answered_from E (S (uuids w)) results
       /\ sent w2
          = (sent w
             ++ page_request E page_size (offset_order st) (uuids w)
                :: requests_from E "getChat" "chat_id" (S (uuids w))
                     (new_ids ids (added_chat_ids st)))%list
       /\ uuids w2
          = (S (uuids w) + List.length (new_ids ids (added_chat_ids st)))%nat
       /\ slept w2 = slept w /\ logged w2 = logged w.
Proof.
  intros (result & w1 & chat_id_list & Hcall & _ & _ & Hadd).
  apply call_method_ret in Hcall.
  destruct Hcall as (_ & Hs1 & Hu1 & Hsl1 & Hl1).
  apply add_new_chats_spec in Hadd.
  destruct Hadd as (Hadded & Hh & results & Hchats & Hlen & Hans & Hs & Hu
                    & Hsl & Hl).
  split; [exact Hadded|]. split; [exact Hh|].
  exists results. rewrite Hu1 in Hans, Hs, Hu.
  split; [exact Hchats|]. split; [exact Hlen|]. split; [exact Hans|].
  split; [rewrite Hs, Hs1, <- app_assoc; reflexivity|].
  split; [exact Hu|]. split; congruence.
Qed.

Lemma py_iter_truthy_len (v : value) (ids : list value) :
  py_iter v = inr ids ->
  truthy v = match ids with [] => false | _ => true end
  /\ py_len v = inr (Z.of_nat (List.length ids)).
Proof.
  destruct v as [| | |s|l|d]; simpl; try discriminate;
    intros H; injection H as <-.
  - split.
    + now destruct s.
    + f_equal. f_equal. induction s as [|a s IHs]; simpl; congruence.
  - now destruct l.
  - rewrite length_map. now destruct d.
Qed.

Lemma page_is_full_false_iff (ids : list value) :
  page_is_full page_size ids = false
  <-> ids = [] \/ Z.of_nat (List.length ids) < page_size.
Proof.
  unfold page_is_full. destruct ids as [|x ids].
  - split; auto.
  - rewrite negb_false_iff, Z.ltb_lt. split; [auto|].
    intros [H|H]; [discriminate|exact H].
Qed.

(** The test that ends a page, on the elements the [for] loop visited. *)
Lemma full_test (v : value) (ids : list value) (w : world) :
  py_iter v = inr ids ->
  (if truthy v then
     n <- lift (py_len v) ;; ret (negb (n <? page_size))
   else ret false) w
  = (Ret (page_is_full page_size ids), w).
Proof.
  intros Hiter. destruct (py_iter_truthy_len v ids Hiter) as [Ht Hl].
  rewrite Ht. unfold page_is_full. destruct ids as [|x ids]; [reflexivity|].
  unfold bind. now rewrite Hl.
Qed.

(** A page that is not full ends the listing, without a delay. *)
Lemma get_all_chats_page_last st w ids acc w2 :
  fetched E polls self page_size st w ids acc w2 ->
  page_is_full page_size ids = false ->
  get_all_chats_page E polls self page_size st w
  = (Ret (false, {| chats := fst acc; added_chat_ids := snd acc;
                    offset_order := offset_order st |}), w2).
Proof.
  intros (result & w1 & chat_id_list & Hcall & Hget & Hiter & Hadd) Hfull.
  unfold get_all_chats_page.
  rewrite (bind_ret _ _ _ _ _ Hcall), Hget. cbn [lift].
  unfold bind at 1. cbn [ret]. rewrite Hiter. cbn [lift].
  unfold bind at 1. cbn [ret].
  rewrite (bind_ret _ _ _ _ _ Hadd).
  unfold bind at 1. rewrite (full_test _ _ _ Hiter), Hfull. reflexivity.
Qed.

(** A full page moves the cursor to the order of the chat that stands
    last in the list, and then sleeps. *)
Lemma get_all_chats_page_next st w ids acc w2 front last_chat order :
  fetched E polls self page_size st w ids acc w2 ->
  page_is_full page_size ids = true ->
  fst acc = (front ++ [last_chat])%list ->
  getitem last_chat "order" = inr order ->
  (0 <= request_delay self)%Q ->
  get_all_chats_page E polls self page_size st w
  = (Ret (true, {| chats := fst acc; added_chat_ids := snd acc;
                   offset_order := order |}),
     after_sleep (request_delay self) w2).
Proof.
  intros (result & w1 & chat_id_list & Hcall & Hget & Hiter & Hadd)
         Hfull Hlast Horder Hdelay.
  unfold get_all_chats_page.
  rewrite (bind_ret _ _ _ _ _ Hcall), Hget. cbn [lift].
  unfold bind at 1. cbn [ret]. rewrite Hiter. cbn [lift].
  unfold bind at 1. cbn [ret].
  rewrite (bind_ret _ _ _ _ _ Hadd).
  unfold bind at 1. rewrite (full_test _ _ _ Hiter), Hfull.
  rewrite Hlast at 1. rewrite list_last_snoc. cbn [lift].
  unfold bind at 1. cbn [ret].
  rewrite Horder. cbn [lift]. unfold bind at 1. cbn [ret].
  unfold bind at 1. now rewrite (sleep_ret _ _ Hdelay).
Qed.

(** A full page whose delay is negative raises where it would sleep. *)
Lemma get_all_chats_page_negative_delay st w ids acc w2 front last_chat order :
  fetched E polls self page_size st w ids acc w2 ->
  page_is_full page_size ids = true ->
  fst acc = (front ++ [last_chat])%list ->
  getitem last_chat "order" = inr order ->
  (request_delay self < 0)%Q ->
  exists msg,
    get_all_chats_page E polls self page_size st w = (Raise (ValueError msg), w2).
Proof.
  intros (result & w1 & chat_id_list & Hcall & Hget & Hiter & Hadd)
         Hfull Hlast Horder Hdelay.
  assert (Hle : Qle_bool 0 (request_delay self) = false).
  { destruct (Qle_bool 0 (request_delay self)) eqn:Hle; [|reflexivity].
    apply Qle_bool_iff in Hle. exfalso. now apply (Qlt_not_le _ _ Hdelay). }
  eexists. unfold get_all_chats_page.
  rewrite (bind_ret _ _ _ _ _ Hcall), Hget. cbn [lift].
  unfold bind at 1. cbn [ret]. rewrite Hiter. cbn [lift].
  unfold bind at 1. cbn [ret].
  rewrite (bind_ret _ _ _ _ _ Hadd).
  unfold bind at 1. rewrite (full_test _ _ _ Hiter), Hfull.
  rewrite Hlast, list_last_snoc. cbn [lift].
  unfold bind at 1. cbn [ret].
  rewrite Horder. cbn [lift]. unfold bind at 1. cbn [ret].
  unfold bind at 1. unfold sleep. rewrite Hle. reflexivity.
Qed.

(** Every page that completes is one of the two. *)
Lemma get_all_chats_page_inv st w has_next_page st' w' :
  get_all_chats_page E polls self page_size st w
  = (Ret (has_next_page, st'), w') ->
  exists ids acc w2,
    fetched E polls self page_size st w ids acc w2
    /\ page_is_full page_size ids = has_next_page
    /\ if has_next_page then
         exists front last_chat order,
           fst acc = (front ++ [last_chat])%list
           /\ getitem last_chat "order" = inr order
           /\ (0 <= request_delay self)%Q
           /\ st' = {| chats := fst acc; added_chat_ids := snd acc;
                       offset_order := order |}
           /\ w' = after_sleep (request_delay self) w2
       else
         st' = {| chats := fst acc; added_chat_ids := snd acc;
                  offset_order := offset_order st |}
         /\ w' = w2.
Proof.
  unfold get_all_chats_page. intros H.
  apply bind_ret_inv in H. destruct H as (result & w1 & Hcall & H).
  apply bind_ret_inv in H. destruct H as (chat_id_list & w1' & Hget & H).
  apply lift_ret_inv in Hget. destruct Hget as [Hget ->].
  apply bind_ret_inv in H. destruct H as (ids & w1' & Hiter & H).
  apply lift_ret_inv in Hiter. destruct Hiter as [Hiter ->].
  apply bind_ret_inv in H. destruct H as (acc & w2 & Hadd & H).
  unfold bind at 1 in H. rewrite (full_test _ _ _ Hiter) in H.
  exists ids, acc, w2. split; [now exists result, w1, chat_id_list|].
  destruct (page_is_full page_size ids).
  - apply bind_ret_inv in H. destruct H as (last_chat & w2' & Hlast & H).
    apply lift_ret_inv in Hlast. destruct Hlast as [Hlast ->].
    apply bind_ret_inv in H. destruct H as (order & w2' & Horder & H).
    apply lift_ret_inv in Horder. destruct Horder as [Horder ->].
    apply bind_ret_inv in H. destruct H as ([] & w3 & Hsleep & H).
    apply sleep_ret_inv in Hsleep. destruct Hsleep as [Hdelay ->].
    unfold ret in H. injection H as <- <- <-.
    split; [reflexivity|].
    apply list_last_inv in Hlast. destruct Hlast as (front & Hlast).
    exists front, last_chat, order. auto 6.
  - unfold ret in H. injection H as <- <- <-. auto.
Qed.

End Chats.

Section ChatListing.

Variable E : environment.
Variable polls : nat.
Variable self : client.
Variable page_size : Z.

(** A run through finitely many pages is what the loop computes, with any
    bound on its turns that covers the pages. *)
Lemma listing_loop st w pages st' w' :
  listing E polls self page_size st w pages st' w' ->
  forall n, (List.length pages <= n)%nat ->
    get_all_chats_loop E n polls self page_size st w = (Ret st', w').
Proof.
  induction 1 as [st w ids acc w2 Hf Hfull
                 |st w ids acc w2 front last_chat order pages st' w'
                    Hf Hfull Hlast Horder Hdelay _ IH];
    intros [|n] Hn; simpl in Hn; try lia.
  - cbn [get_all_chats_loop].
    now rewrite (bind_ret _ _ _ _ _
                   (get_all_chats_page_last E polls self page_size
                      _ _ _ _ _ Hf Hfull)).
  - cbn [get_all_chats_loop].
    rewrite (bind_ret _ _ _ _ _
               (get_all_chats_page_next E polls self page_size
                  _ _ _ _ _ _ _ _ Hf Hfull Hlast Horder Hdelay)).
    cbn [fst snd]. apply IH. lia.
Qed.

(** Every run of the loop that returns went through such pages. *)
Lemma loop_listing n :
  forall st w st' w',
    get_all_chats_loop E n polls self page_size st w = (Ret st', w') ->
    exists pages, (List.length pages <= n)%nat
                  /\ listing E polls self page_size st w pages st' w'.
Proof.
  induction n as [|n IH]; intros st w st' w' H.
  - discriminate.
  - cbn [get_all_chats_loop] in H.
    apply bind_ret_inv in H. destruct H as ([has_next st1] & w1 & Hpage & H).
    apply get_all_chats_page_inv in Hpage.
    destruct Hpage as (ids & acc & w2 & Hf & Hfull & Hrest).
    cbn [fst snd] in H. destruct has_next.
    + destruct Hrest as (front & last_chat & order & Hlast & Horder & Hdelay
                         & -> & ->).
      apply IH in H. destruct H as (pages & Hlen & Hl).
      exists (ids :: pages). split; [simpl; lia|].
      now apply (listing_next E polls self page_size st w ids acc w2
                   front last_chat order pages st' w').
    + destruct Hrest as [-> ->]. unfold ret in H. injection H as <- <-.
      exists [ids]. split; [simpl; lia|].
      now apply listing_last.
Qed.

(** What the pages of a run leave in the set and in the list of chats:
    the identifiers in the order of their first occurrence, and for each
    of them the answer to a lookup that asked for it. *)
Lemma listing_accumulates st w pages st' w' :
  listing E polls self page_size st w pages st' w' ->
  distinct (added_chat_ids st) ->
  Forall (fun x => hashable x = true) (added_chat_ids st) ->
  added_chat_ids st'
  = (added_chat_ids st ++ new_ids (List.concat pages) (added_chat_ids st))%list
  /\ distinct (added_chat_ids st')
  /\ Forall (fun x => hashable x = true) (added_chat_ids st')
  /\ exists new,
       sent w' = (sent w ++ new)%list
       /\ forall old,
            Forall2 (answers E "getChat" "chat_id" old)
              (added_chat_ids st) (chats st) ->
            Forall2 (answers E "getChat" "chat_id" (old ++ new))
              (added_chat_ids st') (chats st').
Proof.
  assert (Hstep : forall st w ids acc w2,
    fetched E polls self page_size st w ids acc w2 ->
    distinct (added_chat_ids st) ->
    Forall (fun x => hashable x = true) (added_chat_ids st) ->
    snd acc = (added_chat_ids st ++ new_ids ids (added_chat_ids st))%list
    /\ distinct (snd acc)
    /\ Forall (fun x => hashable x = true) (snd acc)
    /\ slept w2 = slept w
    /\ exists new,
         sent w2 = (sent w ++ new)%list
         /\ forall old,
              Forall2 (answers E "getChat" "chat_id" old)
                (added_chat_ids st) (chats st) ->
              Forall2 (answers E "getChat" "chat_id" (old ++ new))
                (snd acc) (fst acc)).
  { clear. intros st w ids acc w2 Hf Hd Hh.
    apply fetched_spec in Hf.
    destruct Hf as (Hadded & Hids & results & Hchats & Hlen & Hans & Hs & _
                    & Hsl & _).
    rewrite Hadded, Hchats. split; [reflexivity|].
    split; [now apply distinct_new_ids|].
    split; [apply Forall_app; split; [exact Hh|now apply new_ids_hashable]|].
    split; [exact Hsl|].
    eexists. split; [exact Hs|]. intros old Hold.
    apply Forall2_app.
    - apply (Forall2_answers_incl E _ _ old); [|exact Hold].
      now apply incl_appl, incl_refl.
    - apply (Forall2_answers_incl E _ _
               (requests_from E "getChat" "chat_id" (S (uuids w))
                  (new_ids ids (added_chat_ids st)))).
      + now apply incl_appr, incl_tl, incl_refl.
      + now apply answered_requests. }
  induction 1 as [st w ids acc w2 Hf Hfull
                 |st w ids acc w2 front last_chat order pages st' w'
                    Hf Hfull Hlast Horder Hdelay _ IH];
    intros Hd Hh;
    destruct (Hstep _ _ _ _ _ Hf Hd Hh)
      as (Hadded & Hd' & Hh' & _ & new & Hs & Hl').
  - cbn [added_chat_ids chats List.concat]. rewrite app_nil_r.
    split; [exact Hadded|]. split; [exact Hd'|]. split; [exact Hh'|].
    exists new. auto.
  - cbn [added_chat_ids chats] in IH.
    destruct (IH Hd' Hh') as (Hadded' & Hd'' & Hh'' & new' & Hs' & Hl'').
    split; [|split; [exact Hd''|split; [exact Hh''|]]].
    + rewrite Hadded', Hadded. cbn [List.concat].
      now rewrite new_ids_app, app_assoc.
    + exists (new ++ new')%list. cbn [after_sleep sent] in Hs'.
      split; [now rewrite Hs', Hs, app_assoc|].
      intros old Hold. rewrite app_assoc. apply Hl''. now apply Hl'.
Qed.

End ChatListing.

(** C5.  For a page size above one.  A page of identifiers ends the
    listing exactly when it is empty or shorter than [page_size]; it does
    so without a delay.  A page is asked for at the cursor, with the
    limit [page_size]; then every identifier of the page that has not
    been seen before is looked up by one [getChat] request of its own, in
    the order of the page, and the answers are appended to the list.  Any
    page that does not end the listing sets the cursor's ordering key to
    the order field of the chat that stands last in the list and then
    sleeps for the inter-page delay; with a negative delay it raises
    [ValueError] there instead.
    Whenever the pages the channel returns are finitely many full ones
    followed by one that is not full, the listing returns, for every
    bound on its turns that covers them; the identifiers it accumulated
    are those of the concatenated pages in the order of their first
    occurrence, each once, whatever the pages share, and the list
    returned holds, position for position, an answer to a [getChat]
    request that the listing sent for that identifier.  Every listing
    that returns went through such pages. *)
Theorem get_all_chats_lists_each_chat_once
    (E : environment) (polls : nat) (self : client) (page_size : Z)
    (w : world) :
  1 < page_size ->
  (forall st w1 ids acc w2,
     fetched E polls self page_size st w1 ids acc w2 ->
     (page_is_full page_size ids = false
      <-> ids = [] \/ Z.of_nat (List.length ids) < page_size)
     /\ (exists results,
           fst acc = (chats st ++ results)%list
           /\ snd acc
              = (added_chat_ids st ++ new_ids ids (added_chat_ids st))%list
           /\ List.length results
              = List.length (new_ids ids (added_chat_ids st))
           /\ answered_from E (S (uuids w1)) results
           /\ sent w2
              = (sent w1
                 ++ page_request E page_size (offset_order st) (uuids w1)
                    :: requests_from E "getChat" "chat_id" (S (uuids w1))
                         (new_ids ids (added_chat_ids st)))%list
           /\ slept w2 = slept w1)
     /\ (page_is_full page_size ids = false ->
         get_all_chats_page E polls self page_size st w1
         = (Ret (false, {| chats := fst acc; added_chat_ids := snd acc;
                           offset_order := offset_order st |}), w2))
     /\ (page_is_full page_size ids = true ->
         forall front last_chat order,
           fst acc = (front ++ [last_chat])%list ->
           getitem last_chat "order" = inr order ->
           (0 <= request_delay self)%Q ->
           get_all_chats_page E polls self page_size st w1
           = (Ret (true, {| chats := fst acc; added_chat_ids := snd acc;
                            offset_order := order |}),
              {| sent := sent w2; received := received w2;
                 clock_reads := clock_reads w2; uuids := uuids w2;
                 slept := slept w2 ++ [request_delay self];
                 logged := logged w2 |}))
     /\ (page_is_full page_size ids = true ->
         forall front last_chat order,
           fst acc = (front ++ [last_chat])%list ->
           getitem last_chat "order" = inr order ->
           (request_delay self < 0)%Q ->
           exists msg,
             get_all_chats_page E polls self page_size st w1
             = (Raise (ValueError msg), w2)))
  /\ (forall pages st' w',
        listing E polls self page_size get_all_chats_init w pages st' w' ->
        (forall n, (List.length pages <= n)%nat ->
           get_all_chats E n polls self page_size w = (Ret (chats st'), w'))
        /\ added_chat_ids st' = new_ids (List.concat pages) []
        /\ NoDup (added_chat_ids st')
        /\ distinct (added_chat_ids st')
        /\ exists new,
             sent w' = (sent w ++ new)%list
             /\ Forall2 (answers E "getChat" "chat_id" new)
                  (added_chat_ids st') (chats st'))
  /\ (forall n result w',
        get_all_chats E n polls self page_size w = (Ret result, w') ->
        exists pages st',
          (List.length pages <= n)%nat
          /\ listing E polls self page_size get_all_chats_init w pages st' w'
          /\ result = chats st').
Proof.
  intros Hps. assert (Hvalid : (page_size <=? 1) = false) by now apply Z.leb_gt.
  split; [|split].
  - intros st w1 ids acc w2 Hf.
    split; [apply page_is_full_false_iff|].
    split.
    { destruct (fetched_spec E polls self page_size _ _ _ _ _ Hf)
        as (Hadded & _ & results & Hchats & Hlen & Hans & Hs & _ & Hsl & _).
      exists results. auto 10. }
    split; [now apply get_all_chats_page_last|].
    split.
    + intros Hfull front last_chat order Hlast Horder Hdelay.
      now apply get_all_chats_page_next
        with (ids := ids) (front := front) (last_chat := last_chat).
    + intros Hfull front last_chat order Hlast Horder Hdelay.
      now apply get_all_chats_page_negative_delay
        with (ids := ids) (acc := acc) (front := front)
             (last_chat := last_chat) (order := order).
  - intros pages st' w' Hl.
    destruct (listing_accumulates E polls self page_size _ _ _ _ _ Hl
                I (Forall_nil _))
      as (Hadded & Hd & Hh & new & Hs & Hlook).
    split; [|split; [exact Hadded|split; [now apply distinct_NoDup|]]].
    + intros n Hn. unfold get_all_chats. rewrite Hvalid.
      now rewrite (bind_ret _ _ _ _ _
                     (listing_loop E polls self page_size _ _ _ _ _ Hl n Hn)).
    + split; [exact Hd|]. exists new. split; [exact Hs|].
      apply (Hlook [] (Forall2_nil _)).
  - intros n result w' H. unfold get_all_chats in H. rewrite Hvalid in H.
    apply bind_ret_inv in H. destruct H as (st' & w1 & Hloop & H).
    unfold ret in H. injection H as <- <-.
    apply loop_listing in Hloop. destruct Hloop as (pages & Hlen & Hl).
    now exists pages, st'.
Qed.

(** Three pages of at most two identifiers that share 11 and 12: three
    chats come back, each the answer to the lookup of its identifier;
    the second page is asked for at the order of chat 11, the third at
    that of chat 12; the listing slept twice. *)
Lemma get_all_chats_lists_each_chat_once_witness :
  exists st' w',
    listing (script_env overlapping_script 1) 3 c0 2 get_all_chats_init w0
      [[VInt 10; VInt 11]; [VInt 11; VInt 12]; [VInt 12]] st' w'
    /\ get_all_chats (script_env overlapping_script 1) 3 3 c0 2 w0
       = (Ret (chats st'), w')
    /\ chats st' = [reply "r1" (chat 10 "900"); reply "r2" (chat 11 "800");
                    reply "r4" (chat 12 "700")]
    /\ added_chat_ids st' = [VInt 10; VInt 11; VInt 12]
    /\ NoDup (added_chat_ids st')
    /\ Forall2 (answers (script_env overlapping_script 1) "getChat" "chat_id"
                  (sent w'))
         (added_chat_ids st') (chats st')
    /\ sent w'
       = [envelope "getChats" "r0"
            [("offset_order", VInt (2 ^ 63 - 1)); ("offset_chat_id", VInt 0);
             ("limit", VInt 2)];
          envelope "getChat" "r1" [("chat_id", VInt 10)];
          envelope "getChat" "r2" [("chat_id", VInt 11)];
          envelope "getChats" "r3"
            [("offset_order", VStr "800"); ("offset_chat_id", VInt 0);
             ("limit", VInt 2)];
          envelope "getChat" "r4" [("chat_id", VInt 12)];
          envelope "getChats" "r5"
            [("offset_order", VStr "700"); ("offset_chat_id", VInt 0);
             ("limit", VInt 2)]]
    /\ slept w' = [request_delay c0; request_delay c0].
Proof.
  assert (Hl : exists st' w',
    listing (script_env overlapping_script 1) 3 c0 2 get_all_chats_init w0
      [[VInt 10; VInt 11]; [VInt 11; VInt 12]; [VInt 12]] st' w'
    /\ chats st' = [reply "r1" (chat 10 "900"); reply "r2" (chat 11 "800");
                    reply "r4" (chat 12 "700")]
    /\ sent w'
       = [envelope "getChats" "r0"
            [("offset_order", VInt (2 ^ 63 - 1)); ("offset_chat_id", VInt 0);
             ("limit", VInt 2)];
          envelope "getChat" "r1" [("chat_id", VInt 10)];
          envelope "getChat" "r2" [("chat_id", VInt 11)];
          envelope "getChats" "r3"
            [("offset_order", VStr "800"); ("offset_chat_id", VInt 0);
             ("limit", VInt 2)];
          envelope "getChat" "r4" [("chat_id", VInt 12)];
          envelope "getChats" "r5"
            [("offset_order", VStr "700"); ("offset_chat_id", VInt 0);
             ("limit", VInt 2)]]
    /\ slept w' = [request_delay c0; request_delay c0]).
  { eexists. eexists. split.
    - eapply listing_next
        with (front := [reply "r1" (chat 10 "900")]).
      + eexists. eexists. eexists.
        split; [lazy; reflexivity|].
        split; [lazy; reflexivity|].
        split; [lazy; reflexivity|].
        lazy. reflexivity.
      + reflexivity.
      + lazy. reflexivity.
      + lazy. reflexivity.
      + discriminate.
      + eapply listing_next
          with (front := [reply "r1" (chat 10 "900");
                          reply "r2" (chat 11 "800")]).
        * eexists. eexists. eexists.
          split; [lazy; reflexivity|].
          split; [lazy; reflexivity|].
          split; [lazy; reflexivity|].
          lazy. reflexivity.
        * reflexivity.
        * lazy. reflexivity.
        * lazy. reflexivity.
        * discriminate.
        * eapply listing_last.
          -- eexists. eexists. eexists.
             split; [lazy; reflexivity|].
             split; [lazy; reflexivity|].
             split; [lazy; reflexivity|].
             lazy. reflexivity.
          -- reflexivity.
    - split; [reflexivity|]. split; [vm_compute; reflexivity|reflexivity]. }
  destruct Hl as (st' & w' & Hl & Hchats & Hsent & Hslept).
  destruct (get_all_chats_lists_each_chat_once
              (script_env overlapping_script 1) 3 c0 2 w0 ltac:(lia))
    as (_ & Hruns & _).
  destruct (Hruns _ _ _ Hl) as (Hrun & Hadded & Hnodup & _ & new & Hs & Hans).
  exists st', w'. split; [exact Hl|]. split; [now apply Hrun|].
  split; [exact Hchats|]. split; [exact Hadded|].
  split; [exact Hnodup|]. split; [now rewrite Hs|].
  split; [exact Hsent|exact Hslept].
Defined.

(** ** Group members *)

Lemma add_new_members_spec (page : list value) :
  forall members added acc,
    add_new_members page members added = inr acc ->
    snd acc = (added ++ new_ids (map user_id_of page) added)%list
    /\ Forall (fun x => hashable x = true) (map user_id_of page)
    /\ exists news,
         fst acc = (members ++ news)%list
         /\ map user_id_of news = new_ids (map user_id_of page) added
         /\ incl news page.
Proof.
  induction page as [|member page IH]; intros members added acc H.
  - simpl in H. injection H as <-. simpl. rewrite app_nil_r.
    split; [reflexivity|]. split; [constructor|].
    exists []. rewrite app_nil_r. repeat split. apply incl_refl.
  - cbn [add_new_members] in H. cbn [map new_ids].
    destruct (getitem member "user_id") as [e|user_id] eqn:Hid; [discriminate|].
    assert (Hu : user_id_of member = user_id)
      by (unfold user_id_of; now rewrite Hid).
    rewrite !Hu.
    destruct (set_contains user_id added) as [e|seen] eqn:Hseen; [discriminate|].
    apply set_contains_inv in Hseen. destruct Hseen as [Hhash ->].
    destruct (existsb (py_eq user_id) added).
    + apply IH in H. destruct H as (Hadded & Hh & news & Hm & Hmap & Hincl).
      split; [exact Hadded|]. split; [now constructor|].
      exists news. repeat split; try assumption. now apply incl_tl.
    + apply IH in H. destruct H as (Hadded & Hh & news & Hm & Hmap & Hincl).
      split; [now rewrite Hadded, <- app_assoc|].
      split; [now constructor|].
      exists (member :: news). repeat split.
      * now rewrite Hm, <- app_assoc.
      * cbn [map]. now rewrite Hu, Hmap.
      * now apply incl_cons; [left | apply incl_tl].
Qed.

Section Members.

Variable E : environment.
Variable polls : nat.
Variable self : client.
Variable chat : value.
Variable page_size : Z.

(** A page of members: the loop goes on exactly when the page has
    members, after moving the offset by their number and sleeping. *)
Lemma _get_super_group_members_page_fetched st w page acc total w1 :
  members_fetched E polls self chat page_size st w page acc total w1 ->
  (page <> [] -> (0 <= request_delay self)%Q) ->
  _get_super_group_members_page E polls self chat page_size st w
  = (Ret (match page with [] => false | _ => true end,
          members_after st page acc total),
     world_after_members self page acc w1).
Proof.
  intros (chat_type & supergroup_id & response & page_value
          & Htype & Hsid & Hcall & Hmembers & Htotal & Hiter & Hadd) Hdelay.
  unfold _get_super_group_members_page.
  rewrite Htype. cbn [lift]. unfold bind at 1. cbn [ret].
  rewrite Hsid. cbn [lift]. unfold bind at 1. cbn [ret].
  rewrite (bind_ret _ _ _ _ _ Hcall).
  rewrite Hmembers. cbn [lift]. unfold bind at 1. cbn [ret].
  rewrite Htotal. cbn [lift]. unfold bind at 1. cbn [ret].
  rewrite Hiter. cbn [lift]. unfold bind at 1. cbn [ret].
  rewrite Hadd. cbn [lift]. unfold bind at 1. cbn [ret].
  destruct (py_iter_truthy_len _ _ Hiter) as [_ Hlen].
  rewrite Hlen. cbn [lift]. unfold bind at 1. cbn [ret].
  unfold members_after, world_after_members, got_members.
  destruct page as [|m page].
  - cbn [List.length Z.of_nat Z.eqb negb]. rewrite Z.add_0_r. reflexivity.
  - assert (Hnz : (Z.of_nat (List.length (m :: page)) =? 0) = false).
    { apply Z.eqb_neq. simpl List.length. lia. }
    rewrite Hnz. cbn [negb]. unfold bind. cbv beta.
    rewrite (sleep_ret _ _ (Hdelay ltac:(discriminate))). reflexivity.
Qed.

(** A page with members whose delay is negative raises where it would
    sleep. *)
Lemma _get_super_group_members_page_negative_delay st w page acc total w1 :
  members_fetched E polls self chat page_size st w page acc total w1 ->
  page <> [] ->
  (request_delay self < 0)%Q ->
  exists msg,
    _get_super_group_members_page E polls self chat page_size st w
    = (Raise (ValueError msg), w1).
Proof.
  intros (chat_type & supergroup_id & response & page_value
          & Htype & Hsid & Hcall & Hmembers & Htotal & Hiter & Hadd)
         Hne Hdelay.
  assert (Hle : Qle_bool 0 (request_delay self) = false).
  { destruct (Qle_bool 0 (request_delay self)) eqn:Hle; [|reflexivity].
    apply Qle_bool_iff in Hle. exfalso. now apply (Qlt_not_le _ _ Hdelay). }
  eexists. unfold _get_super_group_members_page.
  rewrite Htype. cbn [lift]. unfold bind at 1. cbn [ret].
  rewrite Hsid. cbn [lift]. unfold bind at 1. cbn [ret].
  rewrite (bind_ret _ _ _ _ _ Hcall).
  rewrite Hmembers. cbn [lift]. unfold bind at 1. cbn [ret].
  rewrite Htotal. cbn [lift]. unfold bind at 1. cbn [ret].
  rewrite Hiter. cbn [lift]. unfold bind at 1. cbn [ret].
  rewrite Hadd. cbn [lift]. unfold bind at 1. cbn [ret].
  destruct (py_iter_truthy_len _ _ Hiter) as [_ Hlen].
  rewrite Hlen. cbn [lift]. unfold bind at 1. cbn [ret].
  destruct page as [|m page]; [congruence|].
  assert (Hnz : (Z.of_nat (List.length (m :: page)) =? 0) = false).
  { apply Z.eqb_neq. simpl List.length. lia. }
  rewrite Hnz. cbn [negb]. unfold bind. cbv beta.
  unfold sleep. rewrite Hle. reflexivity.
Qed.

(** The request of a page: for the supergroup of the chat, at the
    offset, with the limit. *)
Lemma members_fetched_spec st w page acc total w1 :
  members_fetched E polls self chat page_size st w page acc total w1 ->
  exists chat_type supergroup_id,
    getitem chat "type" = inr chat_type
    /\ getitem chat_type "supergroup_id" = inr supergroup_id
    /\ sent w1
       = (sent w ++ [members_request E page_size supergroup_id (offset st)
                       (uuids w)])%list
    /\ uuids w1 = S (uuids w)
    /\ slept w1 = slept w /\ logged w1 = logged w.
Proof.
  intros (chat_type & supergroup_id & response & page_value
          & Htype & Hsid & Hcall & _).
  apply call_method_ret in Hcall.
  destruct Hcall as (_ & Hs & Hu & Hsl & Hl).
  exists chat_type, supergroup_id. auto 10.
Qed.

Lemma _get_super_group_members_page_inv st w has_next_page st' w' :
  _get_super_group_members_page E polls self chat page_size st w
  = (Ret (has_next_page, st'), w') ->
  exists page acc total w1,
    members_fetched E polls self chat page_size st w page acc total w1
    /\ (page <> [] -> (0 <= request_delay self)%Q)
    /\ has_next_page = match page with [] => false | _ => true end
    /\ st' = members_after st page acc total
    /\ w' = world_after_members self page acc w1.
Proof.
  intros H. pose proof H as Hrun. unfold _get_super_group_members_page in H.
  apply bind_ret_inv in H. destruct H as (chat_type & w0' & Htype & H).
  apply lift_ret_inv in Htype. destruct Htype as [Htype ->].
  apply bind_ret_inv in H. destruct H as (supergroup_id & w0' & Hsid & H).
  apply lift_ret_inv in Hsid. destruct Hsid as [Hsid ->].
  apply bind_ret_inv in H. destruct H as (response & w1 & Hcall & H).
  apply bind_ret_inv in H. destruct H as (page_value & w1' & Hmembers & H).
  apply lift_ret_inv in Hmembers. destruct Hmembers as [Hmembers ->].
  apply bind_ret_inv in H. destruct H as (total & w1' & Htotal & H).
  apply lift_ret_inv in Htotal. destruct Htotal as [Htotal ->].
  apply bind_ret_inv in H. destruct H as (page & w1' & Hiter & H).
  apply lift_ret_inv in Hiter. destruct Hiter as [Hiter ->].
  apply bind_ret_inv in H. destruct H as (acc & w1' & Hadd & H).
  apply lift_ret_inv in Hadd. destruct Hadd as [Hadd ->].
  apply bind_ret_inv in H. destruct H as (n & w1' & Hn & H).
  apply lift_ret_inv in Hn. destruct Hn as [Hn ->].
  apply bind_ret_inv in H. destruct H as (r & w2 & Hr & _).
  assert (Hf : members_fetched E polls self chat page_size st w page acc total w1).
  { exists chat_type, supergroup_id, response, page_value. auto 10. }
  assert (Hdelay : page <> [] -> (0 <= request_delay self)%Q).
  { intros Hne. destruct (py_iter_truthy_len _ _ Hiter) as [_ Hlen].
    rewrite Hlen in Hn. injection Hn as <-.
    destruct page as [|m page]; [congruence|].
    assert (Hnz : (Z.of_nat (List.length (m :: page)) =? 0) = false).
    { apply Z.eqb_neq. simpl List.length. lia. }
    rewrite Hnz in Hr. cbn [negb] in Hr.
    apply bind_ret_inv in Hr. destruct Hr as (u & w3 & Hsleep & _).
    now apply sleep_ret_inv in Hsleep. }
  rewrite (_get_super_group_members_page_fetched _ _ _ _ _ _ Hf Hdelay) in Hrun.
  injection Hrun as <- <- <-. exists page, acc, total, w1. auto.
Qed.

Lemma member_listing_loop st w pages st' w' :
  member_listing E polls self chat page_size st w pages st' w' ->
  forall n, (List.length pages <= n)%nat ->
    _get_super_group_members_loop E n polls self chat page_size st w
    = (Ret st', w').
Proof.
  induction 1 as [st w acc total w1 Hf
                 |st w page acc total w1 pages st' w' Hf Hne Hdelay _ IH];
    intros [|n] Hn; simpl in Hn; try lia.
  - cbn [_get_super_group_members_loop].
    now rewrite (bind_ret _ _ _ _ _
                   (_get_super_group_members_page_fetched _ _ _ _ _ _ Hf
                      ltac:(congruence))).
  - cbn [_get_super_group_members_loop].
    rewrite (bind_ret _ _ _ _ _
               (_get_super_group_members_page_fetched _ _ _ _ _ _ Hf
                  (fun _ => Hdelay))).
    destruct page as [|m page]; [congruence|].
    cbn [fst snd]. apply IH. lia.
Qed.

Lemma loop_member_listing n :
  forall st w st' w',
    _get_super_group_members_loop E n polls self chat page_size st w
    = (Ret st', w') ->
    exists pages, (List.length pages <= n)%nat
                  /\ member_listing E polls self chat page_size st w pages st' w'.
Proof.
  induction n as [|n IH]; intros st w st' w' H.
  - discriminate.
  - cbn [_get_super_group_members_loop] in H.
    apply bind_ret_inv in H. destruct H as ([has_next st1] & w1 & Hpage & H).
    apply _get_super_group_members_page_inv in Hpage.
    destruct Hpage as (page & acc & total & w2 & Hf & Hdelay & -> & -> & ->).
    cbn [fst snd] in H. destruct page as [|m page].
    + unfold ret in H. injection H as <- <-.
      exists [[]]. split; [simpl; lia|]. now apply member_listing_last.
    + apply IH in H. destruct H as (pages & Hlen & Hl).
      exists ((m :: page) :: pages). split; [simpl; lia|].
      eapply member_listing_next; eauto; [discriminate|].
      apply Hdelay. discriminate.
Qed.

(** What the pages of a run leave in the loop variables. *)
Lemma member_listing_accumulates st w pages st' w' :
  member_listing E polls self chat page_size st w pages st' w' ->
  distinct (added_ids st) ->
  Forall (fun x => hashable x = true) (added_ids st) ->
  map user_id_of (members st) = added_ids st ->
  added_ids st'
  = (added_ids st
     ++ new_ids (map user_id_of (List.concat pages)) (added_ids st))%list
  /\ distinct (added_ids st')
  /\ Forall (fun x => hashable x = true) (added_ids st')
  /\ map user_id_of (members st') = added_ids st'
  /\ offset st' = offset st + Z.of_nat (List.length (List.concat pages))
  /\ incl (members st') (members st ++ List.concat pages)
  /\ exists with_members,
       pages = (with_members ++ [[]])%list
       /\ Forall (fun page => page <> []) with_members.
Proof.
  assert (Hstep : forall st w page acc total w1,
    members_fetched E polls self chat page_size st w page acc total w1 ->
    distinct (added_ids st) ->
    Forall (fun x => hashable x = true) (added_ids st) ->
    map user_id_of (members st) = added_ids st ->
    snd acc = (added_ids st ++ new_ids (map user_id_of page) (added_ids st))%list
    /\ distinct (snd acc)
    /\ Forall (fun x => hashable x = true) (snd acc)
    /\ map user_id_of (fst acc) = snd acc
    /\ incl (fst acc) (members st ++ page)).
  { clear. intros st w page acc total w1
                  (? & ? & ? & ? & _ & _ & _ & _ & _ & _ & Hadd) Hd Hh Hm.
    apply add_new_members_spec in Hadd.
    destruct Hadd as (Hadded & Hids & news & Hmem & Hmap & Hincl).
    rewrite Hadded, Hmem. split; [reflexivity|].
    split; [now apply distinct_new_ids|].
    split; [apply Forall_app; split; [exact Hh|now apply new_ids_hashable]|].
    split; [now rewrite map_app, Hm, Hmap|].
    apply incl_app; [now apply incl_appl, incl_refl|now apply incl_appr]. }
  induction 1 as [st w acc total w1 Hf
                 |st w page acc total w1 pages st' w' Hf Hne Hdelay _ IH];
    intros Hd Hh Hm;
    destruct (Hstep _ _ _ _ _ _ Hf Hd Hh Hm) as (Hadded & Hd' & Hh' & Hm' & Hi').
  - cbn [members_after added_ids members offset List.concat app List.length
         Z.of_nat].
    rewrite Z.add_0_r. repeat split; auto.
    exists []. split; [reflexivity|constructor].
  - cbn [members_after added_ids members offset] in IH.
    destruct (IH Hd' Hh' Hm') as (Hadded' & Hd'' & Hh'' & Hm'' & Ho & Hi'' & full
                                  & Hpages & Hfull).
    split; [|split; [exact Hd''|split; [exact Hh''|split; [exact Hm''|]]]].
    + rewrite Hadded', Hadded. cbn [List.concat].
      now rewrite map_app, new_ids_app, app_assoc.
    + split; [|split].
      * rewrite Ho. cbn [List.concat]. rewrite length_app. lia.
      * cbn [List.concat]. intros m Hin. apply Hi'' in Hin.
        apply in_app_or in Hin. destruct Hin as [Hin|Hin].
        -- apply Hi' in Hin. rewrite app_assoc. apply in_or_app. now left.
        -- rewrite app_assoc. apply in_or_app. now right.
      * exists (page :: full). split; [now rewrite Hpages|].
        now constructor.
Qed.

(** After the loop the counts are compared, and a mismatch is logged;
    the members are returned either way. *)
Lemma _get_super_group_members_of_loop n st' w w' :
  1 < page_size ->
  _get_super_group_members_loop E n polls self chat page_size
    _get_super_group_members_init w = (Ret st', w') ->
  _get_super_group_members E n polls self chat page_size w
  = (Ret (members st'), world_after_count_check st' w').
Proof.
  intros Hps Hloop. unfold _get_super_group_members.
  assert (Hvalid : (page_size <=? 1) = false) by now apply Z.leb_gt.
  rewrite Hvalid, (bind_ret _ _ _ _ _ Hloop). cbv zeta.
  unfold world_after_count_check, count_mismatch.
  destruct (py_eq (total_count st') _); reflexivity.
Qed.

(** The comprehension over the members: one [getUser] call each, for the
    member's user identifier, in the order of the members, and the
    answers in that order. *)
Lemma get_users_answered (members : list value) :
  forall w users w',
    get_users E polls self members w = (Ret users, w') ->
    sent w'
    = (sent w ++ requests_from E "getUser" "user_id" (uuids w)
                   (map user_id_of members))%list
    /\ List.length users = List.length members
    /\ answered_from E (uuids w) users
    /\ Forall (fun m => getitem m "user_id" = inr (user_id_of m)) members
    /\ uuids w' = (uuids w + List.length members)%nat
    /\ slept w' = slept w /\ logged w' = logged w.
Proof.
  induction members as [|m members IH]; intros w users w' H.
  - simpl in H. unfold ret in H. injection H as <- <-. simpl.
    rewrite app_nil_r, Nat.add_0_r. auto 10.
  - cbn [get_users] in H.
    apply bind_ret_inv in H. destruct H as (user_id & w0' & Hid & H).
    apply lift_ret_inv in Hid. destruct Hid as [Hid ->].
    apply bind_ret_inv in H. destruct H as (user & w1 & Huser & H).
    apply bind_ret_inv in H. destruct H as (users' & w2 & Hrest & H).
    unfold ret in H. injection H as <- <-.
    unfold get_user in Huser. apply call_method_ret in Huser.
    destruct Huser as (Huid & Hs1 & Hu1 & Hsl1 & Hl1).
    apply IH in Hrest.
    destruct Hrest as (Hs & Hlen & Hans & Hall & Hu & Hsl & Hl).
    rewrite Hu1 in Hs, Hans, Hu.
    assert (Hm : user_id_of m = user_id)
      by (unfold user_id_of; now rewrite Hid).
    split.
    { rewrite Hs, Hs1, <- app_assoc. cbn [map requests_from].
      rewrite Hm. reflexivity. }
    split; [simpl; now rewrite Hlen|].
    split; [split; assumption|].
    split; [constructor; [now rewrite Hm|exact Hall]|].
    split; [rewrite Hu; simpl; lia|].
    split; congruence.
Qed.

Lemma get_users_resolved (members : list value) :
  forall w users w',
    get_users E polls self members w = (Ret users, w') ->
    Forall2 (resolved E (requests_from E "getUser" "user_id" (uuids w)
                           (map user_id_of members)))
      members users.
Proof.
  intros w users w' H. apply get_users_answered in H.
  destruct H as (_ & Hlen & Hans & Hall & _).
  assert (Hlen' : List.length users = List.length (map user_id_of members))
    by now rewrite length_map.
  pose proof (answered_requests E "getUser" "user_id" _ _ _ Hlen' Hans) as Hf.
  remember (requests_from E "getUser" "user_id" (uuids w)
              (map user_id_of members)) as requests eqn:Hreq.
  clear Hreq Hlen Hlen' Hans. revert users Hf.
  induction Hall as [|m members Hm _ IH]; intros users Hf.
  - inversion Hf. constructor.
  - cbn [map] in Hf. inversion Hf as [|? user ? users' Ha Hrest]; subst.
    constructor; [|now apply IH].
    exists (user_id_of m). split; [exact Hm|exact Ha].
Qed.

End Members.

(** C7.  Group-member listing first looks the chat up.  For a basic group
    it takes all members from one [getBasicGroupFullInfo] call, the one
    request after the lookup, and goes on to resolve them.  For a
    supergroup it asks for [page_size] members of that supergroup at the
    current offset; a page moves the offset by the number of members it
    holds, adds those whose user identifier is new, and is followed by
    the delay and by another page exactly when it holds members; with a
    negative delay it raises [ValueError] where it would sleep.  Whenever the pages are finitely many pages
    with members followed by an empty one, the members are returned for
    every bound on the turns that covers them, each user identifier once
    in the order of first occurrence; a reported count that differs from
    their number leaves a warning in the log and changes nothing else.
    Every listing that returns went through such pages.  In both cases
    each member is then resolved by a [getUser] request of its own for
    the member's user identifier, in the order of the members: these are
    the requests sent, and the users returned are, position for
    position, the answers to them. *)
Theorem get_group_members_lists_members
    (E : environment) (pages polls : nat) (self : client)
    (group_id page_size : Z) (w w1 : world) (chat tag : value) :
  call_method E polls self "getChat" None [("chat_id", VInt group_id)] w
  = (Ret chat, w1) ->
  chat_type_tag chat = inr tag ->
  (py_eq tag (VStr "chatTypeBasicGroup") = true ->
   forall chat_type basic_group_id info w2 members_value members,
     getitem chat "type" = inr chat_type ->
     getitem chat_type "basic_group_id" = inr basic_group_id ->
     call_method E polls self "getBasicGroupFullInfo" None
       [("basic_group_id", basic_group_id)] w1 = (Ret info, w2) ->
     getitem info "members" = inr members_value ->
     py_iter members_value = inr members ->
     get_group_members E pages polls self group_id page_size w
     = get_users E polls self members w2
     /\ sent w2
        = (sent w
           ++ [envelope "getChat" (uuid_at E (uuids w))
                 [("chat_id", VInt group_id)];
               envelope "getBasicGroupFullInfo" (uuid_at E (S (uuids w)))
                 [("basic_group_id", basic_group_id)]])%list
     /\ uuids w2 = S (S (uuids w)))
  /\ (py_eq tag (VStr "chatTypeSupergroup") = true ->
      1 < page_size ->
      (forall st wa page acc total wb,
         members_fetched E polls self chat page_size st wa page acc total wb ->
         (exists chat_type supergroup_id,
            getitem chat "type" = inr chat_type
            /\ getitem chat_type "supergroup_id" = inr supergroup_id
            /\ sent wb
               = (sent wa
                  ++ [envelope "getSupergroupMembers" (uuid_at E (uuids wa))
                        [("supergroup_id", supergroup_id);
                         ("offset", VInt (offset st));
                         ("limit", VInt page_size)]])%list)
         /\ snd acc
            = (added_ids st
               ++ new_ids (map user_id_of page) (added_ids st))%list
         /\ ((page <> [] -> (0 <= request_delay self)%Q) ->
             _get_super_group_members_page E polls self chat page_size st wa
             = (Ret (match page with [] => false | _ => true end,
                     {| members := fst acc; added_ids := snd acc;
                        offset := offset st + Z.of_nat (List.length page);
                        total_count := total |}),
                world_after_members self page acc wb))
         /\ (page <> [] -> (request_delay self < 0)%Q ->
             exists msg,
               _get_super_group_members_page E polls self chat page_size st wa
               = (Raise (ValueError msg), wb)))
      /\ (forall run st' w2,
            member_listing E polls self chat page_size
              _get_super_group_members_init w1 run st' w2 ->
            (List.length run <= pages)%nat ->
            _get_super_group_members E pages polls self chat page_size w1
            = (Ret (members st'), world_after_count_check st' w2)
            /\ get_group_members E pages polls self group_id page_size w
               = get_users E polls self (members st')
                   (world_after_count_check st' w2)
            /\ (py_eq (total_count st')
                      (VInt (Z.of_nat (List.length (members st')))) = false ->
                logged (world_after_count_check st' w2)
                = (logged w2 ++ [(WARNING, count_mismatch st')])%list)
            /\ sent (world_after_count_check st' w2) = sent w2
            /\ uuids (world_after_count_check st' w2) = uuids w2
            /\ added_ids st' = new_ids (map user_id_of (List.concat run)) []
            /\ map user_id_of (members st') = added_ids st'
            /\ NoDup (added_ids st')
            /\ offset st' = Z.of_nat (List.length (List.concat run))
            /\ exists with_members,
                 run = (with_members ++ [[]])%list
                 /\ Forall (fun page => page <> []) with_members)
      /\ (forall result w2,
            _get_super_group_members E pages polls self chat page_size w1
            = (Ret result, w2) ->
            exists run st' w2',
              (List.length run <= pages)%nat
              /\ member_listing E polls self chat page_size
                   _get_super_group_members_init w1 run st' w2'
              /\ result = members st'
              /\ w2 = world_after_count_check st' w2'))
  /\ (forall members wa users wb,
        get_users E polls self members wa = (Ret users, wb) ->
        sent wb
        = (sent wa ++ requests_from E "getUser" "user_id" (uuids wa)
                        (map user_id_of members))%list
        /\ List.length users = List.length members
        /\ answered_from E (uuids wa) users
        /\ Forall2 (resolved E (requests_from E "getUser" "user_id" (uuids wa)
                                  (map user_id_of members)))
             members users).
Proof.
  intros Hcall Htag.
  assert (Hhead :
    get_group_members E pages polls self group_id page_size w
    = bind (if py_eq tag (VStr "chatTypeBasicGroup") then
              chat_type <- lift (getitem chat "type") ;;
              basic_group_id <- lift (getitem chat_type "basic_group_id") ;;
              info <- call_method E polls self "getBasicGroupFullInfo" None
                        [("basic_group_id", basic_group_id)] ;;
              members <- lift (getitem info "members") ;;
              lift (py_iter members)
            else if py_eq tag (VStr "chatTypeSupergroup") then
              _get_super_group_members E pages polls self chat page_size
            else raise (TelegaError TDLibError
                          (Some (Fmt "Unknown group type: %s" [tag]))))
           (get_users E polls self) w1).
  { unfold get_group_members. rewrite (bind_ret _ _ _ _ _ Hcall).
    rewrite Htag. cbn [lift]. unfold bind at 1. reflexivity. }
  split; [|split].
  - intros Hbasic chat_type basic_group_id info w2 members_value members
           Htype Hbid Hinfo Hmembers Hiter.
    split.
    + rewrite Hhead, Hbasic. unfold bind at 1.
      rewrite Htype. cbn [lift]. unfold bind at 1. cbn [ret].
      rewrite Hbid. cbn [lift]. unfold bind at 1. cbn [ret].
      rewrite (bind_ret _ _ _ _ _ Hinfo).
      rewrite Hmembers. cbn [lift]. unfold bind at 1. cbn [ret].
      rewrite Hiter. reflexivity.
    + apply call_method_ret in Hcall. destruct Hcall as (_ & Hs1 & Hu1 & _).
      apply call_method_ret in Hinfo. destruct Hinfo as (_ & Hs2 & Hu2 & _).
      rewrite Hu2, Hs2, Hs1, Hu1, <- app_assoc. split; reflexivity.
  - intros Hsuper Hps.
    assert (Hnot : py_eq tag (VStr "chatTypeBasicGroup") = false).
    { apply py_eq_str_inv_l in Hsuper. now subst tag. }
    rewrite Hnot, Hsuper in Hhead.
    split; [|split].
    + intros st wa page acc total wb Hf.
      split.
      { destruct (members_fetched_spec E polls self chat page_size
                    _ _ _ _ _ _ Hf)
          as (chat_type & supergroup_id & Htype & Hsid & Hs & _).
        exists chat_type, supergroup_id. auto. }
      split.
      { destruct Hf as (? & ? & ? & ? & _ & _ & _ & _ & _ & _ & Hadd).
        now apply add_new_members_spec in Hadd. }
      split.
      { intros Hdelay.
        apply (_get_super_group_members_page_fetched E polls self chat
                 page_size _ _ _ _ _ _ Hf Hdelay). }
      intros Hne Hdelay.
      apply (_get_super_group_members_page_negative_delay E polls self chat
               page_size _ _ _ _ _ _ Hf Hne Hdelay).
    + intros run st' w2 Hl Hlen.
      pose proof (member_listing_loop E polls self chat page_size
                    _ _ _ _ _ Hl pages Hlen) as Hloop.
      pose proof (_get_super_group_members_of_loop E polls self chat page_size
                    pages st' w1 w2 Hps Hloop) as Hret.
      destruct (member_listing_accumulates E polls self chat page_size
                  _ _ _ _ _ Hl I (Forall_nil _) eq_refl)
        as (Hadded & Hd & Hh & Hm & Ho & _ & Hshape).
      split; [exact Hret|].
      split; [now rewrite Hhead, (bind_ret _ _ _ _ _ Hret)|].
      split.
      { intros Hne. unfold world_after_count_check. now rewrite Hne. }
      split.
      { unfold world_after_count_check.
        destruct (py_eq (total_count st') _); reflexivity. }
      split.
      { unfold world_after_count_check.
        destruct (py_eq (total_count st') _); reflexivity. }
      split; [exact Hadded|]. split; [exact Hm|].
      split; [now apply distinct_NoDup|].
      split; [exact Ho|exact Hshape].
    + intros result w2 H. unfold _get_super_group_members in H.
      assert (Hvalid : (page_size <=? 1) = false) by now apply Z.leb_gt.
      rewrite Hvalid in H.
      apply bind_ret_inv in H. destruct H as (st' & w2' & Hloop & H).
      pose proof (_get_super_group_members_of_loop E polls self chat page_size
                    pages st' w1 w2' Hps Hloop) as Hret.
      unfold _get_super_group_members in Hret. rewrite Hvalid in Hret.
      rewrite (bind_ret _ _ _ _ _ Hloop) in Hret. cbv zeta in H.
      rewrite Hret in H. injection H as <- <-.
      apply loop_member_listing in Hloop. destruct Hloop as (run & Hlen & Hl).
      exists run, st', w2'. auto.
  - intros members wa users wb H.
    pose proof (get_users_resolved E polls self members wa users wb H) as Hres.
    apply get_users_answered in H.
    destruct H as (Hs & Hlen & Hans & _). auto.
Qed.

(** A supergroup whose pages share user 2 and whose reported count is 4
    for 3 members, and a basic group of two: the requests each listing
    sends, and the users it returns. *)
Lemma get_group_members_lists_members_witness :
  (exists st' w2,
     member_listing (script_env members_script 1) 3 c0
       (nth 0 members_script VNone) 2 _get_super_group_members_init
       (snd (call_method (script_env members_script 1) 3 c0 "getChat" None
               [("chat_id", VInt 5)] w0))
       [[member 1; member 2]; [member 2; member 3]; []] st' w2
     /\ members st' = [member 1; member 2; member 3]
     /\ total_count st' = VInt 4
     /\ offset st' = 4
     /\ NoDup (added_ids st')
     /\ get_group_members (script_env members_script 1) 4 3 c0 5 2 w0
        = get_users (script_env members_script 1) 3 c0 (members st')
            (world_after_count_check st' w2)
     /\ logged (world_after_count_check st' w2)
        = (logged w2 ++ [(WARNING, count_mismatch st')])%list)
  /\ get_group_members (script_env members_script 1) 4 3 c0 5 2 w0
     = (Ret [reply "r4" (user 1); reply "r5" (user 2); reply "r6" (user 3)],
        snd (get_group_members (script_env members_script 1) 4 3 c0 5 2 w0))
  /\ sent (snd (get_group_members (script_env members_script 1) 4 3 c0 5 2 w0))
     = [envelope "getChat" "r0" [("chat_id", VInt 5)];
        envelope "getSupergroupMembers" "r1"
          [("supergroup_id", VInt 77); ("offset", VInt 0); ("limit", VInt 2)];
        envelope "getSupergroupMembers" "r2"
          [("supergroup_id", VInt 77); ("offset", VInt 2); ("limit", VInt 2)];
        envelope "getSupergroupMembers" "r3"
          [("supergroup_id", VInt 77); ("offset", VInt 4); ("limit", VInt 2)];
        envelope "getUser" "r4" [("user_id", VInt 1)];
        envelope "getUser" "r5" [("user_id", VInt 2)];
        envelope "getUser" "r6" [("user_id", VInt 3)]]
  /\ slept (snd (get_group_members (script_env members_script 1) 4 3 c0 5 2 w0))
     = [request_delay c0; request_delay c0]
  /\ get_group_members (script_env basic_group_script 1) 4 3 c0 6 200 w0
     = get_users (script_env basic_group_script 1) 3 c0 [member 1; member 2]
         (snd (call_method (script_env basic_group_script 1) 3 c0
                 "getBasicGroupFullInfo" None [("basic_group_id", VInt 88)]
                 (snd (call_method (script_env basic_group_script 1) 3 c0
                         "getChat" None [("chat_id", VInt 6)] w0))))
  /\ sent (snd (get_group_members (script_env basic_group_script 1) 4 3 c0
                  6 200 w0))
     = [envelope "getChat" "r0" [("chat_id", VInt 6)];
        envelope "getBasicGroupFullInfo" "r1" [("basic_group_id", VInt 88)];
        envelope "getUser" "r2" [("user_id", VInt 1)];
        envelope "getUser" "r3" [("user_id", VInt 2)]].
Proof.
  assert (Hcall :
    call_method (script_env members_script 1) 3 c0 "getChat" None
      [("chat_id", VInt 5)] w0
    = (Ret (nth 0 members_script VNone),
       snd (call_method (script_env members_script 1) 3 c0 "getChat" None
              [("chat_id", VInt 5)] w0)))
    by (vm_compute; reflexivity).
  assert (Hcall' :
    call_method (script_env basic_group_script 1) 3 c0 "getChat" None
      [("chat_id", VInt 6)] w0
    = (Ret (nth 0 basic_group_script VNone),
       snd (call_method (script_env basic_group_script 1) 3 c0 "getChat" None
              [("chat_id", VInt 6)] w0)))
    by (vm_compute; reflexivity).
  destruct (get_group_members_lists_members (script_env members_script 1)
              4 3 c0 5 2 w0 _ _ (VStr "chatTypeSupergroup") Hcall eq_refl)
    as (_ & Hsuper & Husers).
  destruct (Hsuper eq_refl ltac:(lia)) as (_ & Hruns & _).
  destruct (get_group_members_lists_members (script_env basic_group_script 1)
              4 3 c0 6 200 w0 _ _ (VStr "chatTypeBasicGroup") Hcall' eq_refl)
    as (Hbasic & _ & Husers').
  assert (Hl : exists st' w2,
    member_listing (script_env members_script 1) 3 c0
      (nth 0 members_script VNone) 2 _get_super_group_members_init
      (snd (call_method (script_env members_script 1) 3 c0 "getChat" None
              [("chat_id", VInt 5)] w0))
      [[member 1; member 2]; [member 2; member 3]; []] st' w2
    /\ members st' = [member 1; member 2; member 3]
    /\ total_count st' = VInt 4
    /\ sent w2
       = [envelope "getChat" "r0" [("chat_id", VInt 5)];
          envelope "getSupergroupMembers" "r1"
            [("supergroup_id", VInt 77); ("offset", VInt 0); ("limit", VInt 2)];
          envelope "getSupergroupMembers" "r2"
            [("supergroup_id", VInt 77); ("offset", VInt 2); ("limit", VInt 2)];
          envelope "getSupergroupMembers" "r3"
            [("supergroup_id", VInt 77); ("offset", VInt 4); ("limit", VInt 2)]]
    /\ uuids w2 = 4%nat
    /\ slept w2 = [request_delay c0; request_delay c0]).
  { eexists. eexists. split.
    - eapply member_listing_next.
      + do 4 eexists.
        split; [lazy; reflexivity|]. split; [lazy; reflexivity|].
        split; [lazy; reflexivity|]. split; [lazy; reflexivity|].
        split; [lazy; reflexivity|]. split; [lazy; reflexivity|].
        lazy; reflexivity.
      + discriminate.
      + discriminate.
      + eapply member_listing_next.
        * do 4 eexists.
          split; [lazy; reflexivity|]. split; [lazy; reflexivity|].
          split; [lazy; reflexivity|]. split; [lazy; reflexivity|].
          split; [lazy; reflexivity|]. split; [lazy; reflexivity|].
          lazy; reflexivity.
        * discriminate.
        * discriminate.
        * eapply member_listing_last.
          do 4 eexists.
          split; [lazy; reflexivity|]. split; [lazy; reflexivity|].
          split; [lazy; reflexivity|]. split; [lazy; reflexivity|].
          split; [lazy; reflexivity|]. split; [lazy; reflexivity|].
          lazy; reflexivity.
    - split; [reflexivity|]. split; [reflexivity|].
      split; [vm_compute; reflexivity|]. split; reflexivity. }
  destruct Hl as (st' & w2 & Hl & Hmembers & Htotal & Hsent & Huuids & Hslept).
  destruct (Hruns _ _ _ Hl ltac:(simpl; lia))
    as (_ & Hrun & Hwarn & Hsame & Hsameu & _ & _ & Hnodup & Hoffset & _).
  assert (Hret :
    get_users (script_env members_script 1) 3 c0 (members st')
      (world_after_count_check st' w2)
    = (Ret [reply "r4" (user 1); reply "r5" (user 2); reply "r6" (user 3)],
       snd (get_group_members (script_env members_script 1) 4 3 c0 5 2 w0))).
  { rewrite <- Hrun. vm_compute. reflexivity. }
  destruct (Husers _ _ _ _ Hret) as (Hs & _).
  assert (Hret' :
    get_users (script_env basic_group_script 1) 3 c0 [member 1; member 2]
      (snd (call_method (script_env basic_group_script 1) 3 c0
              "getBasicGroupFullInfo" None [("basic_group_id", VInt 88)]
              (snd (call_method (script_env basic_group_script 1) 3 c0
                      "getChat" None [("chat_id", VInt 6)] w0))))
    = (Ret [reply "r2" (user 1); reply "r3" (user 2)],
       snd (get_group_members (script_env basic_group_script 1) 4 3 c0
              6 200 w0)))
    by (vm_compute; reflexivity).
  assert (Hinfo :
    call_method (script_env basic_group_script 1) 3 c0
      "getBasicGroupFullInfo" None [("basic_group_id", VInt 88)]
      (snd (call_method (script_env basic_group_script 1) 3 c0
              "getChat" None [("chat_id", VInt 6)] w0))
    = (Ret (nth 1 basic_group_script VNone),
       snd (call_method (script_env basic_group_script 1) 3 c0
              "getBasicGroupFullInfo" None [("basic_group_id", VInt 88)]
              (snd (call_method (script_env basic_group_script 1) 3 c0
                      "getChat" None [("chat_id", VInt 6)] w0)))))
    by (vm_compute; reflexivity).
  destruct (Hbasic eq_refl _ _ _ _
              (VList [member 1; member 2]) [member 1; member 2]
              eq_refl eq_refl Hinfo eq_refl eq_refl) as (Hb & Hbs & Hbu).
  destruct (Husers' _ _ _ _ Hret') as (Hs' & _).
  split; [|split; [|split; [|split; [|split]]]].
  - exists st', w2. split; [exact Hl|]. split; [exact Hmembers|].
    split; [exact Htotal|]. split; [exact Hoffset|]. split; [exact Hnodup|].
    split; [exact Hrun|]. apply Hwarn. now rewrite Htotal, Hmembers.
  - exact (eq_trans Hrun Hret).
  - rewrite Hs, Hsame, Hsameu, Hsent, Huuids, Hmembers. reflexivity.
  - vm_compute. reflexivity.
  - exact Hb.
  - rewrite Hs', Hbs, Hbu. reflexivity.
Defined.

(** * Further properties of the client *)

(** ** The wait *)

Section FirstMatch.

Variable E : environment.

(** The loop ends at the first envelope with the identifier, with the
    classifier's verdict on it; no clock reading is taken at that poll. *)
Lemma wait_loop_first_match request_id timeout started_at response :
  truthy response = true ->
  received_request_id response = inr (VStr request_id) ->
  forall k w,
    (forall j, (j < k)%nat ->
       passed_over request_id (receive_at E (received w + j))) ->
    (forall j, (j < k)%nat ->
       within E timeout started_at (time_at E (clock_reads w + j))) ->
    receive_at E (received w + k) = response ->
    forall polls, (k < polls)%nat ->
      exists w',
        wait_loop E polls request_id timeout started_at w
        = (verdict response, w')
        /\ received w' = (received w + k + 1)%nat
        /\ clock_reads w'
           = (clock_reads w + if timeout_truthy timeout then k else 0)%nat.
Proof.
  intros Htruthy Hid. induction k as [|k IH]; intros w Hpass Hin Hat.
  - intros [|polls] Hp; [lia|]. rewrite Nat.add_0_r in Hat.
    rewrite wait_loop_S. cbv zeta.
    rewrite Hat, Htruthy, Hid, py_eq_str_refl. unfold verdict.
    exists (after_poll w).
    split; [now destruct (_handle_errors response)|].
    simpl. split; [lia|]. destruct (timeout_truthy timeout); lia.
  - intros [|polls] Hp; [lia|].
    rewrite wait_loop_pass
      by (specialize (Hpass 0%nat (Nat.lt_0_succ _));
          now rewrite Nat.add_0_r in Hpass).
    unfold bind.
    assert (Hpass' : forall w1, received w1 = S (received w) ->
              forall j, (j < k)%nat ->
                passed_over request_id (receive_at E (received w1 + j))).
    { intros w1 Hr j Hj. rewrite Hr.
      replace (S (received w) + j)%nat with (received w + S j)%nat by lia.
      apply Hpass. lia. }
    assert (Hat' : forall w1, received w1 = S (received w) ->
              receive_at E (received w1 + k) = response).
    { intros w1 Hr. rewrite Hr, <- Hat. f_equal. lia. }
    destruct (timeout_truthy timeout) eqn:Ht.
    + destruct timeout as [t|]; [|discriminate].
      rewrite (timed_out_truthy _ _ _ _ Ht).
      change (clock_reads (after_poll w)) with (clock_reads w).
      pose proof (Hin 0%nat (Nat.lt_0_succ _)) as Hnow.
      unfold within in Hnow. rewrite Nat.add_0_r in Hnow.
      specialize (Hnow Ht). apply Qle_bool_iff in Hnow.
      rewrite Hnow. cbn [negb].
      assert (Hin' : forall j, (j < k)%nat ->
                within E (Some t) started_at
                  (time_at E (clock_reads (after_tick (after_poll w)) + j))).
      { intros j Hj. simpl.
        replace (S (clock_reads w + j)) with (clock_reads w + S j)%nat by lia.
        apply Hin. lia. }
      destruct (IH (after_tick (after_poll w))
                  (Hpass' (after_tick (after_poll w)) eq_refl) Hin'
                  (Hat' (after_tick (after_poll w)) eq_refl) polls ltac:(lia))
        as (w' & Hw' & Hr' & Hc').
      exists w'. split; [exact Hw'|]. simpl in Hr', Hc'. split; lia.
    + rewrite (timed_out_falsy _ _ _ _ Ht).
      assert (Hin' : forall j, (j < k)%nat ->
                within E timeout started_at
                  (time_at E (clock_reads (after_poll w) + j))).
      { intros j Hj. unfold within. destruct timeout; [|exact I].
        intros Ht'. congruence. }
      destruct (IH (after_poll w) (Hpass' (after_poll w) eq_refl) Hin'
                  (Hat' (after_poll w) eq_refl) polls ltac:(lia))
        as (w' & Hw' & Hr' & Hc').
      exists w'. split; [exact Hw'|]. simpl in Hr', Hc'. split; lia.
Qed.

End FirstMatch.

(** X1.  Whatever a call ends in (an envelope, an exception of the
    classifier, the timeout, a bound on its polls), it has drawn one uuid
    and sent one envelope, the request built from the method name, that
    uuid and the parameters; it has not slept and not logged.  Nothing is
    sent a second time. *)
Theorem call_method_sends_one_envelope
    (E : environment) (polls : nat) (self : client) (method_name : string)
    (timeout : option Q) (params : dict) (w : world) :
  sent (snd (call_method E polls self method_name timeout params w))
  = (sent w ++ [request_sent method_name (uuid_at E (uuids w)) params])%list
  /\ uuids (snd (call_method E polls self method_name timeout params w))
     = S (uuids w)
  /\ slept (snd (call_method E polls self method_name timeout params w))
     = slept w
  /\ logged (snd (call_method E polls self method_name timeout params w))
     = logged w.
Proof. apply (call_method_frame E polls self method_name timeout params w). Qed.

(** X2.  A call ends at the first envelope that carries its identifier:
    it returns that envelope, or raises what the classifier raises for
    it, and leaves every later envelope on the channel.  The clock is
    read once at the start and once after each earlier poll when a
    timeout is in force, never at the poll that delivers the envelope: an
    answer is taken however late it is, as long as no earlier reading
    had passed the timeout. *)
Theorem call_method_ends_at_the_first_match
    (E : environment) (self : client) (method_name : string)
    (timeout : option Q) (params : dict) (w : world) (response : value)
    (k : nat) :
  truthy response = true ->
  received_request_id response = inr (VStr (uuid_at E (uuids w))) ->
  (forall j, (j < k)%nat ->
     passed_over (uuid_at E (uuids w)) (receive_at E (received w + j))) ->
  (forall j, (j < k)%nat ->
     within E (timeout_or timeout (request_timeout self))
       (time_at E (clock_reads w)) (time_at E (clock_reads w + 1 + j))) ->
  receive_at E (received w + k) = response ->
  forall polls, (k < polls)%nat ->
    exists w',
      call_method E polls self method_name timeout params w
      = (verdict response, w')
      /\ received w' = (received w + k + 1)%nat
      /\ clock_reads w'
         = (clock_reads w + 1
            + if timeout_truthy (timeout_or timeout (request_timeout self))
              then k else 0)%nat.
Proof.
  intros Htruthy Hid Hpass Hin Hat polls Hp.
  rewrite call_method_unfold.
  destruct (wait_loop_first_match E _
              (timeout_or timeout (request_timeout self))
              (time_at E (clock_reads w)) response Htruthy Hid k
              (after_send E method_name params w) Hpass) with (polls := polls)
    as (w' & Hw' & Hr' & Hc'); try assumption.
  - intros j Hj. simpl.
    replace (S (clock_reads w + j)) with (clock_reads w + 1 + j)%nat by lia.
    now apply Hin.
  - exists w'. split; [exact Hw'|]. split; [exact Hr'|].
    simpl in Hc'. rewrite Hc'. lia.
Qed.

(** An error envelope behind an unrelated one: the call raises the
    classified error at the second poll and leaves the third envelope. *)
Lemma call_method_ends_at_the_first_match_witness :
  exists w',
    call_method (script_env flood_script 1) 5 c0 "getMe" None [] w0
    = (Raise (TelegaError TooManyRequests
                (Some (exc_msg (VInt 429)
                         (VStr "Too Many Requests: retry after 5")))), w')
    /\ received w' = 2%nat.
Proof.
  destruct (call_method_ends_at_the_first_match (script_env flood_script 1)
              c0 "getMe" None [] w0 (reply "r0" flood_429) 1)
    with (polls := 5%nat) as (w' & Hw' & Hr' & _).
  - reflexivity.
  - reflexivity.
  - intros j Hj. assert (j = 0)%nat as -> by lia.
    right. exists (VStr "someone-else"). split; reflexivity.
  - intros j Hj. assert (j = 0)%nat as -> by lia.
    intros _. vm_compute. discriminate.
  - reflexivity.
  - lia.
  - exists w'. split; [exact Hw'|exact Hr'].
Defined.

Section Returned.

Variable E : environment.

(** What the loop returns has passed the classifier. *)
Lemma wait_loop_ret_ok polls : forall request_id timeout started_at w response w',
  wait_loop E polls request_id timeout started_at w = (Ret response, w') ->
  _handle_errors response = inr tt.
Proof.
  induction polls as [|polls IH]; intros rid timeout s w response w' H.
  - discriminate.
  - rewrite wait_loop_S in H. cbv zeta in H.
    assert (Hcont :
      (expired <- timed_out E timeout s ;;
       if expired then raise TimeOutError
       else wait_loop E polls rid timeout s) (after_poll w)
      = (Ret response, w') -> _handle_errors response = inr tt).
    { intros Hc. unfold bind in Hc.
      destruct (timed_out_cases E timeout s (after_poll w))
        as (b & w1 & Hto & _).
      rewrite Hto in Hc. destruct b; [discriminate|]. now apply IH in Hc. }
    destruct (truthy (receive_at E (received w))); [|now apply Hcont].
    destruct (received_request_id (receive_at E (received w))) as [e|v];
      [discriminate|].
    destruct (py_eq (VStr rid) v); [|now apply Hcont].
    destruct (_handle_errors (receive_at E (received w))) as [e|[]] eqn:He;
      [discriminate|].
    now injection H as <- <-.
Qed.

End Returned.

Lemma _handle_errors_ok_iff (response : value) :
  _handle_errors response = inr tt
  <-> exists d ty, response = VDict d
                   /\ dict_get "@type" d = Some ty
                   /\ py_eq ty (VStr "error") = false.
Proof.
  unfold _handle_errors, getitem, py_get. split.
  - destruct response as [| | | | |d]; try discriminate.
    destruct (dict_get "@type" d) as [ty|] eqn:Hty; [|discriminate].
    destruct (py_eq ty (VStr "error")) eqn:Hne.
    + destruct (dict_get "message" d); destruct (dict_get "code" d);
        discriminate.
    + intros _. now exists d, ty.
  - intros (d & ty & -> & Hty & Hne). now rewrite Hty, Hne.
Qed.

(** A returned envelope is a dict with a type that is not the error
    marker. *)
Lemma call_method_returns_no_error_envelope_aux
    (E : environment) (polls : nat) (self : client) (method_name : string)
    (timeout : option Q) (params : dict) (w w' : world) (response : value) :
  call_method E polls self method_name timeout params w = (Ret response, w') ->
  exists d ty, response = VDict d
               /\ dict_get "@type" d = Some ty
               /\ py_eq ty (VStr "error") = false.
Proof.
  intros H. rewrite call_method_unfold in H.
  apply wait_loop_ret_ok in H. now apply _handle_errors_ok_iff in H.
Qed.

(** X3.  An envelope that a call returns is never an error envelope and
    never lacks its type: it is a dict whose '@type' is present and is
    not the error marker, and whose '@extra' is a dict that holds the
    identifier of the call. *)
Theorem call_method_returns_no_error_envelope
    (E : environment) (polls : nat) (self : client) (method_name : string)
    (timeout : option Q) (params : dict) (w w' : world) (response : value) :
  call_method E polls self method_name timeout params w = (Ret response, w') ->
  exists d ty extra,
    response = VDict d
    /\ dict_get "@type" d = Some ty
    /\ py_eq ty (VStr "error") = false
    /\ dict_get "@extra" d = Some (VDict extra)
    /\ dict_get "request_id" extra = Some (VStr (uuid_at E (uuids w))).
Proof.
  intros H. rewrite call_method_unfold in H.
  pose proof (wait_loop_ret_ok E _ _ _ _ _ _ _ H) as Hok.
  apply wait_loop_ret in H. destruct H as (Hid & _).
  apply _handle_errors_ok_iff in Hok. destruct Hok as (d & ty & -> & Hty & Hne).
  unfold received_request_id, py_get in Hid.
  destruct (dict_get "@extra" d) as [[| | | | |extra]|] eqn:Hextra;
    try discriminate.
  exists d, ty, extra. repeat split; try assumption.
  destruct (dict_get "request_id" extra); [now injection Hid as ->|discriminate].
Qed.

(** The answer on the noisy channel. *)
Lemma call_method_returns_no_error_envelope_witness :
  exists d ty extra,
    reply "r0" [("@type", VStr "user"); ("id", VInt 7)] = VDict d
    /\ dict_get "@type" d = Some ty
    /\ py_eq ty (VStr "error") = false
    /\ dict_get "@extra" d = Some (VDict extra)
    /\ dict_get "request_id" extra = Some (VStr "r0").
Proof.
  apply (call_method_returns_no_error_envelope (script_env noisy_script 1)
           10 c0 "getMe" None [] w0
           (snd (call_method (script_env noisy_script 1) 10 c0 "getMe" None []
                   w0))).
  vm_compute. reflexivity.
Defined.

(** X4.  The state query adds no failure of its own: whenever its call
    returns, the envelope has a type, which is the state returned, and
    [is_authorized] is the comparison of that type with the ready state;
    whenever its call raises or runs on, so do both. *)
Theorem get_auth_state_follows_its_call
    (E : environment) (polls : nat) (self : client) (w : world) :
  match call_method E polls self "getAuthorizationState" None [] w with
  | (Ret result, w') =>
      exists state,
        getitem result "@type" = inr state
        /\ py_eq state (VStr "error") = false
        /\ get_auth_state E polls self w = (Ret state, w')
        /\ is_authorized E polls self w
           = (Ret (py_eq state (VStr "authorizationStateReady")), w')
  | (Raise e, w') =>
      get_auth_state E polls self w = (Raise e, w')
      /\ is_authorized E polls self w = (Raise e, w')
  | (Diverge, w') =>
      get_auth_state E polls self w = (Diverge, w')
      /\ is_authorized E polls self w = (Diverge, w')
  end.
Proof.
  destruct (call_method E polls self "getAuthorizationState" None [] w)
    as [[result|e|] w'] eqn:Hcall.
  - destruct (call_method_returns_no_error_envelope_aux E polls self
                "getAuthorizationState" None [] w w' result Hcall)
      as (d & ty & -> & Hty & Hne).
    assert (Hstate : get_auth_state E polls self w = (Ret ty, w')).
    { unfold get_auth_state. rewrite (bind_ret _ _ _ _ _ Hcall).
      unfold getitem. now rewrite Hty. }
    exists ty. split; [unfold getitem; now rewrite Hty|].
    split; [exact Hne|]. split; [exact Hstate|].
    unfold is_authorized. now rewrite (bind_ret _ _ _ _ _ Hstate).
  - assert (Hstate : get_auth_state E polls self w = (Raise e, w')).
    { unfold get_auth_state. now rewrite (bind_raise _ _ _ _ _ Hcall). }
    split; [exact Hstate|].
    unfold is_authorized. now rewrite (bind_raise _ _ _ _ _ Hstate).
  - assert (Hstate : get_auth_state E polls self w = (Diverge, w')).
    { unfold get_auth_state, bind. now rewrite Hcall. }
    split; [exact Hstate|].
    unfold is_authorized, bind. now rewrite Hstate.
Qed.

(** ** More on the classifier *)

(** X5.  The classifier lets an envelope pass exactly when it is a dict
    whose '@type' is present and differs from the error marker.  A dict
    without '@type' raises [KeyError]; a value that is no dict raises
    [TypeError]; an error envelope always raises one of the classes of
    [telega.errors], with the text built from its code and message. *)
Theorem handle_errors_passes_exactly_the_results (response : value) :
  (_handle_errors response = inr tt
   <-> exists d ty, response = VDict d
                    /\ dict_get "@type" d = Some ty
                    /\ py_eq ty (VStr "error") = false)
  /\ (forall d, response = VDict d -> dict_get "@type" d = None ->
      _handle_errors response = inl (KeyError "@type"))
  /\ (forall d, response = VDict d -> is_error_envelope d ->
      _handle_errors response
      = inl (TelegaError (classify (code_of d) (message_of d))
               (Some (Fmt "Telegram error: %s -> %s"
                          [code_of d; message_of d]))))
  /\ ((forall d, response <> VDict d) ->
      _handle_errors response = inl TypeError).
Proof.
  split; [apply _handle_errors_ok_iff|]. split; [|split].
  - intros d -> Hty. unfold _handle_errors, getitem. now rewrite Hty.
  - intros d -> Herr. now apply _handle_errors_error.
  - intros Hnot. destruct response; try reflexivity.
    now destruct (Hnot d).
Qed.

(** X6.  An error envelope without a message is classified by its code
    alone, under the text Empty error message; without a code as well it
    is an [UnknownError] whose text reads
    Telegram error: None -> Empty error message. *)
Theorem error_without_message_is_classified_by_code (d : dict) :
  is_error_envelope d ->
  dict_get "message" d = None ->
  _handle_errors (VDict d)
  = inl (TelegaError match code_rule (code_of d) with
                     | Some k => k
                     | None => UnknownError
                     end
           (Some (Fmt "Telegram error: %s -> %s"
                      [code_of d; VStr "Empty error message"])))
  /\ (dict_get "code" d = None ->
      _handle_errors (VDict d)
      = inl (TelegaError UnknownError
               (Some (Fmt "Telegram error: %s -> %s"
                          [VNone; VStr "Empty error message"])))
      /\ render (Fmt "Telegram error: %s -> %s"
                     [VNone; VStr "Empty error message"])
         = Some "Telegram error: None -> Empty error message"%string).
Proof.
  intros Herr Hm. rewrite (_handle_errors_error d Herr).
  unfold message_of. rewrite Hm.
  rewrite (classify_code_after (code_of d) (VStr "Empty error message") eq_refl).
  split; [reflexivity|].
  intros Hc. unfold code_of. rewrite Hc. split; reflexivity.
Qed.

(** An error envelope that says nothing. *)
Lemma error_without_message_is_classified_by_code_witness :
  _handle_errors (VDict bare_error)
  = inl (TelegaError UnknownError
           (Some (Fmt "Telegram error: %s -> %s"
                      [VNone; VStr "Empty error message"]))).
Proof.
  apply (error_without_message_is_classified_by_code bare_error).
  - exists (VStr "error"). split; reflexivity.
  - reflexivity.
  - reflexivity.
Defined.

(** X7.  With a message that is none of the seven specific texts, an
    error envelope is an [AuthError] exactly when its code is the integer
    401 or its message is Unauthorized: a code of 429 does not turn an
    Unauthorized message into [TooManyRequests], and a code that is the
    string 401 is no 401. *)
Theorem auth_error_iff_401_or_unauthorized (d : dict) :
  is_error_envelope d ->
  text_rule_in specific_text_rules (message_of d) = None ->
  (exists msg, _handle_errors (VDict d) = inl (TelegaError AuthError msg))
  <-> code_of d = VInt 401 \/ message_of d = VStr "Unauthorized".
Proof.
  intros Herr Hspec. rewrite (_handle_errors_error d Herr).
  assert (Hk : classify (code_of d) (message_of d) = AuthError
               <-> code_of d = VInt 401 \/ message_of d = VStr "Unauthorized").
  { revert Hspec. unfold specific_text_rules, classify. cbn [text_rule_in].
    repeat match goal with
           | |- context [if py_eq (message_of d) ?m then _ else _] =>
               destruct (py_eq (message_of d) m) eqn:?
           end; try discriminate.
    intros _.
    destruct (py_eq (code_of d) (VInt 401)) eqn:Hc;
      destruct (py_eq (message_of d) (VStr "Unauthorized")) eqn:Hm;
      cbn [orb].
    - split; [|reflexivity]. intros _. left.
      apply py_eq_int_inv in Hc; [exact Hc|lia|lia].
    - split; [|reflexivity]. intros _. left.
      apply py_eq_int_inv in Hc; [exact Hc|lia|lia].
    - split; [|reflexivity]. intros _. right. now apply py_eq_str_inv_l.
    - split.
      + destruct (py_eq (code_of d) (VInt 429) || py_eq (code_of d) (VInt 420));
          discriminate.
      + intros [H|H]; rewrite H in *; discriminate. }
  split.
  - intros (msg & H). injection H as H _. now apply Hk.
  - intros H. apply Hk in H. rewrite H. eauto.
Qed.

(** Code 429 with the message Unauthorized, and the string 401. *)
Lemma auth_error_iff_401_or_unauthorized_witness :
  (exists msg,
     _handle_errors (VDict [("@type", VStr "error"); ("code", VInt 429);
                            ("message", VStr "Unauthorized")])
     = inl (TelegaError AuthError msg))
  /\ ~ (exists msg,
          _handle_errors (VDict [("@type", VStr "error"); ("code", VStr "401");
                                 ("message", VStr "no")])
          = inl (TelegaError AuthError msg)).
Proof.
  split.
  - apply (auth_error_iff_401_or_unauthorized
             [("@type", VStr "error"); ("code", VInt 429);
              ("message", VStr "Unauthorized")]).
    + exists (VStr "error"). split; reflexivity.
    + reflexivity.
    + right. reflexivity.
  - intros H.
    apply (auth_error_iff_401_or_unauthorized
             [("@type", VStr "error"); ("code", VStr "401");
              ("message", VStr "no")]) in H.
    + destruct H as [H|H]; discriminate.
    + exists (VStr "error"). split; reflexivity.
    + reflexivity.
Defined.

(** ** The request envelope *)

Lemma dict_get_set_same (k : string) (v : value) (d : dict) :
  dict_get k (dict_set k v d) = Some v.
Proof.
  induction d as [|[k' v'] d IH]; simpl.
  - now rewrite String.eqb_refl.
  - destruct (k =? k')%string eqn:Hk; simpl.
    + now rewrite String.eqb_refl.
    + now rewrite Hk.
Qed.

Lemma dict_get_set_other (k k' : string) (v : value) (d : dict) :
  k <> k' -> dict_get k' (dict_set k v d) = dict_get k' d.
Proof.
  intros Hne. induction d as [|[k0 v0] d IH]; simpl.
  - destruct (k' =? k)%string eqn:Hk; [|reflexivity].
    apply String.eqb_eq in Hk. congruence.
  - destruct (k =? k0)%string eqn:Hk; simpl.
    + apply String.eqb_eq in Hk. subst k0.
      destruct (k' =? k)%string eqn:Hk'; [|reflexivity].
      apply String.eqb_eq in Hk'. congruence.
    + now rewrite IH.
Qed.

Lemma dict_get_None_not_in (k : string) (d : dict) :
  dict_get k d = None -> ~ In k (map fst d).
Proof.
  induction d as [|[k' v'] d IH]; simpl; [tauto|].
  destruct (k =? k')%string eqn:Hk; [discriminate|].
  intros H [Heq|Hin]; [|now apply IH].
  subst k'. now rewrite String.eqb_refl in Hk.
Qed.

Lemma dict_update_cons (k : string) (v : value) (params d : dict) :
  dict_update d ((k, v) :: params) = dict_update (dict_set k v d) params.
Proof. reflexivity. Qed.

(** [update] leaves the keys it does not bind. *)
Lemma dict_get_update_other (k : string) (params : dict) :
  ~ In k (map fst params) ->
  forall d, dict_get k (dict_update d params) = dict_get k d.
Proof.
  induction params as [|[k' v'] params IH]; intros Hnot d.
  - reflexivity.
  - rewrite dict_update_cons. simpl in Hnot. rewrite IH by tauto.
    apply dict_get_set_other. intros ->. tauto.
Qed.

(** [update] binds every key of keyword arguments to its value. *)
Lemma dict_get_update_in (k : string) (v : value) (params : dict) :
  NoDup (map fst params) -> In (k, v) params ->
  forall d, dict_get k (dict_update d params) = Some v.
Proof.
  induction params as [|[k' v'] params IH]; intros Hnd Hin d;
    [destruct Hin|].
  simpl in Hnd. inversion Hnd as [|? ? Hnot Hnd']; subst.
  rewrite dict_update_cons. destruct Hin as [Heq|Hin].
  - injection Heq as -> ->.
    rewrite (dict_get_update_other k params Hnot). apply dict_get_set_same.
  - now apply IH.
Qed.

(** X8.  The keyword arguments of a call reach the envelope as they are:
    every one of them is a field of the envelope sent.  They win over the
    fields the call sets itself, so an '@type' among them replaces the
    method name (the bootstrap calls rely on that), and the call's own
    identifier and method name are in the envelope exactly as long as the
    arguments bind neither '@extra' nor '@type'. *)
Theorem request_sent_carries_the_parameters
    (method_name request_id : string) (params : dict) :
  NoDup (map fst params) ->
  (forall k v, In (k, v) params ->
     getitem (request_sent method_name request_id params) k = inr v)
  /\ (dict_get "@extra" params = None ->
      received_request_id (request_sent method_name request_id params)
      = inr (VStr request_id))
  /\ (dict_get "@type" params = None ->
      method_of (request_sent method_name request_id params)
      = Some method_name)
  /\ (forall m, dict_get "@type" params = Some (VStr m) ->
      method_of (request_sent method_name request_id params) = Some m).
Proof.
  intros Hnd. unfold request_sent. split; [|split; [|split]].
  - intros k v Hin. unfold getitem.
    now rewrite (dict_get_update_in k v params Hnd Hin).
  - intros Hnone. unfold received_request_id, py_get.
    rewrite (dict_get_update_other _ params (dict_get_None_not_in _ _ Hnone)).
    reflexivity.
  - intros Hnone. unfold method_of, getitem.
    now rewrite (dict_get_update_other _ params (dict_get_None_not_in _ _ Hnone)).
  - intros m Hm. unfold method_of, getitem.
    assert (Hin : In ("@type"%string, VStr m) params).
    { clear Hnd. induction params as [|[k' v'] params IH]; [discriminate|].
      cbn [dict_get] in Hm. destruct ("@type" =? k')%string eqn:Hk.
      - apply String.eqb_eq in Hk. subst k'. injection Hm as ->. now left.
      - right. now apply IH. }
    now rewrite (dict_get_update_in _ _ params Hnd Hin).
Qed.

(** The first bootstrap call names [setTdlibParameters], not the method
    it is called with, and keeps its identifier. *)
Lemma request_sent_carries_the_parameters_witness :
  method_of (request_sent "updateAuthorizationState" "r0" override_params)
  = Some "setTdlibParameters"%string
  /\ received_request_id
       (request_sent "updateAuthorizationState" "r0" override_params)
     = inr (VStr "r0").
Proof.
  assert (Hnd : NoDup (map fst override_params)).
  { simpl. repeat constructor; simpl; intuition discriminate. }
  split.
  - now apply (request_sent_carries_the_parameters
                 "updateAuthorizationState" "r0" override_params Hnd).
  - now apply (request_sent_carries_the_parameters
                 "updateAuthorizationState" "r0" override_params Hnd).
Defined.

(** ** Construction and bootstrap *)

Section BootstrapFacts.

Variable E : environment.
Variable polls : nat.
Variable self : client.
Variable s : session.

Lemma set_parameters_call_frame w :
  sent (snd (set_parameters_call E polls self s w))
  = (sent w ++ [set_parameters_envelope E self s (uuids w)])%list
  /\ uuids (snd (set_parameters_call E polls self s w)) = S (uuids w).
Proof.
  destruct (call_method_frame E polls self "updateAuthorizationState"
              (Some 5%Q)
              [("@type", VStr "setTdlibParameters");
               ("parameters", tdlib_parameters self s)] w)
    as (Hs & Hu & _).
  split; [exact Hs|exact Hu].
Qed.

Lemma check_key_call_frame w :
  sent (snd (check_key_call E polls self s w))
  = (sent w ++ [check_key_envelope E s (uuids w)])%list
  /\ uuids (snd (check_key_call E polls self s w)) = S (uuids w).
Proof.
  destruct (call_method_frame E polls self "updateAuthorizationState"
              (Some 5%Q)
              [("@type", VStr "checkDatabaseEncryptionKey");
               ("encryption_key", VStr (_database_encryption_key s))] w)
    as (Hs & Hu & _).
  split; [exact Hs|exact Hu].
Qed.

Lemma _init_unfold w :
  _init E polls self s w
  = (set_parameters_call E polls self s ;;;
     check_key_call E polls self s ;;;
     if truthy (proxy s) then
       host <- lift (getitem (proxy s) "host") ;;
       port <- lift (getitem (proxy s) "port") ;;
       _set_proxy E polls self host port
     else ret tt) w.
Proof. reflexivity. Qed.

(** The world after the two bootstrap calls have returned. *)
Lemma bootstrap_calls_sent w r1 w1 r2 w2 :
  set_parameters_call E polls self s w = (Ret r1, w1) ->
  check_key_call E polls self s w1 = (Ret r2, w2) ->
  sent w2 = (sent w ++ [set_parameters_envelope E self s (uuids w);
                        check_key_envelope E s (S (uuids w))])%list
  /\ uuids w2 = S (S (uuids w)).
Proof.
  intros H1 H2.
  destruct (set_parameters_call_frame w) as [Hs1 Hu1]. rewrite H1 in Hs1, Hu1.
  destruct (check_key_call_frame w1) as [Hs2 Hu2]. rewrite H2 in Hs2, Hu2.
  cbn [snd] in *. rewrite Hs2, Hs1, Hu2, Hu1, <- app_assoc. auto.
Qed.

End BootstrapFacts.

(** X10.  The bootstrap sends the envelope of [setTdlibParameters] and
    then that of [checkDatabaseEncryptionKey]; neither names the method
    the calls are made with.  It stops at the first call that raises,
    with nothing more sent.  When both return, a falsy proxy ([None], an
    empty dict) ends the bootstrap there, and a proxy with host and port
    adds the [addProxy] envelope of a SOCKS5 proxy as the third and
    last. *)
Theorem init_sends_the_bootstrap_envelopes
    (E : environment) (polls : nat) (self : client) (s : session) (w : world) :
  (forall e w1,
     set_parameters_call E polls self s w = (Raise e, w1) ->
     _init E polls self s w = (Raise e, w1)
     /\ sent w1 = (sent w ++ [set_parameters_envelope E self s (uuids w)])%list)
  /\ (forall r1 w1 e w2,
        set_parameters_call E polls self s w = (Ret r1, w1) ->
        check_key_call E polls self s w1 = (Raise e, w2) ->
        _init E polls self s w = (Raise e, w2)
        /\ sent w2
           = (sent w ++ [set_parameters_envelope E self s (uuids w);
                         check_key_envelope E s (S (uuids w))])%list)
  /\ (forall r1 w1 r2 w2,
        set_parameters_call E polls self s w = (Ret r1, w1) ->
        check_key_call E polls self s w1 = (Ret r2, w2) ->
        (truthy (proxy s) = false ->
         _init E polls self s w = (Ret tt, w2)
         /\ sent w2
            = (sent w ++ [set_parameters_envelope E self s (uuids w);
                          check_key_envelope E s (S (uuids w))])%list)
        /\ (forall host port,
              truthy (proxy s) = true ->
              getitem (proxy s) "host" = inr host ->
              getitem (proxy s) "port" = inr port ->
              _init E polls self s w = _set_proxy E polls self host port w2
              /\ sent (snd (_init E polls self s w))
                 = (sent w
                    ++ [set_parameters_envelope E self s (uuids w);
                        check_key_envelope E s (S (uuids w));
                        add_proxy_envelope E host port (S (S (uuids w)))])%list))
  /\ method_of (set_parameters_envelope E self s (uuids w))
     = Some "setTdlibParameters"%string
  /\ method_of (check_key_envelope E s (S (uuids w)))
     = Some "checkDatabaseEncryptionKey"%string.
Proof.
  split; [|split; [|split; [|split; reflexivity]]].
  - intros e w1 H1. rewrite _init_unfold, (bind_raise _ _ _ _ _ H1).
    split; [reflexivity|].
    destruct (set_parameters_call_frame E polls self s w) as [Hs _].
    now rewrite H1 in Hs.
  - intros r1 w1 e w2 H1 H2.
    rewrite _init_unfold, (bind_ret _ _ _ _ _ H1), (bind_raise _ _ _ _ _ H2).
    split; [reflexivity|].
    destruct (set_parameters_call_frame E polls self s w) as [Hs1 Hu1].
    rewrite H1 in Hs1, Hu1.
    destruct (check_key_call_frame E polls self s w1) as [Hs2 _].
    rewrite H2 in Hs2. cbn [snd] in *.
    now rewrite Hs2, Hs1, Hu1, <- app_assoc.
  - intros r1 w1 r2 w2 H1 H2.
    destruct (bootstrap_calls_sent E polls self s w r1 w1 r2 w2 H1 H2)
      as [Hs Hu].
    split.
    + intros Hp.
      rewrite _init_unfold, (bind_ret _ _ _ _ _ H1), (bind_ret _ _ _ _ _ H2), Hp.
      split; [reflexivity|exact Hs].
    + intros host port Hp Hhost Hport.
      assert (Hinit : _init E polls self s w
                      = _set_proxy E polls self host port w2).
      { rewrite _init_unfold, (bind_ret _ _ _ _ _ H1),
          (bind_ret _ _ _ _ _ H2), Hp, Hhost.
        cbn [lift]. unfold bind at 1. cbn [ret]. rewrite Hport.
        cbn [lift]. unfold bind at 1. reflexivity. }
      split; [exact Hinit|]. rewrite Hinit. unfold _set_proxy. cbv zeta.
      destruct (call_method_frame E polls self "addProxy" (Some 5%Q)
                  [("server", host); ("port", port); ("enable", VBool true);
                   ("type", VDict [("@type", VStr "proxyTypeSocks5")])] w2)
        as (Hs3 & _).
      unfold bind.
      destruct (call_method E polls self "addProxy" (Some 5%Q) _ w2)
        as [[r3|e3|] w3]; cbn [snd ret] in *;
        rewrite Hs3, Hs, Hu, <- app_assoc; reflexivity.
Qed.

(** A bootstrap behind a proxy, on a channel that answers each call. *)
Lemma init_sends_the_bootstrap_envelopes_witness :
  _init (script_env ok_script 1) 3 c0 (with_proxy s0 socks_proxy) w0
  = _set_proxy (script_env ok_script 1) 3 c0 (VStr "0.0.0.0") (VInt 9999)
      (snd (check_key_call (script_env ok_script 1) 3 c0
              (with_proxy s0 socks_proxy)
              (snd (set_parameters_call (script_env ok_script 1) 3 c0
                      (with_proxy s0 socks_proxy) w0))))
  /\ map method_of
       (sent (snd (_init (script_env ok_script 1) 3 c0
                     (with_proxy s0 socks_proxy) w0)))
     = [Some "setTdlibParameters"%string;
        Some "checkDatabaseEncryptionKey"%string;
        Some "addProxy"%string]
  /\ fst (_init (script_env ok_script 1) 3 c0 (with_proxy s0 socks_proxy) w0)
     = Ret tt.
Proof.
  destruct (init_sends_the_bootstrap_envelopes (script_env ok_script 1) 3 c0
              (with_proxy s0 socks_proxy) w0) as (_ & _ & Hboth & _).
  destruct (Hboth (nth 0 ok_script VNone)
              (snd (set_parameters_call (script_env ok_script 1) 3 c0
                      (with_proxy s0 socks_proxy) w0))
              (nth 1 ok_script VNone)
              (snd (check_key_call (script_env ok_script 1) 3 c0
                      (with_proxy s0 socks_proxy)
                      (snd (set_parameters_call (script_env ok_script 1) 3 c0
                              (with_proxy s0 socks_proxy) w0)))))
    as [_ Hproxy]; [vm_compute; reflexivity .. |].
  destruct (Hproxy (VStr "0.0.0.0") (VInt 9999) eq_refl eq_refl eq_refl)
    as [Hinit Hsent].
  split; [exact Hinit|]. split.
  - rewrite Hsent. reflexivity.
  - vm_compute. reflexivity.
Defined.



(** X12.  A truthy proxy is read only after both bootstrap calls have
    returned: one without host raises [KeyError] for host, one with host
    and without port raises [KeyError] for port, one that is no dict
    raises [TypeError]; in each case the two bootstrap envelopes have been
    sent and no [addProxy]. *)
Theorem init_reads_the_proxy_after_the_bootstrap_calls
    (E : environment) (polls : nat) (self : client) (s : session)
    (w w1 w2 : world) (r1 r2 : value) :
  set_parameters_call E polls self s w = (Ret r1, w1) ->
  check_key_call E polls self s w1 = (Ret r2, w2) ->
  truthy (proxy s) = true ->
  sent w2 = (sent w ++ [set_parameters_envelope E self s (uuids w);
                        check_key_envelope E s (S (uuids w))])%list
  /\ (forall d, proxy s = VDict d -> dict_get "host" d = None ->
      _init E polls self s w = (Raise (KeyError "host"), w2))
  /\ (forall d host, proxy s = VDict d -> dict_get "host" d = Some host ->
      dict_get "port" d = None ->
      _init E polls self s w = (Raise (KeyError "port"), w2))
  /\ ((forall d, proxy s <> VDict d) ->
      _init E polls self s w = (Raise TypeError, w2)).
Proof.
  intros H1 H2 Hp.
  destruct (bootstrap_calls_sent E polls self s w r1 w1 r2 w2 H1 H2)
    as [Hs _].
  split; [exact Hs|].
  assert (Hinit : _init E polls self s w
                  = (host <- lift (getitem (proxy s) "host") ;;
                     port <- lift (getitem (proxy s) "port") ;;
                     _set_proxy E polls self host port) w2).
  { now rewrite _init_unfold, (bind_ret _ _ _ _ _ H1),
      (bind_ret _ _ _ _ _ H2), Hp. }
  rewrite Hinit. split; [|split].
  - intros d Hd Hhost. rewrite Hd. unfold getitem. now rewrite Hhost.
  - intros d host Hd Hhost Hport. rewrite Hd. unfold getitem.
    rewrite Hhost. cbn [lift]. unfold bind at 1. cbn [ret].
    now rewrite Hport.
  - intros Hnot. destruct (proxy s) as [| | | | |d]; try reflexivity.
    now destruct (Hnot d).
Qed.

(** A proxy given with a host only. *)
Lemma init_reads_the_proxy_after_the_bootstrap_calls_witness :
  fst (_init (script_env ok_script 1) 3 c0
         (with_proxy s0 (VDict [("host", VStr "0.0.0.0")])) w0)
  = Raise (KeyError "port").
Proof.
  destruct (init_reads_the_proxy_after_the_bootstrap_calls
              (script_env ok_script 1) 3 c0
              (with_proxy s0 (VDict [("host", VStr "0.0.0.0")])) w0
              (snd (set_parameters_call (script_env ok_script 1) 3 c0
                      (with_proxy s0 (VDict [("host", VStr "0.0.0.0")])) w0))
              (snd (check_key_call (script_env ok_script 1) 3 c0
                      (with_proxy s0 (VDict [("host", VStr "0.0.0.0")]))
                      (snd (set_parameters_call (script_env ok_script 1) 3 c0
                              (with_proxy s0 (VDict [("host", VStr "0.0.0.0")]))
                              w0))))
              (nth 0 ok_script VNone) (nth 1 ok_script VNone))
    as (_ & _ & Hport & _); [vm_compute; reflexivity .. |].
  now rewrite (Hport [("host", VStr "0.0.0.0")] (VStr "0.0.0.0")
                 eq_refl eq_refl eq_refl).
Defined.

(** ** Teardown *)

(** X13.  [__del__] never destroys the native client: it looks for an
    attribute named _tdjson, while the constructor keeps the client under
    _tdjson_client, so on an instance with any of the attributes the
    constructor assigns (all of them, or fewer when it failed on the way)
    the test is false, although the client is there once the constructor
    has come to create it. *)
Theorem del_never_destroys_the_client (assigned : list string) :
  incl assigned instance_attributes ->
  __del__ assigned = false
  /\ (In "_tdjson_client"%string assigned ->
      hasattr assigned "_tdjson_client" = true).
Proof.
  intros Hincl. split.
  - unfold __del__, hasattr. rewrite existsb_app. apply orb_false_iff. split.
    + destruct (existsb (String.eqb "_tdjson") assigned) eqn:Hex;
        [|reflexivity].
      apply existsb_exists in Hex. destruct Hex as (x & Hin & Hx).
      apply String.eqb_eq in Hx. subst x. apply Hincl in Hin.
      simpl in Hin. intuition discriminate.
    + reflexivity.
  - intros Hin. unfold hasattr. rewrite existsb_app.
    apply orb_true_iff. left. apply existsb_exists.
    exists "_tdjson_client"%string. split; [exact Hin|apply String.eqb_refl].
Qed.

(** The fully constructed instance. *)
Lemma del_never_destroys_the_client_witness :
  __del__ instance_attributes = false
  /\ hasattr instance_attributes "_tdjson_client" = true.
Proof.
  destruct (del_never_destroys_the_client instance_attributes
              (incl_refl _)) as [Hdel Hhas].
  split; [exact Hdel|]. apply Hhas. simpl. tauto.
Defined.

(** ** Authorization *)

Lemma bind_ret_tt_world {A} (m : M A) (w : world) :
  snd ((m ;;; ret tt) w) = snd (m w).
Proof. unfold bind, ret. now destruct (m w) as [[a|e|] w']. Qed.

(** X14.  When the state it first sees is neither the code state nor the
    password state (the client is ready, say), [send_sms_code] submits
    neither the code nor the password: it queries the state a second time
    and that is all it sends. *)
Theorem send_sms_code_in_another_state
    (E : environment) (polls : nat) (self : client) (sms_code : string)
    (password : option string) (w w1 : world) (state : value) :
  get_auth_state E polls self w = (Ret state, w1) ->
  py_eq state (VStr AuthStates.WaitCode) = false ->
  py_eq state (VStr AuthStates.WaitPassword) = false ->
  send_sms_code E polls self sms_code password w
  = (get_auth_state E polls self ;;; ret tt) w1
  /\ sent (snd (send_sms_code E polls self sms_code password w))
     = (sent w ++ [state_query E (uuids w); state_query E (S (uuids w))])%list.
Proof.
  intros Hstate Hcode Hpw.
  assert (Hrun : send_sms_code E polls self sms_code password w
                 = (get_auth_state E polls self ;;; ret tt) w1).
  { unfold send_sms_code. rewrite (bind_ret _ _ _ _ _ Hstate), Hcode.
    unfold bind at 1. cbn [ret]. rewrite Hpw. unfold bind at 1. reflexivity. }
  split; [exact Hrun|]. rewrite Hrun, bind_ret_tt_world.
  destruct (get_auth_state_frame E polls self w) as [Hs Hu].
  rewrite Hstate in Hs, Hu. cbn [snd] in Hs, Hu.
  destruct (get_auth_state_frame E polls self w1) as [Hs1 _].
  rewrite Hs1, Hs, Hu, <- app_assoc. reflexivity.
Qed.

(** A client that is ready. *)
Lemma send_sms_code_in_another_state_witness :
  map method_of
    (sent (snd (send_sms_code (script_env ready_script 1) 3 c0 "12345"
                  (Some "secret"%string) w0)))
  = [Some "getAuthorizationState"%string; Some "getAuthorizationState"%string].
Proof.
  destruct (send_sms_code_in_another_state (script_env ready_script 1) 3 c0
              "12345" (Some "secret"%string) w0
              (snd (get_auth_state (script_env ready_script 1) 3 c0 w0))
              (VStr AuthStates.Ready)) as [_ Hsent];
    [vm_compute; reflexivity .. |].
  rewrite Hsent. reflexivity.
Defined.

(** X15.  In the password state with a password, [send_sms_code] does not
    send the code at all: it sends the password check, and when that
    returns it logs the answer and queries the state once more; when the
    check raises, the exception is passed on and nothing follows. *)
Theorem send_sms_code_with_password
    (E : environment) (polls : nat) (self : client) (sms_code p : string)
    (w w1 : world) (state : value) :
  get_auth_state E polls self w = (Ret state, w1) ->
  py_eq state (VStr AuthStates.WaitPassword) = true ->
  p <> ""%string ->
  (forall e w2,
     call_method E polls self "checkAuthenticationPassword" None
       [("password", VStr p)] w1 = (Raise e, w2) ->
     send_sms_code E polls self sms_code (Some p) w = (Raise e, w2)
     /\ sent w2
        = (sent w ++ [state_query E (uuids w);
                      request_sent "checkAuthenticationPassword"
                        (uuid_at E (S (uuids w)))
                        [("password", VStr p)]])%list)
  /\ (forall result w2,
        call_method E polls self "checkAuthenticationPassword" None
          [("password", VStr p)] w1 = (Ret result, w2) ->
        send_sms_code E polls self sms_code (Some p) w
        = (get_auth_state E polls self ;;; ret tt)
            (snd (log INFO (Fmt "checkAuthenticationPassword response: %s"
                                [result]) w2))
        /\ sent (snd (send_sms_code E polls self sms_code (Some p) w))
           = (sent w ++ [state_query E (uuids w);
                         request_sent "checkAuthenticationPassword"
                           (uuid_at E (S (uuids w)))
                           [("password", VStr p)];
                         state_query E (S (S (uuids w)))])%list).
Proof.
  intros Hstate Hpw Hp.
  assert (Hmissing : password_missing (Some p) = false).
  { simpl. now apply String.eqb_neq. }
  apply py_eq_str_inv_l in Hpw. subst state.
  destruct (get_auth_state_frame E polls self w) as [Hs Hu].
  rewrite Hstate in Hs, Hu. cbn [snd] in Hs, Hu.
  assert (Hhead : send_sms_code E polls self sms_code (Some p) w
                  = ((send_password_result <-
                        call_method E polls self "checkAuthenticationPassword"
                          None [("password", VStr p)] ;;
                      log INFO (Fmt "checkAuthenticationPassword response: %s"
                                    [send_password_result])) ;;;
                     get_auth_state E polls self ;;; ret tt) w1).
  { unfold send_sms_code. rewrite (bind_ret _ _ _ _ _ Hstate).
    unfold bind at 1.
    cbn [py_eq AuthStates.WaitPassword AuthStates.WaitCode
         String.eqb Ascii.eqb Bool.eqb ret].
    now rewrite Hmissing. }
  split.
  - intros e w2 Hcheck. split.
    + rewrite Hhead. unfold bind at 1.
      now rewrite (bind_raise _ _ _ _ _ Hcheck).
    + destruct (call_method_frame E polls self "checkAuthenticationPassword"
                  None [("password", VStr p)] w1) as (Hs2 & _).
      rewrite Hcheck in Hs2. cbn [snd] in Hs2.
      now rewrite Hs2, Hs, Hu, <- app_assoc.
  - intros result w2 Hcheck.
    assert (Hrun : send_sms_code E polls self sms_code (Some p) w
                   = (get_auth_state E polls self ;;; ret tt)
                       (snd (log INFO
                               (Fmt "checkAuthenticationPassword response: %s"
                                    [result]) w2))).
    { rewrite Hhead. unfold bind at 1.
      now rewrite (bind_ret _ _ _ _ _ Hcheck). }
    split; [exact Hrun|]. rewrite Hrun, bind_ret_tt_world.
    destruct (call_method_frame E polls self "checkAuthenticationPassword"
                None [("password", VStr p)] w1) as (Hs2 & Hu2 & _).
    rewrite Hcheck in Hs2, Hu2. cbn [snd] in Hs2, Hu2.
    remember (snd (log INFO (Fmt "checkAuthenticationPassword response: %s"
                                 [result]) w2)) as w3 eqn:Hw3.
    assert (Hlog : sent w3 = sent w2 /\ uuids w3 = uuids w2)
      by (subst w3; split; reflexivity).
    destruct Hlog as [Hs3' Hu3'].
    destruct (get_auth_state_frame E polls self w3) as [Hs3 _].
    now rewrite Hs3, Hs3', Hu3', Hs2, Hu2, Hs, Hu, <- !app_assoc.
Qed.

(** A password that is accepted. *)
Lemma send_sms_code_with_password_witness :
  map method_of
    (sent (snd (send_sms_code (script_env password_script 1) 3 c0 "12345"
                  (Some "secret"%string) w0)))
  = [Some "getAuthorizationState"%string;
     Some "checkAuthenticationPassword"%string;
     Some "getAuthorizationState"%string].
Proof.
  destruct (send_sms_code_with_password (script_env password_script 1) 3 c0
              "12345" "secret" w0
              (snd (get_auth_state (script_env password_script 1) 3 c0 w0))
              (VStr AuthStates.WaitPassword)) as [_ Hok];
    [vm_compute; reflexivity | reflexivity | discriminate |].
  destruct (Hok (nth 1 password_script VNone)
              (snd (call_method (script_env password_script 1) 3 c0
                      "checkAuthenticationPassword" None
                      [("password", VStr "secret")]
                      (snd (get_auth_state (script_env password_script 1)
                              3 c0 w0)))))
    as [_ Hsent]; [vm_compute; reflexivity|].
  rewrite Hsent. reflexivity.
Defined.

(** X16.  [log_out] passes over an [AuthError] or [AlreadyLoggingOut] of
    its [logOut] call and goes on as after a normal return: it queries
    the state and logs it.  Only that one call is guarded: an exception
    of the state query that follows, an [AuthError] included, is raised
    to the caller, and so is any exception of [logOut] that is no
    instance of the two classes. *)
Theorem log_out_guards_only_the_logOut_call
    (E : environment) (subclass : error_kind -> error_kind -> bool)
    (polls : nat) (self : client) (w : world) :
  subclass AuthError AuthError = true ->
  subclass AlreadyLoggingOut AlreadyLoggingOut = true ->
  let after w1 :=
    (state <- get_auth_state E polls self ;;
     log INFO (Fmt logged_out_format [VStr (phone self); state])) w1 in
  (forall k msg w1,
     k = AuthError \/ k = AlreadyLoggingOut ->
     call_method E polls self "logOut" None [] w
     = (Raise (TelegaError k msg), w1) ->
     log_out E subclass polls self w = after w1
     /\ forall e w2,
          get_auth_state E polls self w1 = (Raise e, w2) ->
          log_out E subclass polls self w = (Raise e, w2))
  /\ (forall result w1,
        call_method E polls self "logOut" None [] w = (Ret result, w1) ->
        log_out E subclass polls self w = after w1)
  /\ (forall e w1,
        call_method E polls self "logOut" None [] w = (Raise e, w1) ->
        caught subclass e [AuthError; AlreadyLoggingOut] = false ->
        log_out E subclass polls self w = (Raise e, w1)).
Proof.
  intros Hauth Hout after. subst after. cbv beta.
  split; [|split].
  - intros k msg w1 Hk Hcall.
    assert (Hrun : log_out E subclass polls self w
                   = (state <- get_auth_state E polls self ;;
                      log INFO (Fmt logged_out_format
                                    [VStr (phone self); state])) w1).
    { unfold log_out. unfold bind at 1. unfold try_pass. rewrite Hcall.
      assert (Hc : caught subclass (TelegaError k msg)
                     [AuthError; AlreadyLoggingOut] = true).
      { simpl. destruct Hk as [-> | ->].
        - now rewrite Hauth.
        - rewrite Hout. apply orb_true_r. }
      now rewrite Hc. }
    split; [exact Hrun|].
    intros e w2 Hstate. now rewrite Hrun, (bind_raise _ _ _ _ _ Hstate).
  - intros result w1 Hcall. unfold log_out. unfold bind at 1.
    unfold try_pass. now rewrite Hcall.
  - intros e w1 Hcall Hc. unfold log_out. unfold bind at 1.
    unfold try_pass. now rewrite Hcall, Hc.
Qed.

(** Logging out of a session that is no longer authorized: the 401 of
    [logOut] is passed over, the 401 of the state query is raised. *)
Lemma log_out_guards_only_the_logOut_call_witness :
  fst (log_out (script_env logged_out_script 1) same_class 3 c0 w0)
  = Raise (TelegaError AuthError
             (Some (exc_msg (VInt 401) (VStr "Unauthorized"))))
  /\ received (snd (log_out (script_env logged_out_script 1) same_class 3 c0 w0))
     = 2%nat.
Proof.
  destruct (log_out_guards_only_the_logOut_call
              (script_env logged_out_script 1) same_class 3 c0 w0
              eq_refl eq_refl) as (Hguard & _ & _).
  destruct (Hguard AuthError
              (Some (exc_msg (VInt 401) (VStr "Unauthorized")))
              (snd (call_method (script_env logged_out_script 1) 3 c0 "logOut"
                      None [] w0)) (or_introl eq_refl))
    as [_ Hraise]; [vm_compute; reflexivity|].
  rewrite (Hraise (TelegaError AuthError
                     (Some (exc_msg (VInt 401) (VStr "Unauthorized"))))
             (snd (get_auth_state (script_env logged_out_script 1) 3 c0
                     (snd (call_method (script_env logged_out_script 1) 3 c0
                             "logOut" None [] w0)))));
    [|vm_compute; reflexivity].
  split; [reflexivity|]. vm_compute. reflexivity.
Defined.

(** ** The requests of a listing *)

Section ChatRequests.

Variable E : environment.
Variable polls : nat.
Variable self : client.
Variable page_size : Z.

Lemma listing_nonempty st w pages st' w' :
  listing E polls self page_size st w pages st' w' -> pages <> [].
Proof. destruct 1; discriminate. Qed.

(** The envelopes and the delays of a run, page by page: the list only
    grows, so that the chat a page ends on is found in the list returned
    at the place where the chats of that page end. *)
Lemma listing_requests st w pages st' w' :
  listing E polls self page_size st w pages st' w' ->
  List.length (chats st) = List.length (added_chat_ids st) ->
  (exists tail, chats st' = (chats st ++ tail)%list)
  /\ List.length (chats st') = List.length (added_chat_ids st')
  /\ sent w'
     = (sent w ++ chat_requests E page_size (chats st') (uuids w)
                    (offset_order st) (added_chat_ids st) pages)%list
  /\ slept w'
     = (slept w ++ repeat (request_delay self) (List.length pages - 1))%list
  /\ logged w' = logged w.
Proof.
  induction 1 as [st w ids acc w2 Hf Hfull
                 |st w ids acc w2 front last_chat order pages st' w'
                    Hf Hfull Hlast Horder Hdelay Hl IH];
    intros Hlen0;
    destruct (fetched_spec E polls self page_size _ _ _ _ _ Hf)
      as (Hadded & _ & results & Hchats & Hlen & _ & Hs & Hu & Hsl & Hlg).
  - cbn [chats added_chat_ids chat_requests List.length Nat.sub repeat].
    rewrite !app_nil_r.
    split; [now exists results|].
    split; [rewrite Hchats, Hadded, !length_app; congruence|].
    auto.
  - assert (Hlen1 : List.length (fst acc) = List.length (snd acc))
      by (rewrite Hchats, Hadded, !length_app; congruence).
    cbn [chats added_chat_ids offset_order] in IH.
    destruct (IH Hlen1) as ((tail & Htail) & Hlen' & Hs' & Hsl' & Hlg').
    cbn [after_sleep sent slept logged uuids] in Hs', Hsl', Hlg'.
    split; [exists (results ++ tail)%list; now rewrite Htail, Hchats, app_assoc|].
    split; [exact Hlen'|].
    split; [|split; [|congruence]].
    + cbn [chat_requests]. cbv zeta.
      assert (Hcursor :
        order_of (last (firstn (List.length
                                  (added_chat_ids st
                                   ++ new_ids ids (added_chat_ids st))%list)
                          (chats st')) VNone) = order).
      { rewrite <- Hadded, <- Hlen1, Htail.
        rewrite firstn_app, firstn_all, Nat.sub_diag. cbn [firstn].
        rewrite app_nil_r, Hlast, last_last.
        unfold order_of. now rewrite Horder. }
      rewrite Hcursor, Hs', Hs, Hu, Hadded, <- !app_assoc. reflexivity.
    + rewrite Hsl', Hsl, <- app_assoc.
      apply listing_nonempty in Hl. destruct pages as [|p pages]; [congruence|].
      cbn [List.length Nat.sub]. rewrite Nat.sub_0_r. reflexivity.
Qed.

End ChatRequests.

(** X17.  A chat listing that returns went through pages of identifiers
    and has sent, for each page in turn, the [getChats] request for it,
    with the limit [page_size] and at the cursor, which is the largest
    order for the first page and the order of the chat that stood last in
    the list for every other page, followed by one [getChat] lookup for
    every identifier of the page not seen before, for that identifier and
    in the order of the page; it has sent nothing else, so that no chat
    is looked up twice.  It has looked up as many chats as it returns; it
    has slept the inter-page delay once between two pages and not after
    the last; it has logged nothing. *)
Theorem get_all_chats_requests_and_delays
    (E : environment) (n polls : nat) (self : client) (page_size : Z)
    (w w' : world) (result : list value) :
  get_all_chats E n polls self page_size w = (Ret result, w') ->
  exists pages st',
    (List.length pages <= n)%nat
    /\ listing E polls self page_size get_all_chats_init w pages st' w'
    /\ result = chats st'
    /\ List.length result = List.length (new_ids (List.concat pages) [])
    /\ sent w'
       = (sent w ++ chat_requests E page_size result (uuids w)
                      (VInt (2 ^ 63 - 1)) [] pages)%list
    /\ slept w'
       = (slept w ++ repeat (request_delay self) (List.length pages - 1))%list
    /\ logged w' = logged w.
Proof.
  intros H. unfold get_all_chats in H.
  destruct (page_size <=? 1); [discriminate|].
  apply bind_ret_inv in H. destruct H as (st' & w1 & Hloop & H).
  unfold ret in H. injection H as <- <-.
  apply loop_listing in Hloop. destruct Hloop as (pages & Hlen & Hl).
  destruct (listing_requests E polls self page_size _ _ _ _ _ Hl eq_refl)
    as (_ & Hlen' & Hs & Hsl & Hlg).
  destruct (listing_accumulates E polls self page_size _ _ _ _ _ Hl
              I (Forall_nil _)) as (Hadded & _).
  exists pages, st'.
  split; [exact Hlen|]. split; [exact Hl|]. split; [reflexivity|].
  split; [now rewrite Hlen', Hadded|].
  split; [exact Hs|]. split; [exact Hsl|exact Hlg].
Qed.

(** Three pages that overlap: six requests, the second page at the order
    of chat 11 and the third at that of chat 12, three lookups, two
    delays. *)
Lemma get_all_chats_requests_and_delays_witness :
  exists pages,
    sent (snd (get_all_chats (script_env overlapping_script 1) 3 3 c0 2 w0))
    = chat_requests (script_env overlapping_script 1) 2
        [reply "r1" (chat 10 "900"); reply "r2" (chat 11 "800");
         reply "r4" (chat 12 "700")] 0 (VInt (2 ^ 63 - 1)) [] pages
    /\ sent (snd (get_all_chats (script_env overlapping_script 1) 3 3 c0 2 w0))
       = [envelope "getChats" "r0"
            [("offset_order", VInt (2 ^ 63 - 1)); ("offset_chat_id", VInt 0);
             ("limit", VInt 2)];
          envelope "getChat" "r1" [("chat_id", VInt 10)];
          envelope "getChat" "r2" [("chat_id", VInt 11)];
          envelope "getChats" "r3"
            [("offset_order", VStr "800"); ("offset_chat_id", VInt 0);
             ("limit", VInt 2)];
          envelope "getChat" "r4" [("chat_id", VInt 12)];
          envelope "getChats" "r5"
            [("offset_order", VStr "700"); ("offset_chat_id", VInt 0);
             ("limit", VInt 2)]]
    /\ slept (snd (get_all_chats (script_env overlapping_script 1) 3 3 c0 2 w0))
       = repeat (request_delay c0) (List.length pages - 1)
    /\ slept (snd (get_all_chats (script_env overlapping_script 1) 3 3 c0 2 w0))
       = [request_delay c0; request_delay c0].
Proof.
  destruct (get_all_chats_requests_and_delays
              (script_env overlapping_script 1) 3 3 c0 2 w0
              (snd (get_all_chats (script_env overlapping_script 1) 3 3 c0 2 w0))
              [reply "r1" (chat 10 "900"); reply "r2" (chat 11 "800");
               reply "r4" (chat 12 "700")])
    as (pages & st' & _ & _ & _ & _ & Hs & Hsl & _);
    [vm_compute; reflexivity|].
  exists pages. cbn [sent w0 app uuids] in Hs. cbn [slept w0 app] in Hsl.
  split; [exact Hs|]. split; [vm_compute; reflexivity|].
  split; [exact Hsl|]. vm_compute. reflexivity.
Defined.

(** X18.  When the first page of identifiers is empty, the listing
    returns the empty list after that one request, without a lookup and
    without a delay, for any page size above one. *)
Theorem get_all_chats_without_chats
    (E : environment) (n polls : nat) (self : client) (page_size : Z)
    (w w1 : world) (result : value) :
  1 < page_size ->
  call_method E polls self "getChats" None
    [("offset_order", VInt (2 ^ 63 - 1));
     ("offset_chat_id", VInt 0);
     ("limit", VInt page_size)] w = (Ret result, w1) ->
  getitem result "chat_ids" = inr (VList []) ->
  get_all_chats E (S n) polls self page_size w = (Ret [], w1)
  /\ List.length (sent w1) = S (List.length (sent w))
  /\ slept w1 = slept w.
Proof.
  intros Hps Hcall Hids.
  assert (Hf : fetched E polls self page_size get_all_chats_init w [] ([], []) w1).
  { exists result, w1, (VList []). repeat split; try assumption. }
  split.
  - unfold get_all_chats.
    assert (Hvalid : (page_size <=? 1) = false) by now apply Z.leb_gt.
    rewrite Hvalid. cbn [get_all_chats_loop].
    unfold bind at 1. unfold bind at 1.
    now rewrite (get_all_chats_page_last E polls self page_size _ _ _ _ _ Hf
                   eq_refl).
  - destruct (call_method_frame E polls self "getChats" None
                [("offset_order", VInt (2 ^ 63 - 1));
                 ("offset_chat_id", VInt 0);
                 ("limit", VInt page_size)] w) as (Hs & _ & Hsl & _).
    rewrite Hcall in Hs, Hsl. cbn [snd] in Hs, Hsl.
    split; [|exact Hsl]. rewrite Hs, length_app. simpl. lia.
Qed.

(** An account without chats. *)
Lemma get_all_chats_without_chats_witness :
  fst (get_all_chats (script_env no_chats_script 1) 1 3 c0 100 w0) = Ret [].
Proof.
  destruct (get_all_chats_without_chats (script_env no_chats_script 1) 0 3 c0
              100 w0
              (snd (call_method (script_env no_chats_script 1) 3 c0 "getChats"
                      None
                      [("offset_order", VInt (2 ^ 63 - 1));
                       ("offset_chat_id", VInt 0);
                       ("limit", VInt 100)] w0))
              (nth 0 no_chats_script VNone))
    as [Hrun _]; [lia | vm_compute; reflexivity | reflexivity |].
  now rewrite Hrun.
Defined.

Section MemberRequests.

Variable E : environment.
Variable polls : nat.
Variable self : client.
Variable chat : value.
Variable page_size : Z.

Lemma member_listing_nonempty st w run st' w' :
  member_listing E polls self chat page_size st w run st' w' -> run <> [].
Proof. destruct 1; discriminate. Qed.

(** The envelopes and the delays of a run, page by page. *)
Lemma member_listing_requests st w run st' w' :
  member_listing E polls self chat page_size st w run st' w' ->
  exists chat_type supergroup_id,
    getitem chat "type" = inr chat_type
    /\ getitem chat_type "supergroup_id" = inr supergroup_id
    /\ sent w'
       = (sent w ++ member_requests E page_size supergroup_id (uuids w)
                      (offset st) run)%list
    /\ uuids w' = (uuids w + List.length run)%nat
    /\ slept w'
       = (slept w ++ repeat (request_delay self) (List.length run - 1))%list.
Proof.
  induction 1 as [st w acc total w1 Hf
                 |st w page acc total w1 pages st' w' Hf Hne Hdelay Hl IH];
    destruct (members_fetched_spec E polls self chat page_size _ _ _ _ _ _ Hf)
      as (chat_type & supergroup_id & Htype & Hsid & Hs & Hu & Hsl & _).
  - exists chat_type, supergroup_id.
    cbn [world_after_members after_log sent uuids slept member_requests
         List.length Nat.sub repeat].
    rewrite app_nil_r. split; [exact Htype|]. split; [exact Hsid|].
    split; [exact Hs|]. split; [lia|exact Hsl].
  - destruct IH as (chat_type' & supergroup_id' & Htype' & Hsid' & Hs' & Hu'
                    & Hsl').
    assert (chat_type' = chat_type) by congruence. subst chat_type'.
    assert (supergroup_id' = supergroup_id) by congruence. subst supergroup_id'.
    destruct page as [|m page]; [congruence|].
    cbn [world_after_members members_after offset after_log after_sleep
         sent uuids slept] in Hs', Hu', Hsl'.
    exists chat_type, supergroup_id.
    split; [exact Htype|]. split; [exact Hsid|].
    split; [|split].
    + cbn [member_requests]. rewrite Hs', Hs, Hu, <- app_assoc. reflexivity.
    + rewrite Hu', Hu. simpl. lia.
    + rewrite Hsl', Hsl, <- app_assoc.
      apply member_listing_nonempty in Hl.
      destruct pages as [|p pages]; [congruence|].
      cbn [List.length Nat.sub]. rewrite Nat.sub_0_r. reflexivity.
Qed.

End MemberRequests.

(** X19.  A supergroup listing that returns went through pages of
    members and has sent, for each page in turn, one
    [getSupergroupMembers] request for the supergroup of the chat, with
    the limit [page_size] and with the offset at which the members
    received so far end, duplicates counted: the offset moves by what a
    page holds, not by what it adds, and ends at the number of members
    received.  It has sent nothing else.  It returns only members that
    the pages held.  It has slept the delay once after every page with
    members, which is once less than there are pages. *)
Theorem super_group_members_requests_and_delays
    (E : environment) (n polls : nat) (self : client) (chat : value)
    (page_size : Z) (w w' : world) (result : list value) :
  _get_super_group_members E n polls self chat page_size w
  = (Ret result, w') ->
  exists run st' w1 chat_type supergroup_id,
    (List.length run <= n)%nat
    /\ member_listing E polls self chat page_size
         _get_super_group_members_init w run st' w1
    /\ result = members st'
    /\ getitem chat "type" = inr chat_type
    /\ getitem chat_type "supergroup_id" = inr supergroup_id
    /\ sent w'
       = (sent w ++ member_requests E page_size supergroup_id (uuids w) 0
                      run)%list
    /\ offset st' = Z.of_nat (List.length (List.concat run))
    /\ incl result (List.concat run)
    /\ slept w'
       = (slept w ++ repeat (request_delay self) (List.length run - 1))%list.
Proof.
  intros H. unfold _get_super_group_members in H.
  destruct (page_size <=? 1); [discriminate|].
  apply bind_ret_inv in H. destruct H as (st' & w1 & Hloop & H).
  cbv zeta in H.
  assert (Hw : result = members st' /\ sent w' = sent w1 /\ slept w' = slept w1).
  { destruct (negb (py_eq (total_count st') _)); unfold bind, log, ret in H;
      injection H as <- <-; auto. }
  destruct Hw as (-> & Hsw & Hslw).
  apply loop_member_listing in Hloop. destruct Hloop as (run & Hlen & Hl).
  destruct (member_listing_requests E polls self chat page_size _ _ _ _ _ Hl)
    as (chat_type & supergroup_id & Htype & Hsid & Hs & _ & Hsl).
  destruct (member_listing_accumulates E polls self chat page_size
              _ _ _ _ _ Hl I (Forall_nil _) eq_refl)
    as (_ & _ & _ & _ & Ho & Hincl & _).
  exists run, st', w1, chat_type, supergroup_id.
  split; [exact Hlen|]. split; [exact Hl|]. split; [reflexivity|].
  split; [exact Htype|]. split; [exact Hsid|].
  split; [now rewrite Hsw, Hs|]. split; [exact Ho|].
  split; [exact Hincl|congruence].
Qed.

(** The supergroup whose pages share user 2: offsets 0, 2 and 4, for
    three members. *)
Lemma super_group_members_requests_and_delays_witness :
  exists run,
    sent (snd (_get_super_group_members (script_env members_script 1) 4 3 c0
                 (nth 0 members_script VNone) 2
                 (snd (call_method (script_env members_script 1) 3 c0
                         "getChat" None [("chat_id", VInt 5)] w0))))
    = (sent (snd (call_method (script_env members_script 1) 3 c0
                    "getChat" None [("chat_id", VInt 5)] w0))
       ++ member_requests (script_env members_script 1) 2 (VInt 77) 1 0 run)%list
    /\ sent (snd (_get_super_group_members (script_env members_script 1) 4 3
                    c0 (nth 0 members_script VNone) 2
                    (snd (call_method (script_env members_script 1) 3 c0
                            "getChat" None [("chat_id", VInt 5)] w0))))
       = [envelope "getChat" "r0" [("chat_id", VInt 5)];
          envelope "getSupergroupMembers" "r1"
            [("supergroup_id", VInt 77); ("offset", VInt 0); ("limit", VInt 2)];
          envelope "getSupergroupMembers" "r2"
            [("supergroup_id", VInt 77); ("offset", VInt 2); ("limit", VInt 2)];
          envelope "getSupergroupMembers" "r3"
            [("supergroup_id", VInt 77); ("offset", VInt 4); ("limit", VInt 2)]].
Proof.
  destruct (super_group_members_requests_and_delays
              (script_env members_script 1) 4 3 c0
              (nth 0 members_script VNone) 2
              (snd (call_method (script_env members_script 1) 3 c0 "getChat"
                      None [("chat_id", VInt 5)] w0))
              (snd (_get_super_group_members (script_env members_script 1)
                      4 3 c0 (nth 0 members_script VNone) 2
                      (snd (call_method (script_env members_script 1) 3 c0
                              "getChat" None [("chat_id", VInt 5)] w0))))
              [member 1; member 2; member 3])
    as (run & st' & w1 & chat_type & supergroup_id & _ & _ & _ & Htype & Hsid
        & Hs & _ & _ & _);
    [vm_compute; reflexivity|].
  exists run.
  assert (Hct : chat_type = VDict [("@type", VStr "chatTypeSupergroup");
                                   ("supergroup_id", VInt 77)]).
  { vm_compute in Htype. now injection Htype as <-. }
  subst chat_type.
  assert (Hid : supergroup_id = VInt 77).
  { vm_compute in Hsid. now injection Hsid as <-. }
  subst supergroup_id.
  split; [exact Hs|]. vm_compute. reflexivity.
Defined.

(** ** Resolving members *)

Section Users.

Variable E : environment.
Variable polls : nat.
Variable self : client.

Lemma get_users_requests (members : list value) :
  forall w users w',
    get_users E polls self members w = (Ret users, w') ->
    List.length users = List.length members
    /\ exists new,
         sent w' = (sent w ++ new)%list
         /\ map (fun request => getitem request "user_id") new
            = map (fun m => getitem m "user_id") members
         /\ Forall (fun request => method_of request = Some "getUser"%string)
              new.
Proof.
  induction members as [|m members IH]; intros w users w' H.
  - simpl in H. unfold ret in H. injection H as <- <-.
    split; [reflexivity|]. exists []. rewrite app_nil_r. auto.
  - cbn [get_users] in H.
    apply bind_ret_inv in H. destruct H as (user_id & w0' & Hid & H).
    apply lift_ret_inv in Hid. destruct Hid as [Hid ->].
    apply bind_ret_inv in H. destruct H as (user & w1 & Huser & H).
    apply bind_ret_inv in H. destruct H as (users' & w2 & Hrest & H).
    unfold ret in H. injection H as <- <-.
    apply IH in Hrest. destruct Hrest as (Hlen & new & Hs & Hm & Hall).
    destruct (call_method_frame E polls self "getUser" None
                [("user_id", user_id)] w) as (Hs1 & _).
    unfold get_user in Huser. rewrite Huser in Hs1. cbn [snd] in Hs1.
    split; [simpl; congruence|].
    exists (request_sent "getUser" (uuid_at E (uuids w))
              [("user_id", user_id)] :: new).
    split; [now rewrite Hs, Hs1, <- app_assoc|].
    split; [cbn [map]; rewrite Hm, Hid; reflexivity|].
    now constructor.
Qed.

(** A member without a user stops the resolution where it stands. *)
Lemma get_users_stops (before : list value) :
  forall w users w1 m after e,
    get_users E polls self before w = (Ret users, w1) ->
    getitem m "user_id" = inl e ->
    get_users E polls self (before ++ m :: after) w = (Raise e, w1).
Proof.
  induction before as [|b before IH]; intros w users w1 m after e H Hm.
  - simpl in H. unfold ret in H. injection H as <- <-.
    cbn [app get_users]. now rewrite Hm.
  - cbn [get_users] in H.
    apply bind_ret_inv in H. destruct H as (user_id & w0' & Hid & H).
    apply lift_ret_inv in Hid. destruct Hid as [Hid ->].
    apply bind_ret_inv in H. destruct H as (user & w2 & Huser & H).
    apply bind_ret_inv in H. destruct H as (users' & w3 & Hrest & H).
    unfold ret in H. injection H as <- <-.
    cbn [app get_users]. rewrite Hid. cbn [lift]. unfold bind at 1. cbn [ret].
    rewrite (bind_ret _ _ _ _ _ Huser).
    now rewrite (bind_raise _ _ _ _ _ (IH _ _ _ m after e Hrest Hm)).
Qed.

End Users.

(** X20.  The members of a group are resolved one by one, in their
    order, by one [getUser] request each for the member's user
    identifier: as many users come back as there are members, and a user
    listed twice is asked for twice.  A member without 'user_id' raises
    [KeyError] after the members before it have been resolved; their
    users are not returned. *)
Theorem get_users_resolves_each_member
    (E : environment) (polls : nat) (self : client) (members : list value)
    (w : world) :
  (forall users w',
     get_users E polls self members w = (Ret users, w') ->
     List.length users = List.length members
     /\ exists new,
          sent w' = (sent w ++ new)%list
          /\ map (fun request => getitem request "user_id") new
             = map (fun m => getitem m "user_id") members
          /\ Forall (fun request => method_of request = Some "getUser"%string)
               new)
  /\ (forall users w' m after,
        get_users E polls self members w = (Ret users, w') ->
        (forall d, m = VDict d -> dict_get "user_id" d = None) ->
        (exists d, m = VDict d) ->
        get_users E polls self (members ++ m :: after) w
        = (Raise (KeyError "user_id"), w')).
Proof.
  split.
  - intros users w' H. now apply (get_users_requests E polls self members w).
  - intros users w' m after H Hno (d & ->).
    apply (get_users_stops E polls self members w users w' (VDict d) after
             (KeyError "user_id") H).
    unfold getitem. now rewrite (Hno d eq_refl).
Qed.

(** User 1 listed twice, and then a member without a user. *)
Lemma get_users_resolves_each_member_witness :
  map (fun request => getitem request "user_id")
    (sent (snd (get_users (script_env twice_script 1) 3 c0
                  [member 1; member 2; member 1] w0)))
  = [inr (VInt 1); inr (VInt 2); inr (VInt 1)]
  /\ fst (get_users (script_env twice_script 1) 3 c0
            ([member 1; member 2; member 1] ++ [VDict []]) w0)
     = Raise (KeyError "user_id").
Proof.
  destruct (get_users_resolves_each_member (script_env twice_script 1) 3 c0
              [member 1; member 2; member 1] w0) as [Hok Hstop].
  assert (Hrun :
    get_users (script_env twice_script 1) 3 c0
      [member 1; member 2; member 1] w0
    = (Ret [reply "r0" (user 1); reply "r1" (user 2); reply "r2" (user 1)],
       snd (get_users (script_env twice_script 1) 3 c0
              [member 1; member 2; member 1] w0)))
    by (vm_compute; reflexivity).
  split.
  - destruct (Hok _ _ Hrun) as (_ & new & Hs & Hm & _).
    rewrite Hs. cbn [w0 sent app]. rewrite Hm. reflexivity.
  - rewrite (Hstop _ _ (VDict []) [] Hrun); [reflexivity| |].
    + intros d Hd. injection Hd as <-. reflexivity.
    + now exists [].
Defined.

(** ** Module constants *)

Local Open Scope list_scope.

Lemma parents_snoc (p : path) (x : string) :
  parents (p ++ [x]) = p :: parents p.
Proof.
  unfold parents. rewrite length_app. cbn [List.length].
  rewrite Nat.add_1_r, seq_S, rev_app_distr. cbn [rev app map plus].
  f_equal.
  - rewrite firstn_app, Nat.sub_diag, firstn_all. cbn [firstn].
    apply app_nil_r.
  - apply map_ext_in. intros n Hn. apply in_rev, in_seq in Hn.
    rewrite firstn_app.
    replace (n - List.length p)%nat with 0%nat by lia.
    cbn [firstn]. apply app_nil_r.
Qed.

Lemma path_name_snoc (p : path) (x : string) : path_name (p ++ [x]) = x.
Proof. unfold path_name. apply last_last. Qed.

(** The search through the directories, innermost first. *)
Lemma ABS_BASE_DIR_snoc (dirs : path) (d name : string) :
  ABS_BASE_DIR ((dirs ++ [d]) ++ [name])
  = if (d =? BASE_DIR)%string then inr (dirs ++ [d])
    else ABS_BASE_DIR (dirs ++ [name]).
Proof.
  unfold ABS_BASE_DIR. rewrite !parents_snoc.
  cbn [filter]. rewrite path_name_snoc.
  now destruct (d =? BASE_DIR)%string.
Qed.

(** X21.  The base directory of the module is the innermost directory
    above the file that is named telega, whatever stands outside it; when
    no directory above the file bears that name, the list the module
    indexes is empty and importing it raises [IndexError]. *)
Theorem ABS_BASE_DIR_is_the_innermost_telega (dirs : path) (name : string) :
  (~ In BASE_DIR dirs -> ABS_BASE_DIR (dirs ++ [name]) = inl IndexError)
  /\ (forall before after,
        dirs = (before ++ BASE_DIR :: after)%list ->
        ~ In BASE_DIR after ->
        ABS_BASE_DIR (dirs ++ [name]) = inr (before ++ [BASE_DIR])).
Proof.
  split.
  - induction dirs as [|d dirs IH] using rev_ind; intros Hnot.
    + reflexivity.
    + rewrite ABS_BASE_DIR_snoc.
      destruct (d =? BASE_DIR)%string eqn:Hd.
      * apply String.eqb_eq in Hd. subst d. exfalso. apply Hnot.
        apply in_or_app. right. now left.
      * apply IH. intros Hin. apply Hnot. apply in_or_app. now left.
  - intros before after. revert dirs.
    induction after as [|d after IH] using rev_ind; intros dirs -> Hnot.
    + change (before ++ [BASE_DIR])%list with (before ++ [BASE_DIR])%list.
      rewrite ABS_BASE_DIR_snoc. now rewrite String.eqb_refl.
    + replace (before ++ BASE_DIR :: after ++ [d])%list
        with ((before ++ BASE_DIR :: after) ++ [d])%list
        by (rewrite <- app_assoc; reflexivity).
      rewrite ABS_BASE_DIR_snoc.
      destruct (d =? BASE_DIR)%string eqn:Hd.
      * apply String.eqb_eq in Hd. subst d. exfalso. apply Hnot.
        apply in_or_app. right. now left.
      * apply IH; [reflexivity|].
        intros Hin. apply Hnot. apply in_or_app. now left.
Qed.

(** A checkout named telega that holds the package telega: the inner
    directory is the base, and the library is looked for below it. *)
Lemma ABS_BASE_DIR_is_the_innermost_telega_witness :
  ABS_BASE_DIR checkout = inr ["home"; "user"; "telega"; "telega"]%string
  /\ DEFAULT_TDLIB_PATH checkout
     = inr "/home/user/telega/telega/td_lib/linux/libtdjson.so"%string
  /\ ABS_BASE_DIR ["srv"; "app"; "client.py"]%string = inl IndexError.
Proof.
  split; [|split].
  - apply (ABS_BASE_DIR_is_the_innermost_telega
             ["home"; "user"; "telega"; "telega"]%string "client.py"
           ) with (before := ["home"; "user"; "telega"]%string) (after := []).
    + reflexivity.
    + simpl. tauto.
  - reflexivity.
  - apply (ABS_BASE_DIR_is_the_innermost_telega ["srv"; "app"]%string
             "client.py").
    simpl. intuition discriminate.
Defined.

Local Open Scope string_scope.
Local Open Scope Z_scope.

(** ** Requesting a code *)

(** X22.  Asking for a code on a session that is authorized already:
    when the answer to the request is the error that
    [setAuthenticationPhoneNumber] was unexpected, [auth_request] raises
    [AlreadyAuthorized]; it has sent the configured phone number with
    flash calls off, and has logged the request and no response. *)
Theorem auth_request_when_already_authorized
    (E : environment) (polls : nat) (self : client) (w : world) (d : dict) :
  (0 < polls)%nat ->
  receive_at E (received w) = VDict d ->
  is_error_envelope d ->
  message_of d = VStr "setAuthenticationPhoneNumber unexpected" ->
  received_request_id (VDict d) = inr (VStr (uuid_at E (uuids w))) ->
  exists w',
    auth_request E polls self w
    = (Raise (TelegaError AlreadyAuthorized
                (Some (Fmt "Telegram error: %s -> %s"
                           [code_of d;
                            VStr "setAuthenticationPhoneNumber unexpected"]))),
       w')
    /\ sent w'
       = (sent w
          ++ [VDict [("@type", VStr "setAuthenticationPhoneNumber");
                     ("@extra",
                      VDict [("request_id", VStr (uuid_at E (uuids w)))]);
                     ("phone_number", VStr (phone self));
                     ("allow_flash_call", VBool false);
                     ("is_current_phone_number", VBool true)]])%list
    /\ logged w'
       = (logged w
          ++ [(INFO, Fmt "Sending code request for phone number (%s)"
                         [VStr (phone self)])])%list.
Proof.
  intros Hpolls Hrecv Herr Hmsg Hid.
  assert (Htruthy : truthy (VDict d) = true).
  { destruct Herr as (ty & Hty & _). now destruct d. }
  set (w1 := snd (log INFO (Fmt "Sending code request for phone number (%s)"
                                [VStr (phone self)]) w)).
  destruct (wait_loop_first_match E (uuid_at E (uuids w))
              (timeout_or None (request_timeout self))
              (time_at E (clock_reads w1)) (VDict d) Htruthy Hid 0
              (after_send E "setAuthenticationPhoneNumber"
                 [("phone_number", VStr (phone self));
                  ("allow_flash_call", VBool false);
                  ("is_current_phone_number", VBool true)] w1))
    with (polls := polls) as (w' & Hw' & _).
  - intros j Hj. lia.
  - intros j Hj. lia.
  - simpl. now rewrite Nat.add_0_r.
  - exact Hpolls.
  - exists w'.
    assert (Hcall :
      call_method E polls self "setAuthenticationPhoneNumber" None
        [("phone_number", VStr (phone self));
         ("allow_flash_call", VBool false);
         ("is_current_phone_number", VBool true)] w1
      = (Raise (TelegaError AlreadyAuthorized
                  (Some (Fmt "Telegram error: %s -> %s"
                             [code_of d;
                              VStr "setAuthenticationPhoneNumber unexpected"]))),
         w')).
    { rewrite call_method_unfold. change (uuids w1) with (uuids w).
      rewrite Hw'. unfold verdict.
      rewrite (_handle_errors_error d Herr), Hmsg. reflexivity. }
    split.
    + unfold auth_request. unfold bind at 1. cbn [log]. fold w1.
      change (snd (Ret tt, ?x)) with x.
      now rewrite (bind_raise _ _ _ _ _ Hcall).
    + destruct (call_method_frame E polls self "setAuthenticationPhoneNumber"
                  None
                  [("phone_number", VStr (phone self));
                   ("allow_flash_call", VBool false);
                   ("is_current_phone_number", VBool true)] w1)
        as (Hs & _ & _ & Hl).
      rewrite Hcall in Hs, Hl. cbn [snd] in Hs, Hl.
      split; [exact Hs|exact Hl].
Qed.

(** The error as the first envelope on the channel. *)
Lemma auth_request_when_already_authorized_witness :
  exists w',
    auth_request (script_env [reply "r0" already_authorized] 1) 3 c0 w0
    = (Raise (TelegaError AlreadyAuthorized
                (Some (Fmt "Telegram error: %s -> %s"
                           [VInt 400;
                            VStr "setAuthenticationPhoneNumber unexpected"]))),
       w')
    /\ List.length (logged w') = 1%nat.
Proof.
  destruct (auth_request_when_already_authorized
              (script_env [reply "r0" already_authorized] 1) 3 c0 w0
              (("@extra", VDict [("request_id", VStr "r0")])
               :: already_authorized))
    as (w' & Hrun & _ & Hl).
  - lia.
  - reflexivity.
  - exists (VStr "error"). split; reflexivity.
  - reflexivity.
  - reflexivity.
  - exists w'. split; [exact Hrun|]. now rewrite Hl.
Defined.
